(** * A shallow embedding of nr-labs-chart-refresh-updater.py

    Python objects live in a heap: a dict or a list is a location, and
    mutation through one reference is seen through every other one.
    Every call that touches the network, the file system or the heap is
    a computation in a state and exception monad whose state holds the
    heap, the trace of outside interactions and the mock GraphQL server. *)

From Stdlib Require Import String Ascii List ZArith Lia Bool RelationClasses.
Import ListNotations.
Set Warnings "-register-all".
Open Scope string_scope.
Open Scope list_scope.

Notation "a ^^ b" := (String.append a b) (at level 60, right associativity).

(* ------------------------------------------------------------------ *)
(** ** String helpers used by the source ([str.split], [str.join],
    [in] on strings, [%d] formatting) *)

(** [s.split('.')] with an explicit separator, as Python does it *)
Fixpoint split_on (sep : ascii) (s : string) : list string :=
  match s with
  | EmptyString => [""]
  | String c rest =>
      match split_on sep rest with
      | [] => [] (* never: the result is never empty *)
      | w :: ws =>
          if Ascii.eqb c sep then "" :: w :: ws else String c w :: ws
      end
  end.

(** [sep.join(xs)] *)
Fixpoint join (sep : string) (xs : list string) : string :=
  match xs with
  | [] => ""
  | [x] => x
  | x :: rest => x ^^ sep ^^ join sep rest
  end.

Fixpoint is_prefix (p s : string) : bool :=
  match p, s with
  | EmptyString, _ => true
  | String a p', String b s' => Ascii.eqb a b && is_prefix p' s'
  | String _ _, EmptyString => false
  end.

(** [p in s] for two strings *)
Fixpoint substring_of (p s : string) : bool :=
  is_prefix p s ||
  match s with
  | EmptyString => false
  | String _ s' => substring_of p s'
  end.

Fixpoint chars (s : string) : list string :=
  match s with
  | EmptyString => []
  | String c rest => String c EmptyString :: chars rest
  end.

Definition digit (n : Z) : string :=
  String (ascii_of_nat (48 + Z.to_nat n)) EmptyString.

Fixpoint digits_fuel (fuel : nat) (n : Z) : string :=
  match fuel with
  | O => ""
  | S f => if (n <? 10)%Z then digit n
           else digits_fuel f (n / 10)%Z ^^ digit (n mod 10)%Z
  end.

(** [str(n)] / [%d] of a Python int *)
Definition Z_to_string (n : Z) : string :=
  let fuel := S (Z.to_nat (Z.log2_up (Z.abs n + 1)%Z)) in
  if (n <? 0)%Z then "-" ^^ digits_fuel fuel (- n)%Z else digits_fuel fuel n.

(* ------------------------------------------------------------------ *)
(** ** Python values and the heap *)

Definition loc := nat.

(** A Python value: [None], a bool, an int, a str, or a reference to a
    heap object (dicts and lists are the only objects the program builds
    or decodes). *)
Inductive val : Type :=
| VNone
| VBool (b : bool)
| VInt (z : Z)
| VStr (s : string)
| VRef (l : loc).

(** A dict keeps its insertion order; a list its elements. *)
Inductive obj : Type :=
| ODict (kvs : list (string * val))
| OList (xs : list val).

Definition heap := list obj.

(** JSON text as it crosses the wire, already tokenised: what [json.loads]
    reads and what [json.dumps] writes. *)
Inductive json : Type :=
| JNull
| JBool (b : bool)
| JNum (z : Z)
| JStr (s : string)
| JArr (xs : list json)
| JObj (kvs : list (string * json)).

(** The exceptions the program raises or lets through.  [PyError] stands
    for the built-in ones ([TypeError], [KeyError], [ValueError], ...). *)
Inductive exc : Type :=
| GraphQLApiError (message : string) (status : Z) (reason : string)
| DashboardNotFoundError (message : string)
| DashboardValidationError (message : string)
| PyError (kind : string).

(** The body of an HTTP reply: reading it may fail with [OSError]; what is
    read may not be JSON ([json.loads] then raises). *)
Inductive body : Type :=
| ReadFails (os_error : string)
| BodyText (parsed : option json).

(** What [urlopen] does for one request. *)
Inductive http_outcome : Type :=
| HTTPErrorRaised (code : Z) (reason : string)
| URLErrorRaised
| Response (status : Z) (reason : string) (b : body).

(** The program's interactions with the outside world, in order. *)
Inductive event : Type :=
| EPost (url : string) (payload : json)
| EBackup (dir : string) (guid : val) (snapshot : json).

(** The GraphQL server answers the [n]-th request (counted from 0) sent to
    [url] with [payload]. *)
Definition server := nat -> string -> json -> http_outcome.

Record state : Type := mkState {
  heap_of : heap;
  trace_of : list event;
  ncalls : nat;
  srv : server
}.

Inductive outcome (A : Type) : Type :=
| Ok (a : A)
| Raise (e : exc)
| OutOfFuel.
Arguments Ok {A} a.
Arguments Raise {A} e.
Arguments OutOfFuel {A}.

Definition M (A : Type) : Type := state -> outcome A * state.

Definition ret {A} (a : A) : M A := fun s => (Ok a, s).
Definition raise {A} (e : exc) : M A := fun s => (Raise e, s).
Definition bind {A B} (m : M A) (k : A -> M B) : M B :=
  fun s =>
    match m s with
    | (Ok a, s') => k a s'
    | (Raise e, s') => (Raise e, s')
    | (OutOfFuel, s') => (OutOfFuel, s')
    end.

Notation "x <- m ;; k" := (bind m (fun x => k))
  (at level 61, m at next level, right associativity).
Notation "m ;;; k" := (bind m (fun _ => k))
  (at level 61, right associativity).

Definition get_heap : M heap := fun s => (Ok (heap_of s), s).
Definition put_heap (h : heap) : M unit :=
  fun s => (Ok tt, mkState h (trace_of s) (ncalls s) (srv s)).
Definition emit (e : event) : M unit :=
  fun s => (Ok tt, mkState (heap_of s) (trace_of s ++ [e]) (ncalls s) (srv s)).

(* ------------------------------------------------------------------ *)
(** ** Heap primitives: allocation, and the dict/list operations the
    source performs *)

Fixpoint set_nth {A} (xs : list A) (n : nat) (x : A) : list A :=
  match xs, n with
  | [], _ => []
  | _ :: r, O => x :: r
  | y :: r, S n' => y :: set_nth r n' x
  end.

Fixpoint lookup (k : string) (d : list (string * val)) : option val :=
  match d with
  | [] => None
  | (k', v) :: r => if String.eqb k k' then Some v else lookup k r
  end.

(** [d[k] = v]: an existing key keeps its position, a new one goes last *)
Fixpoint assoc_set (k : string) (v : val) (d : list (string * val))
  : list (string * val) :=
  match d with
  | [] => [(k, v)]
  | (k', v') :: r =>
      if String.eqb k k' then (k', v) :: r else (k', v') :: assoc_set k v r
  end.

(** [del d[k]] *)
Fixpoint assoc_del (k : string) (d : list (string * val)) : list (string * val) :=
  match d with
  | [] => []
  | (k', v') :: r => if String.eqb k k' then r else (k', v') :: assoc_del k r
  end.

Definition alloc (o : obj) : M loc :=
  h <- get_heap ;; put_heap (h ++ [o]) ;;; ret (length h).

Definition dict_of (h : heap) (v : val) : option (list (string * val)) :=
  match v with
  | VRef l => match nth_error h l with Some (ODict d) => Some d | _ => None end
  | _ => None
  end.

Definition list_of (h : heap) (v : val) : option (list val) :=
  match v with
  | VRef l => match nth_error h l with Some (OList xs) => Some xs | _ => None end
  | _ => None
  end.

(** [isinstance(v, dict)] and [isinstance(v, list)] *)
Definition is_dict (h : heap) (v : val) : bool :=
  match dict_of h v with Some _ => true | None => false end.
Definition is_list (h : heap) (v : val) : bool :=
  match list_of h v with Some _ => true | None => false end.

(** Python truthiness *)
Definition truthy (h : heap) (v : val) : bool :=
  match v with
  | VNone => false
  | VBool b => b
  | VInt z => negb (Z.eqb z 0)
  | VStr s => negb (String.eqb s "")
  | VRef l =>
      match nth_error h l with
      | Some (ODict d) => negb (Nat.eqb (length d) 0)
      | Some (OList xs) => negb (Nat.eqb (length xs) 0)
      | None => true
      end
  end.

Definition type_error {A} : M A := raise (PyError "TypeError").

(** [v.get(k)] *)
Definition py_get (v : val) (k : string) : M val :=
  h <- get_heap ;;
  match dict_of h v with
  | Some d => ret (match lookup k d with Some x => x | None => VNone end)
  | None => raise (PyError "AttributeError")
  end.

(** [v[k]] with a str key *)
Definition py_getitem (v : val) (k : string) : M val :=
  h <- get_heap ;;
  match dict_of h v with
  | Some d => match lookup k d with
              | Some x => ret x
              | None => raise (PyError "KeyError")
              end
  | None => type_error
  end.

(** [v[k] = x] with a str key *)
Definition py_setitem (v : val) (k : string) (x : val) : M unit :=
  h <- get_heap ;;
  match v, dict_of h v with
  | VRef l, Some d => put_heap (set_nth h l (ODict (assoc_set k x d)))
  | _, _ => type_error
  end.

(** [del v[k]] *)
Definition py_delitem (v : val) (k : string) : M unit :=
  h <- get_heap ;;
  match v, dict_of h v with
  | VRef l, Some d =>
      match lookup k d with
      | Some _ => put_heap (set_nth h l (ODict (assoc_del k d)))
      | None => raise (PyError "KeyError")
      end
  | _, _ => type_error
  end.

(** [k in v] with a str [k] *)
Definition py_contains (v : val) (k : string) : M bool :=
  h <- get_heap ;;
  match v with
  | VStr s => ret (substring_of k s)
  | VRef l =>
      match nth_error h l with
      | Some (ODict d) => ret (match lookup k d with Some _ => true | None => false end)
      | Some (OList xs) =>
          ret (existsb (fun x => match x with VStr s => String.eqb s k | _ => false end) xs)
      | None => type_error
      end
  | _ => type_error
  end.

(** [for x in v]: the elements of a list, the keys of a dict, the
    characters of a str *)
Definition py_iter (v : val) : M (list val) :=
  h <- get_heap ;;
  match v with
  | VStr s => ret (map VStr (chars s))
  | VRef l =>
      match nth_error h l with
      | Some (ODict d) => ret (map (fun kv => VStr (fst kv)) d)
      | Some (OList xs) => ret xs
      | None => type_error
      end
  | _ => type_error
  end.

(** [v.append(x)] on a list *)
Definition py_append (v : val) (x : val) : M unit :=
  h <- get_heap ;;
  match v, list_of h v with
  | VRef l, Some xs => put_heap (set_nth h l (OList (xs ++ [x])))
  | _, _ => raise (PyError "AttributeError")
  end.

(** [len(v)] of a list *)
Definition py_len_list (v : val) : M nat :=
  h <- get_heap ;;
  match list_of h v with
  | Some xs => ret (length xs)
  | None => type_error
  end.

(* ------------------------------------------------------------------ *)
(** ** [json.loads] and [json.dump(s)] *)

(** Decoding allocates every array and object; an object is built the way
    [dict(pairs)] builds it, so a repeated key keeps its first position and
    its last value. *)
Fixpoint loads_arr (loads : json -> heap -> val * heap) (js : list json) (h : heap)
  : list val * heap :=
  match js with
  | [] => ([], h)
  | x :: r =>
      let (v, h1) := loads x h in
      let (vs, h2) := loads_arr loads r h1 in (v :: vs, h2)
  end.

Fixpoint loads_obj (loads : json -> heap -> val * heap) (kvs : list (string * json))
    (d : list (string * val)) (h : heap) : list (string * val) * heap :=
  match kvs with
  | [] => (d, h)
  | (k, x) :: r => let (v, h1) := loads x h in loads_obj loads r (assoc_set k v d) h1
  end.

Fixpoint loads (j : json) (h : heap) {struct j} : val * heap :=
  match j with
  | JNull => (VNone, h)
  | JBool b => (VBool b, h)
  | JNum z => (VInt z, h)
  | JStr s => (VStr s, h)
  | JArr js =>
      let (vs, h') := loads_arr loads js h in (VRef (length h'), h' ++ [OList vs])
  | JObj kvs =>
      let (d, h') := loads_obj loads kvs [] h in (VRef (length h'), h' ++ [ODict d])
  end.

Definition json_loads (j : json) : M val :=
  h <- get_heap ;; let (v, h') := loads j h in put_heap h' ;;; ret v.

Fixpoint omap {A B} (f : A -> option B) (xs : list A) : option (list B) :=
  match xs with
  | [] => Some []
  | x :: r =>
      match f x, omap f r with
      | Some y, Some ys => Some (y :: ys)
      | _, _ => None
      end
  end.

(** Encoding reads the heap; it fails only on a reference cycle, which
    [json.dumps] reports with a [ValueError] (an acyclic path visits each
    location at most once, so [S (length h)] levels suffice). *)
Fixpoint dump (h : heap) (fuel : nat) (v : val) : option json :=
  match fuel with
  | O => None
  | S f =>
      match v with
      | VNone => Some JNull
      | VBool b => Some (JBool b)
      | VInt z => Some (JNum z)
      | VStr s => Some (JStr s)
      | VRef l =>
          match nth_error h l with
          | Some (ODict d) =>
              match omap (fun kv => dump h f (snd kv)) d with
              | Some js => Some (JObj (combine (map fst d) js))
              | None => None
              end
          | Some (OList xs) =>
              match omap (dump h f) xs with
              | Some js => Some (JArr js)
              | None => None
              end
          | None => None
          end
      end
  end.

Definition json_dumps (v : val) : M json :=
  h <- get_heap ;;
  match dump h (S (length h)) v with
  | Some j => ret j
  | None => raise (PyError "ValueError")
  end.

(* ------------------------------------------------------------------ *)
(** ** [_get_nested_helper] and [get_nested] *)

(** The segment list is consumed from the front: [index == len(arr)] is
    the empty suffix, [index == len(arr) - 1] the one-element suffix.
    Python's [False] is [VBool false], its [None] is [VNone]. *)
Fixpoint get_nested_helper (h : heap) (v : val) (segs : list string) : val :=
  match segs with
  | [] => VBool false
  | key :: rest =>
      match dict_of h v with
      | Some d =>
          match rest with
          | [] => match lookup key d with Some x => x | None => VNone end
          | _ :: _ =>
              match lookup key d with
              | Some x => get_nested_helper h x rest
              | None => VNone
              end
          end
      | None => VBool false
      end
  end.

Definition get_nested_pure (h : heap) (d : val) (path : string) : val :=
  get_nested_helper h d (split_on "." path).

Definition get_nested (d : val) (path : string) : M val :=
  h <- get_heap ;; ret (get_nested_pure h d path).

(** [len(v)] of a list, dict or str *)
Definition py_len (v : val) : M nat :=
  h <- get_heap ;;
  match v with
  | VStr s => ret (String.length s)
  | VRef l =>
      match nth_error h l with
      | Some (ODict d) => ret (length d)
      | Some (OList xs) => ret (length xs)
      | None => type_error
      end
  | _ => type_error
  end.

(** [v[i]] on a list *)
Definition py_index (v : val) (i : nat) : M val :=
  h <- get_heap ;;
  match list_of h v with
  | Some xs => match nth_error xs i with
               | Some x => ret x
               | None => raise (PyError "IndexError")
               end
  | None => type_error
  end.

Fixpoint mapM {A B} (f : A -> M B) (xs : list A) : M (list B) :=
  match xs with
  | [] => ret []
  | x :: r => y <- f x ;; ys <- mapM f r ;; ret (y :: ys)
  end.

Fixpoint iterM {A} (f : A -> M unit) (xs : list A) : M unit :=
  match xs with
  | [] => ret tt
  | x :: r => f x ;;; iterM f r
  end.

(** [sep.join(xs)] on Python values: every item must be a str *)
Definition py_join (sep : string) (xs : list val) : M string :=
  match omap (fun x => match x with VStr s => Some s | _ => None end) xs with
  | Some ss => ret (join sep ss)
  | None => type_error
  end.

(** [GraphQLApiError(message)]: the constructor takes [message], [status]
    and [reason]; called with the message alone, the call itself raises
    [TypeError], so that is what the [raise] statement raises. *)
Definition GraphQLApiError_msg_only {A} (message : string) : M A := type_error.

(* ------------------------------------------------------------------ *)
(** ** GraphQL functions *)

Definition GRAPHQL_US_URL := "https://api.newrelic.com/graphql".
Definition GRAPHQL_EU_URL := "https://api.eu.newrelic.com/graphql".

Definition graphql_url (region : string) : string :=
  if String.eqb region "EU" then GRAPHQL_EU_URL else GRAPHQL_US_URL.

(** A query variable is a name bound to a GraphQL type and a value. *)
Definition variables := list (string * (string * val)).

Fixpoint vars_set (k : string) (x : string * val) (vs : variables) : variables :=
  match vs with
  | [] => [(k, x)]
  | (k', x') :: r => if String.eqb k k' then (k', x) :: r else (k', x') :: vars_set k x r
  end.

Record payload : Type := mkPayload {
  p_query : string;
  p_variables : list (string * val)
}.

Fixpoint var_spec_of (idx : nat) (vs : variables) : string :=
  match vs with
  | [] => ""
  | (key, (ty, _)) :: r =>
      (if Nat.eqb idx 0 then "" else ",") ^^ "$" ^^ key ^^ ": " ^^ ty
      ^^ var_spec_of (S idx) r
  end.

Definition build_graphql_payload (query : string) (vs : variables) (mutation : bool)
  : payload :=
  let spec := var_spec_of 0 vs in
  let vars := map (fun kv => (fst kv, snd (snd kv))) vs in
  let spec := match vars with [] => spec | _ :: _ => "(" ^^ spec ^^ ")" end in
  mkPayload ((if mutation then "mutation" else "query") ^^ spec ^^ query) vars.

(** [json.dumps(payload)]: the payload dict [{'query': ..., 'variables': ...}] *)
Definition dump_payload (p : payload) : M json :=
  js <- mapM (fun kv => j <- json_dumps (snd kv) ;; ret (fst kv, j)) (p_variables p) ;;
  ret (JObj [("query", JStr (p_query p)); ("variables", JObj js)]).

(** [urlopen(request)]: the request goes out, the server answers *)
Definition urlopen (url : string) (data : json) : M http_outcome :=
  fun s =>
    (Ok (srv s (ncalls s) url data),
     mkState (heap_of s) (trace_of s ++ [EPost url data]) (S (ncalls s)) (srv s)).

(** The branch [if 'errors' in response_json] of [post_graphql] *)
Definition post_errors (status : Z) (reason : string) (response_json : val) : M val :=
  errs <- py_getitem response_json "errors" ;;
  items <- py_iter errs ;;
  iterM (fun e => _ <- py_get e "message" ;; ret tt) items ;;;
  msgs <- mapM (fun e => py_get e "message") items ;;
  s <- py_join "," msgs ;;
  raise (GraphQLApiError ("GraphQL post error: " ^^ s) status reason).

(** What [post_graphql] does with the outcome of [urlopen] *)
Definition handle_response (r : http_outcome) : M val :=
  match r with
  | HTTPErrorRaised code reason =>
      raise (GraphQLApiError
               ("HTTP error occurred with status: " ^^ Z_to_string code
                ^^ ", reason: " ^^ reason) code reason)
  | URLErrorRaised => raise (PyError "URLError")
  | Response status reason b =>
      if negb (Z.eqb status 200) then
        raise (GraphQLApiError
                 ("GraphQL request failed with status: " ^^ Z_to_string status
                  ^^ ", reason: " ^^ reason) status reason)
      else
        match b with
        | ReadFails e =>
            raise (GraphQLApiError ("error reading GraphQL response: " ^^ e)
                     status reason)
        | BodyText None => raise (PyError "JSONDecodeError")
        | BodyText (Some j) =>
            response_json <- json_loads j ;;
            has_errors <- py_contains response_json "errors" ;;
            if has_errors then post_errors status reason response_json
            else py_getitem response_json "data"
        end
  end.

Definition post_graphql (p : payload) (region : string) : M val :=
  data <- dump_payload p ;;
  r <- urlopen (graphql_url region) data ;;
  handle_response r.

(** [next_cursor == False] in Python: true for [False] and for [0] *)
Definition eq_False (v : val) : bool :=
  match v with
  | VBool false => true
  | VInt z => Z.eqb z 0
  | _ => false
  end.

Definition path_truthy (p : option string) : bool :=
  match p with Some s => negb (String.eqb s "") | None => false end.

(** The [while not done] loop of [query_graphql]; [fuel] bounds the number
    of iterations, [OutOfFuel] stands for a loop that has not finished. *)
Fixpoint query_loop (fuel : nat) (query : string) (next_cursor_path : option string)
    (mutation : bool) (region : string) (results : val)
    (next_cursor : val) (vs : variables) : M unit :=
  match fuel with
  | O => fun s => (OutOfFuel, s)
  | S f =>
      let vs := if path_truthy next_cursor_path
                then vars_set "cursor" ("String", next_cursor) vs else vs in
      gql_result <- post_graphql (build_graphql_payload query vs mutation) region ;;
      py_append results gql_result ;;;
      next_cursor <-
        (match next_cursor_path with
         | Some p =>
             if path_truthy next_cursor_path then
               c <- get_nested gql_result p ;;
               if eq_False c then
                 GraphQLApiError_msg_only
                   ("expected value at path " ^^ p ^^ " but found none")
               else ret c
             else ret next_cursor
         | None => ret next_cursor
         end) ;;
      h <- get_heap ;;
      if truthy h next_cursor
      then query_loop f query next_cursor_path mutation region results next_cursor vs
      else ret tt
  end.

Definition query_graphql (fuel : nat) (query : string) (vs : variables)
    (next_cursor_path : option string) (mutation : bool) (region : string) : M val :=
  l <- alloc (OList []) ;;
  query_loop fuel query next_cursor_path mutation region (VRef l) VNone vs ;;;
  ret (VRef l).

Definition get_dashboard_query : string := "
{
  actor {
    entity(guid: $guid) {
      ... on DashboardEntity {
        description
        name
        pages {
          description
          guid
          name
          widgets {
            id
            layout {
              column
              height
              row
              width
            }
            linkedEntities {
              guid
            }
            rawConfiguration
            title
            visualization {
              id
            }
          }
        }
        permissions
        variables {
          defaultValues {
            value {
              string
            }
          }
          isMultiSelection
          items {
            title
            value
          }
          name
          nrqlQuery {
            accountIds
            query
          }
          options {
            excluded
            ignoreTimeRange
            showApplyAction
          }
          replacementStrategy
          title
          type
        }
      }
    }
  }
}".

Definition update_dashboard_query : string := "
{
  dashboardUpdate(
    dashboard: $dashboard,
    guid: $guid
  ) {
    errors {
      description
      type
    }
  }
}".

Definition get_dashboard (fuel : nat) (guid : val) (region : string) : M val :=
  let vs := [("guid", ("EntityGuid!", guid))] in
  results <- query_graphql fuel get_dashboard_query vs None false region ;;
  n <- py_len_list results ;;
  if negb (Nat.eqb n 1) then
    GraphQLApiError_msg_only "unexpected number of results for dashboard entity"
  else
    r0 <- py_index results 0 ;;
    dashboard <- get_nested r0 "actor.entity" ;;
    h <- get_heap ;;
    if negb (is_dict h dashboard) then
      GraphQLApiError_msg_only
        "missing or invalid dashboard definition found for dashboard entity"
    else ret dashboard.

Definition update_dashboard (fuel : nat) (guid : val) (dashboard : val) (region : string)
  : M unit :=
  let vs := [("guid", ("EntityGuid!", guid));
             ("dashboard", ("DashboardInput!", dashboard))] in
  results <- query_graphql fuel update_dashboard_query vs None true region ;;
  n <- py_len_list results ;;
  if negb (Nat.eqb n 1) then
    GraphQLApiError_msg_only
      "unexpected number of results for update to dashboard entity"
  else
    errors <- get_nested results "dashboardUpdate.errors" ;;
    h <- get_heap ;;
    failed <- (if truthy h errors then n <- py_len errors ;; ret (Nat.ltb 0 n)
               else ret false) ;;
    if failed then
      items <- py_iter errors ;;
      iterM (fun e => _ <- py_get e "description" ;; ret tt) items ;;;
      descs <- mapM (fun e => py_get e "description") items ;;
      errs <- py_join "," descs ;;
      GraphQLApiError_msg_only ("failed to update dashboard entity: " ^^ errs)
    else ret tt.

(* ------------------------------------------------------------------ *)
(** ** Dashboard processing *)

(** Error messages are kept without their [%s] arguments. *)
Definition invalid {A} (what : string) : M A :=
  raise (DashboardValidationError ("invalid " ^^ what)).

(** A transformer gets the dashboard GUID, the page GUID, the widget id
    and the widget. *)
Definition transformer := val -> val -> val -> val -> M unit.

(** [for x in xs] over a list the loop body does not modify: the elements
    are those at the start of the loop.  Neither transformer writes to a
    pages or widgets list (they write to widget dicts and to lists they
    allocate), so this is how the loops of [transform_widgets] run. *)
Definition transform_widgets (guid : val) (dashboard : val) (transformerFn : transformer)
  : M unit :=
  pages <- py_get dashboard "pages" ;;
  h <- get_heap ;;
  if negb (truthy h pages) then ret tt
  else if negb (is_list h pages) then invalid "pages element found for dashboard entity"
  else
    ps <- py_getitem dashboard "pages" ;;
    ps <- py_iter ps ;;
    iterM (fun page =>
      h <- get_heap ;;
      if negb (is_dict h page) then invalid "page definition found for dashboard entity"
      else
        pageGuid <- py_get page "guid" ;;
        widgets <- py_get page "widgets" ;;
        h <- get_heap ;;
        if negb (truthy h widgets) then ret tt
        else if negb (is_list h widgets) then
          invalid "widgets element found in page for dashboard entity"
        else
          ws <- py_getitem page "widgets" ;;
          ws <- py_iter ws ;;
          iterM (fun widget =>
            h <- get_heap ;;
            if negb (is_dict h widget) then
              invalid "widget definition found in page for dashboard entity"
            else
              widgetId <- py_get widget "id" ;;
              transformerFn guid pageGuid widgetId widget) ws) ps.

Definition transform_linked_entities (guid pageGuid widgetId widget : val) : M unit :=
  linkedEntities <- py_get widget "linkedEntities" ;;
  h <- get_heap ;;
  (match linkedEntities with
   | VNone => ret tt
   | _ =>
       if negb (is_list h linkedEntities) then
         invalid "linkedEntities element found in widget"
       else
         guids <- alloc (OList []) ;;
         entities <- py_iter linkedEntities ;;
         iterM (fun entity =>
           h <- get_heap ;;
           if negb (is_dict h entity) then invalid "linked entity element found in widget"
           else
             has_guid <- py_contains entity "guid" ;;
             if has_guid then g <- py_getitem entity "guid" ;; py_append (VRef guids) g
             else ret tt) entities ;;;
         py_setitem widget "linkedEntityGuids" (VRef guids)
   end) ;;;
  has <- py_contains widget "linkedEntities" ;;
  if has then py_delitem widget "linkedEntities" else ret tt.

Definition fixup_linked_entities (guid dashboard : val) : M unit :=
  transform_widgets guid dashboard transform_linked_entities.

Definition update_refresh_rate (guid pageGuid widgetId widget : val) (refresh_rate : val)
  : M unit :=
  rawConfiguration <- py_get widget "rawConfiguration" ;;
  h <- get_heap ;;
  rawConfiguration <-
    (match rawConfiguration with
     | VNone => l <- alloc (ODict []) ;; ret (VRef l)
     | _ => if negb (is_dict h rawConfiguration) then
              invalid "rawConfiguration element found in widget"
            else ret rawConfiguration
     end) ;;
  has <- py_contains rawConfiguration "refreshRate" ;;
  if has then
    rr <- py_getitem rawConfiguration "refreshRate" ;;
    h <- get_heap ;;
    if negb (is_dict h rr) then invalid "refreshRate element found in widget"
    else py_setitem rr "frequency" refresh_rate
  else
    l <- alloc (ODict [("frequency", refresh_rate)]) ;;
    py_setitem rawConfiguration "refreshRate" (VRef l).

Definition update_refresh_rates (guid dashboard refresh_rate : val) : M unit :=
  transform_widgets guid dashboard
    (fun guid pageGuid widgetId widget =>
       update_refresh_rate guid pageGuid widgetId widget refresh_rate).

(** [backup_dashboard]: the directory is created and the dashboard is
    serialised into a new file; the file system is assumed to accept the
    write. *)
Definition backup_dashboard (backup_dir : string) (guid dashboard : val) : M unit :=
  snapshot <- json_dumps dashboard ;;
  emit (EBackup backup_dir guid snapshot).

(** [backup_dir] is [None] or a str; [if backup_dir:] *)
Definition process_dashboard_update (fuel : nat) (guid refresh_rate : val)
    (backup_dir : option string) (region : string) : M unit :=
  dashboard <- get_dashboard fuel guid region ;;
  fixup_linked_entities guid dashboard ;;;
  (match backup_dir with
   | Some d => if String.eqb d "" then ret tt else backup_dashboard d guid dashboard
   | None => ret tt
   end) ;;;
  update_refresh_rates guid dashboard refresh_rate ;;;
  update_dashboard fuel guid dashboard region.

(** [try: m except ...]: [handler] picks the except clause, if any *)
Definition try_except {A} (m : M A) (handler : exc -> option (M A)) : M A :=
  fun s =>
    match m s with
    | (Raise e, s') =>
        match handler e with Some k => k s' | None => (Raise e, s') end
    | r => r
    end.

(** [==] between hashable Python values ([True == 1], [False == 0]) *)
Definition key_eq (a b : val) : bool :=
  match a, b with
  | VNone, VNone => true
  | VBool x, VBool y => Bool.eqb x y
  | VInt x, VInt y => Z.eqb x y
  | VBool x, VInt y | VInt y, VBool x => Z.eqb (if x then 1 else 0)%Z y
  | VStr x, VStr y => String.eqb x y
  | _, _ => false
  end.

(** [results[guid] = status]; dicts and lists are unhashable *)
Fixpoint status_set (k : val) (st : string) (rs : list (val * string))
  : list (val * string) :=
  match rs with
  | [] => [(k, st)]
  | (k', st') :: r => if key_eq k k' then (k', st) :: r else (k', st') :: status_set k st r
  end.

Definition results_set (k : val) (st : string) (rs : list (val * string))
  : M (list (val * string)) :=
  match k with
  | VRef _ => type_error
  | _ => ret (status_set k st rs)
  end.

Definition status_of (e : exc) : option string :=
  match e with
  | DashboardNotFoundError _ => Some "NOT FOUND"
  | DashboardValidationError _ => Some "INVALID"
  | GraphQLApiError _ _ _ => Some "API ERROR"
  | PyError _ => None
  end.

Section Orchestrator.

(** The per-dashboard step, [process_dashboard_update(api_key, guid,
    refresh_rate, backup_dir, region)] with everything but the guid and
    the refresh rate fixed. *)
Variable process : val -> val -> M unit.

(** The body of [for dashboard_config in config['dashboards']] *)
Fixpoint process_entries (entries : list val) (results : list (val * string))
  : M (list (val * string)) :=
  match entries with
  | [] => ret results
  | dashboard_config :: rest =>
      h <- get_heap ;;
      if negb (is_dict h dashboard_config) then process_entries rest results
      else
        guid <- py_get dashboard_config "guid" ;;
        refresh_rate <- py_get dashboard_config "refreshRate" ;;
        h <- get_heap ;;
        if negb (truthy h guid) || negb (truthy h refresh_rate) then
          process_entries rest results
        else
          results <-
            try_except (process guid refresh_rate ;;; results_set guid "OK" results)
              (fun e => match status_of e with
                        | Some st => Some (results_set guid st results)
                        | None => None
                        end) ;;
          process_entries rest results
  end.

(** The configuration list is read once: no per-dashboard step writes to
    it.  The status report is what the final loop logs. *)
Definition process_dashboard_updates (config : val) : M (list (val * string)) :=
  has <- py_contains config "dashboards" ;;
  if negb has then ret []
  else
    ds <- py_getitem config "dashboards" ;;
    h <- get_heap ;;
    if negb (is_list h ds) then ret []
    else
      entries <- py_iter ds ;;
      process_entries entries [].

End Orchestrator.

Definition process_all (fuel : nat) (backup_dir : option string) (region : string)
    (config : val) : M (list (val * string)) :=
  process_dashboard_updates
    (fun guid refresh_rate =>
       process_dashboard_update fuel guid refresh_rate backup_dir region) config.

(* ------------------------------------------------------------------ *)
(** ** Reading JSON documents

    Used to state properties of what the server sends: the value
    [json.loads] keeps for a key (the last one of a repeated key), a
    dotted path followed through a document, and what it means for a
    heap value to be the decoding of a document. *)

Fixpoint jlookup (k : string) (kvs : list (string * json)) : option json :=
  match kvs with
  | [] => None
  | (k', x) :: r =>
      match jlookup k r with
      | Some y => Some y
      | None => if String.eqb k k' then Some x else None
      end
  end.

Inductive jres : Type :=
| JFound (j : json)
| JMissing
| JNotMapping.

Fixpoint jget (j : json) (segs : list string) : jres :=
  match segs with
  | [] => JNotMapping
  | k :: rest =>
      match j with
      | JObj kvs =>
          match jlookup k kvs with
          | None => JMissing
          | Some x => match rest with [] => JFound x | _ :: _ => jget x rest end
          end
      | _ => JNotMapping
      end
  end.

Fixpoint repr_arr (R : val -> json -> Prop) (js : list json) (xs : list val) {struct js}
  : Prop :=
  match js, xs with
  | [], [] => True
  | j :: jr, x :: xr => R x j /\ repr_arr R jr xr
  | _, _ => False
  end.

Fixpoint repr_obj (R : val -> json -> Prop) (kvs : list (string * json))
    (d : list (string * val)) {struct kvs} : Prop :=
  match kvs with
  | [] => True
  | (k, x) :: r =>
      (jlookup k r = None -> exists y, lookup k d = Some y /\ R y x) /\ repr_obj R r d
  end.

(** [repr b h v j]: in heap [h], [v] is a decoding of [j] whose objects
    all sit at locations [>= b]. *)
Fixpoint repr (b : nat) (h : heap) (v : val) (j : json) {struct j} : Prop :=
  match j with
  | JNull => v = VNone
  | JBool x => v = VBool x
  | JNum z => v = VInt z
  | JStr s => v = VStr s
  | JArr js =>
      exists l xs, v = VRef l /\ b <= l /\ nth_error h l = Some (OList xs) /\
                   repr_arr (repr b h) js xs
  | JObj kvs =>
      exists l d, v = VRef l /\ b <= l /\ nth_error h l = Some (ODict d) /\
                  NoDup (map fst d) /\
                  (forall k, lookup k d = None <-> jlookup k kvs = None) /\
                  repr_obj (repr b h) kvs d
  end.

(** A query variable the encoder can always write: not a dict or list *)
Definition scalar (v : val) : bool :=
  match v with VRef _ => false | _ => true end.

(** The reply [{"data": page}] with status 200 *)
Definition page_reply (page : json) : http_outcome :=
  Response 200 "OK" (BodyText (Some (JObj [("data", page)]))).

(** What a page holds at the cursor path *)
Definition cursor_at (path : string) (page : json) : jres :=
  jget page (split_on "." path).

(** The last page's cursor can be read as the end of the pages: it is
    [null] or missing, or the path leads through a non-object. *)
Definition final_cursor (r : jres) : Prop :=
  r = JFound JNull \/ r = JMissing \/ r = JNotMapping.

(** A finite sequence of pages: every page but the last carries a
    non-empty string cursor. *)
Fixpoint pages_ok (path : string) (pages : list json) : Prop :=
  match pages with
  | [] => False
  | [pg] => final_cursor (cursor_at path pg)
  | pg :: rest =>
      (exists c, c <> "" /\ cursor_at path pg = JFound (JStr c)) /\ pages_ok path rest
  end.

Definition cursor_fails (r : jres) : bool :=
  match r with JNotMapping => true | _ => false end.

(** The [guid] fields of a sequence of linked-entity dicts, skipping the
    entries that have none *)
Definition guid_of (kvs : list (string * val)) : list val :=
  match lookup "guid" kvs with Some g => [g] | None => [] end.

Definition entity_guids (ekvs : list (list (string * val))) : list val :=
  flat_map guid_of ekvs.

(** [get_nested(json.loads(text), path)] *)
Definition get_json (j : json) (path : string) : val :=
  let (v, h) := loads j [] in get_nested_pure h v path.

(* ------------------------------------------------------------------ *)
(** ** Concrete inputs *)

Definition empty_state (srv0 : server) : state := mkState [] [] 0 srv0.

(** A server that answers every request with the same reply *)
Definition const_server (r : http_outcome) : server := fun _ _ _ => r.

(** [{"errors": [{"message": "x"}]}] with status 200 *)
Definition errors_reply_body : list (string * json) :=
  [("errors", JArr [JObj [("message", JStr "x")]])].

Definition errors_reply : http_outcome :=
  Response 200 "OK" (BodyText (Some (JObj errors_reply_body))).

Definition query_payload : payload := build_graphql_payload "{ actor { user { id } } }" [] false.

(** A server that hands out [pages], one per request, and then answers
    with [null] data *)
Definition pages_server (pages : list json) : server :=
  fun i _ _ => page_reply (nth i pages JNull).

(** Two pages linked by the cursor at [next] *)
Definition two_pages : list json :=
  [JObj [("items", JArr [JNum 1]); ("next", JStr "c1")];
   JObj [("items", JArr [JNum 2]); ("next", JNull)]].

(** A widget [{"id": 1, "linkedEntities": [{"guid": "g1"}, {"name": "x"}]}]
    as [json.loads] lays it out *)
Definition widget_heap : heap :=
  [ODict [("id", VInt 1); ("linkedEntities", VRef 1)];
   OList [VRef 2; VRef 3];
   ODict [("guid", VStr "g1")];
   ODict [("name", VStr "x")]].

Definition doc_a_b_1 : json := JObj [("a", JObj [("b", JNum 1)])].

(** The data of an update reply that reports an error:
    [{"dashboardUpdate": {"errors": [{"description": "bad", "type": "INVALID_INPUT"}]}}] *)
Definition update_errors_page : json :=
  JObj [("dashboardUpdate",
         JObj [("errors", JArr [JObj [("description", JStr "bad");
                                      ("type", JStr "INVALID_INPUT")]])])].

(** [{"dashboards": [{"guid": ["x"], "refreshRate": 60},
                     {"guid": "y", "refreshRate": 60}]}] *)
Definition list_guid_config : json :=
  JObj [("dashboards",
         JArr [JObj [("guid", JArr [JStr "x"]); ("refreshRate", JNum 60)];
               JObj [("guid", JStr "y"); ("refreshRate", JNum 60)]])].

(** The whole run of the program on a configuration document *)
Definition run_config (fuel : nat) (backup_dir : option string) (region : string)
    (config : json) (srv0 : server) : outcome (list (val * string)) * state :=
  let (v, h) := loads config [] in
  process_all fuel backup_dir region v (mkState h [] 0 srv0).

(** A dashboard with one widget linked to one entity, as fetched *)
Definition linked_dashboard : json :=
  JObj [("name", JStr "d");
        ("pages", JArr [JObj [("guid", JStr "p");
                              ("widgets", JArr [JObj [("id", JNum 1);
                                                      ("linkedEntities",
                                                       JArr [JObj [("guid", JStr "e1")]])]])]])].

(** The same dashboard after the linked-entities fixup *)
Definition linked_dashboard_fixed : json :=
  JObj [("name", JStr "d");
        ("pages", JArr [JObj [("guid", JStr "p");
                              ("widgets", JArr [JObj [("id", JNum 1);
                                                      ("linkedEntityGuids", JArr [JStr "e1"])]])]])].

Definition entity_reply (entity : json) : http_outcome :=
  page_reply (JObj [("actor", JObj [("entity", entity)])]).

(** [{"dashboards": [{"guid": "g", "refreshRate": 60}]}] *)
Definition one_dashboard_config : json :=
  JObj [("dashboards", JArr [JObj [("guid", JStr "g"); ("refreshRate", JNum 60)]])].

(** An exception other than [DashboardNotFoundError] *)
Definition not_nf (e : exc) : Prop :=
  match e with DashboardNotFoundError _ => False | _ => True end.

(** An outcome whose value satisfies [I] and whose exception is not
    [DashboardNotFoundError] *)
Definition nf_res {A} (I : A -> Prop) (o : outcome A) : Prop :=
  match o with Ok a => I a | Raise e => not_nf e | OutOfFuel => True end.

(** No key repeated in a list of keys *)
Fixpoint str_nodup (ks : list string) : bool :=
  match ks with
  | [] => true
  | k :: r => negb (existsb (String.eqb k) r) && str_nodup r
  end.

(** A document none of whose objects repeats a key *)
Fixpoint json_ok (j : json) : bool :=
  match j with
  | JArr js => forallb json_ok js
  | JObj kvs => str_nodup (map fst kvs) && forallb (fun kv => json_ok (snd kv)) kvs
  | _ => true
  end.

(** The nesting depth of a document *)
Fixpoint jdepth (j : json) : nat :=
  match j with
  | JArr js => S (list_max (map jdepth js))
  | JObj kvs => S (list_max (map (fun kv => jdepth (snd kv)) kvs))
  | _ => 0
  end.

(** What a run returns when it returns normally *)
Definition ok_res {A} (J : A -> Prop) (o : outcome A) : Prop :=
  match o with Ok a => J a | _ => True end.

(** No two guids of a status report are [==] in Python *)
Fixpoint keys_distinct (rs : list (val * string)) : bool :=
  match rs with
  | [] => true
  | (k, _) :: r => forallb (fun p => negb (key_eq k (fst p))) r && keys_distinct r
  end.

(** The statuses the report can hold *)
Definition report_status (st : string) : bool :=
  String.eqb st "OK" || String.eqb st "NOT FOUND" || String.eqb st "INVALID" ||
  String.eqb st "API ERROR".

(** The events a run may produce: a POST to the region's GraphQL endpoint,
    or a backup into the configured, non-empty directory *)
Definition ev_ok (region : string) (backup_dir : option string) (e : event) : bool :=
  match e with
  | EPost u _ => String.eqb u (graphql_url region)
  | EBackup d _ _ =>
      match backup_dir with
      | Some d' => String.eqb d d' && negb (String.eqb d "")
      | None => false
      end
  end.

Definition trace_ok (region : string) (backup_dir : option string) (s s' : state) : Prop :=
  exists T, trace_of s' = trace_of s ++ T /\ forallb (ev_ok region backup_dir) T = true.

Definition urr_heap : heap :=
  [ODict [("id", VInt 1); ("rawConfiguration", VRef 1)];
   ODict [("refreshRate", VRef 2)];
   ODict [("frequency", VInt 30); ("x", VBool true)]].

Definition bad_entity_heap : heap :=
  [ODict [("id", VInt 1); ("linkedEntities", VRef 1)];
   OList [VRef 2; VInt 5];
   ODict [("guid", VStr "g1")]].

Definition get_dashboard_request (g : string) : json :=
  JObj [("query", JStr ("query($guid: EntityGuid!)" ^^ get_dashboard_query));
        ("variables", JObj [("guid", JStr g)])].

Definition dashboard_reply : http_outcome :=
  page_reply (JObj [("actor", JObj [("entity", JObj [("name", JStr "d")])])]).

Definition update_dashboard_request (g : string) (dj : json) : json :=
  JObj [("query", JStr ("mutation($guid: EntityGuid!,$dashboard: DashboardInput!)"
                        ^^ update_dashboard_query));
        ("variables", JObj [("guid", JStr g); ("dashboard", dj)])].

(* ================================================================== *)
(** * Lemmas *)

(** ** Lists, association lists and the heap *)

Lemma length_set_nth {A} (xs : list A) n x : length (set_nth xs n x) = length xs.
Proof. revert n; induction xs; intros [|n]; simpl; auto. Qed.

Lemma nth_error_set_nth_eq {A} (xs : list A) n x :
  n < length xs -> nth_error (set_nth xs n x) n = Some x.
Proof.
  revert n; induction xs as [|y r IH]; intros [|n] H; simpl in *; try lia; auto.
  apply IH; lia.
Qed.

Lemma nth_error_set_nth_neq {A} (xs : list A) n m x :
  n <> m -> nth_error (set_nth xs n x) m = nth_error xs m.
Proof.
  revert n m; induction xs as [|y r IH]; intros [|n] [|m] H; simpl; auto; try lia.
Qed.

Lemma nth_error_app_lt {A} (xs ys : list A) n :
  n < length xs -> nth_error (xs ++ ys) n = nth_error xs n.
Proof. intros H; apply nth_error_app1; exact H. Qed.

Lemma nth_error_app_len {A} (xs : list A) x ys :
  nth_error (xs ++ x :: ys) (length xs) = Some x.
Proof. rewrite nth_error_app2 by lia. rewrite Nat.sub_diag; reflexivity. Qed.

Lemma nth_error_some_lt {A} (xs : list A) n x : nth_error xs n = Some x -> n < length xs.
Proof. intros H. apply nth_error_Some. congruence. Qed.

Lemma lookup_assoc_set_eq k v d : lookup k (assoc_set k v d) = Some v.
Proof.
  induction d as [|[k' v'] r IH]; simpl.
  - rewrite String.eqb_refl; reflexivity.
  - destruct (String.eqb k k') eqn:E; simpl.
    + rewrite E; reflexivity.
    + rewrite E; exact IH.
Qed.

Lemma lookup_assoc_set_neq k k' v d :
  k <> k' -> lookup k' (assoc_set k v d) = lookup k' d.
Proof.
  intros Hne; induction d as [|[k2 v2] r IH]; simpl.
  - destruct (String.eqb k' k) eqn:E; auto.
    apply String.eqb_eq in E; congruence.
  - destruct (String.eqb k k2) eqn:E; simpl.
    + apply String.eqb_eq in E; subst k2.
      destruct (String.eqb k' k) eqn:E2; auto.
      apply String.eqb_eq in E2; congruence.
    + rewrite IH; reflexivity.
Qed.

Lemma lookup_in_keys k d : lookup k d = None <-> ~ In k (map fst d).
Proof.
  induction d as [|[k' v'] r IH]; simpl.
  - tauto.
  - destruct (String.eqb k k') eqn:E.
    + apply String.eqb_eq in E; subst; split; [discriminate | tauto].
    + apply String.eqb_neq in E. rewrite IH. split; intros H; [intros [H1|H1]; auto | auto].
Qed.

Lemma keys_assoc_set k v d :
  map fst (assoc_set k v d) = if existsb (String.eqb k) (map fst d) then map fst d
                              else map fst d ++ [k].
Proof.
  induction d as [|[k' v'] r IH]; simpl; auto.
  destruct (String.eqb k k') eqn:E; simpl; auto.
  rewrite IH. destruct (existsb (String.eqb k) (map fst r)); reflexivity.
Qed.

Lemma nodup_assoc_set k v d : NoDup (map fst d) -> NoDup (map fst (assoc_set k v d)).
Proof.
  intros H. rewrite keys_assoc_set.
  destruct (existsb (String.eqb k) (map fst d)) eqn:E; auto.
  apply NoDup_app; auto.
  - constructor; auto. constructor.
  - intros x Hx [Hy|[]]; subst x.
    assert (existsb (String.eqb k) (map fst d) = true) as E'
      by (apply existsb_exists; exists k; split; auto; apply String.eqb_refl).
    congruence.
Qed.

Lemma lookup_assoc_del_eq k d : NoDup (map fst d) -> lookup k (assoc_del k d) = None.
Proof.
  induction d as [|[k' v'] r IH]; simpl; intros H; auto.
  inversion H as [|? ? Hn Hd]; subst.
  destruct (String.eqb k k') eqn:E.
  - apply String.eqb_eq in E; subst. apply lookup_in_keys; auto.
  - simpl. rewrite E. auto.
Qed.

Lemma lookup_assoc_del_neq k k' d :
  k <> k' -> lookup k' (assoc_del k d) = lookup k' d.
Proof.
  intros Hne; induction d as [|[k2 v2] r IH]; simpl; auto.
  destruct (String.eqb k k2) eqn:E; simpl.
  - apply String.eqb_eq in E; subst k2.
    destruct (String.eqb k' k) eqn:E2; auto.
    apply String.eqb_eq in E2; congruence.
  - rewrite IH; reflexivity.
Qed.

(** ** Induction on JSON documents *)

Section JsonInd.
Variable P : json -> Prop.
Hypothesis HNull : P JNull.
Hypothesis HBool : forall b, P (JBool b).
Hypothesis HNum : forall z, P (JNum z).
Hypothesis HStr : forall s, P (JStr s).
Hypothesis HArr : forall js, Forall P js -> P (JArr js).
Hypothesis HObj : forall kvs, Forall (fun kv => P (snd kv)) kvs -> P (JObj kvs).

Fixpoint json_ind' (j : json) : P j :=
  match j with
  | JNull => HNull
  | JBool b => HBool b
  | JNum z => HNum z
  | JStr s => HStr s
  | JArr js =>
      HArr js ((fix go (js : list json) : Forall P js :=
                  match js with
                  | [] => Forall_nil _
                  | x :: r => Forall_cons x (json_ind' x) (go r)
                  end) js)
  | JObj kvs =>
      HObj kvs ((fix go (kvs : list (string * json)) : Forall (fun kv => P (snd kv)) kvs :=
                   match kvs with
                   | [] => Forall_nil _
                   | (k, x) :: r => Forall_cons (k, x) (json_ind' x) (go r)
                   end) kvs)
  end.
End JsonInd.

(** ** Decoded documents *)

Lemma repr_arr_mono (R R' : val -> json -> Prop) js xs :
  Forall (fun j => forall x, R x j -> R' x j) js -> repr_arr R js xs -> repr_arr R' js xs.
Proof.
  revert xs; induction js as [|j jr IH]; intros [|x xr] HF H; simpl in *; auto.
  inversion HF; subst. destruct H; split; auto.
Qed.

Lemma repr_obj_mono (R R' : val -> json -> Prop) kvs d :
  Forall (fun kv => forall y, R y (snd kv) -> R' y (snd kv)) kvs ->
  repr_obj R kvs d -> repr_obj R' kvs d.
Proof.
  induction kvs as [|[k x] r IH]; simpl; intros HF H; auto.
  inversion HF as [|? ? Hx Hr]; subst. destruct H as [H1 H2]; split; auto.
  intros Hn. destruct (H1 Hn) as [y [Hy Hr']]. exists y; split; auto.
Qed.

Lemma repr_obj_lookup R kvs d k x :
  repr_obj R kvs d -> jlookup k kvs = Some x -> exists y, lookup k d = Some y /\ R y x.
Proof.
  induction kvs as [|[k' x'] r IH]; simpl; intros H Hl; [discriminate|].
  destruct H as [H1 H2].
  destruct (jlookup k r) eqn:E.
  - inversion Hl; subst; auto.
  - destruct (String.eqb k k') eqn:Ek; [|discriminate].
    apply String.eqb_eq in Ek; subst k'. inversion Hl; subst. auto.
Qed.

(** A decoding survives any change of the heap outside the locations it
    uses, and its lower bound can be lowered. *)
Lemma repr_frame j : forall b b' h h' v,
  repr b h v j -> b' <= b ->
  (forall i, b <= i -> i < length h -> nth_error h' i = nth_error h i) ->
  repr b' h' v j.
Proof.
  induction j as [|bb|z|s|js IH|kvs IH] using json_ind'; intros b b' h h' v H Hb Hf;
    simpl in *; auto.
  - destruct H as [l [xs [-> [Hl [Hn Ha]]]]].
    exists l, xs; repeat split; try lia.
    + rewrite Hf; auto. eapply nth_error_some_lt; eauto.
    + eapply repr_arr_mono; [|exact Ha].
      eapply Forall_impl; [|exact IH]. intros j' Hj x Hx. eapply Hj; eauto.
  - destruct H as [l [d [-> [Hl [Hn [Hnd [Hk Ho]]]]]]].
    exists l, d; repeat split; auto; try lia.
    + rewrite Hf; auto. eapply nth_error_some_lt; eauto.
    + apply Hk; auto.
    + apply Hk; auto.
    + eapply repr_obj_mono; [|exact Ho].
      eapply Forall_impl; [|exact IH]. intros kv Hj y Hy. eapply Hj; eauto.
Qed.

Lemma repr_extend j b h ext v :
  repr b h v j -> repr b (h ++ ext) v j.
Proof.
  intros H; eapply repr_frame; eauto. intros i _ Hi. apply nth_error_app_lt; auto.
Qed.

Lemma repr_weaken j b b' h v : repr b h v j -> b' <= b -> repr b' h v j.
Proof. intros H Hb; eapply repr_frame; eauto. Qed.

Lemma loads_arr_spec js :
  Forall (fun j => forall h v h', loads j h = (v, h') ->
                   (exists ext, h' = h ++ ext) /\ repr (length h) h' v j) js ->
  forall h vs h', loads_arr loads js h = (vs, h') ->
  (exists ext, h' = h ++ ext) /\ repr_arr (repr (length h) h') js vs.
Proof.
  induction js as [|x r IH]; intros HF h vs h' E; simpl in E.
  - inversion E; subst. split; [exists []; rewrite app_nil_r; auto | simpl; auto].
  - inversion HF as [|? ? Hx Hr]; subst.
    destruct (loads x h) as [v hx] eqn:Ex.
    destruct (loads_arr loads r hx) as [vs' h2] eqn:Er.
    inversion E; subst; clear E.
    destruct (Hx _ _ _ Ex) as [[e1 ->] Hv].
    destruct (IH Hr _ _ _ Er) as [[e2 ->] Ha].
    split; [exists (e1 ++ e2); rewrite app_assoc; auto|].
    simpl; split.
    + apply repr_extend; auto.
    + eapply repr_arr_mono; [|exact Ha].
      apply Forall_forall. intros j _ y Hy. eapply repr_weaken; eauto.
      rewrite length_app; lia.
Qed.

Lemma loads_obj_spec kvs :
  Forall (fun kv => forall h v h', loads (snd kv) h = (v, h') ->
                    (exists ext, h' = h ++ ext) /\ repr (length h) h' v (snd kv)) kvs ->
  forall d0 h d h', loads_obj loads kvs d0 h = (d, h') ->
  (exists ext, h' = h ++ ext) /\
  (forall k, jlookup k kvs = None -> lookup k d = lookup k d0) /\
  (NoDup (map fst d0) -> NoDup (map fst d)) /\
  repr_obj (repr (length h) h') kvs d.
Proof.
  induction kvs as [|[k x] r IH]; intros HF d0 h d h' E; simpl in E.
  - inversion E; subst. repeat split; auto. exists []; rewrite app_nil_r; auto.
  - inversion HF as [|? ? Hx Hr]; subst. simpl in Hx.
    destruct (loads x h) as [v hx] eqn:Ex.
    destruct (Hx _ _ _ Ex) as [[e1 ->] Hv].
    destruct (IH Hr _ _ _ _ E) as [[e2 ->] [Hk [Hnd Ho]]].
    repeat split.
    + exists (e1 ++ e2); rewrite app_assoc; auto.
    + intros k' Hk'. simpl in Hk'.
      destruct (jlookup k' r) eqn:E1; [discriminate|].
      destruct (String.eqb k' k) eqn:E2; [discriminate|].
      apply String.eqb_neq in E2.
      rewrite Hk by auto. apply lookup_assoc_set_neq; auto.
    + intros H0. apply Hnd. apply nodup_assoc_set; auto.
    + intros Hn. exists v. split.
      * rewrite Hk by auto. apply lookup_assoc_set_eq.
      * apply repr_extend; auto.
    + eapply repr_obj_mono; [|exact Ho].
      apply Forall_forall. intros kv _ y Hy. eapply repr_weaken; eauto.
      rewrite length_app; lia.
Qed.

(** [json.loads] only allocates, and what it builds decodes the document *)
Lemma loads_spec j : forall h v h', loads j h = (v, h') ->
  (exists ext, h' = h ++ ext) /\ repr (length h) h' v j.
Proof.
  induction j as [|bb|z|s|js IH|kvs IH] using json_ind'; intros h v h' E; simpl in E;
    try solve [inversion E; subst; split; [exists []; rewrite app_nil_r; auto | simpl; auto]].
  - destruct (loads_arr loads js h) as [vs h1] eqn:Ea.
    injection E as <- <-.
    destruct (loads_arr_spec js IH _ _ _ Ea) as [[e ->] Ha].
    split; [exists (e ++ [OList vs]); rewrite <- app_assoc; reflexivity|].
    simpl. exists (length (h ++ e)), vs. repeat split.
    + rewrite length_app; lia.
    + apply nth_error_app_len.
    + eapply repr_arr_mono; [|exact Ha].
      apply Forall_forall. intros j' _ y Hy. apply repr_extend; auto.
  - destruct (loads_obj loads kvs [] h) as [d h1] eqn:Eo.
    injection E as <- <-.
    destruct (loads_obj_spec kvs IH _ _ _ _ Eo) as [[e ->] [Hk [Hnd Ho]]].
    split; [exists (e ++ [ODict d]); rewrite <- app_assoc; reflexivity|].
    simpl. exists (length (h ++ e)), d. repeat split.
    + rewrite length_app; lia.
    + apply nth_error_app_len.
    + apply Hnd. constructor.
    + intros Hl. destruct (jlookup k kvs) as [x|] eqn:Ej; auto.
      destruct (repr_obj_lookup _ _ _ _ _ Ho Ej) as [y [Hy _]]. congruence.
    + intros Hj. rewrite Hk; auto.
    + eapply repr_obj_mono; [|exact Ho].
      apply Forall_forall. intros kv _ y Hy. apply repr_extend; auto.
Qed.

Lemma repr_dict_of b h v kvs :
  repr b h v (JObj kvs) ->
  exists d, dict_of h v = Some d /\ NoDup (map fst d) /\
            (forall k, lookup k d = None <-> jlookup k kvs = None) /\
            repr_obj (repr b h) kvs d.
Proof.
  simpl; intros [l [d [-> [_ [Hn [Hnd [Hk Ho]]]]]]].
  exists d; simpl; rewrite Hn; auto.
Qed.

Lemma repr_not_dict b h v j :
  repr b h v j -> (forall kvs, j <> JObj kvs) -> dict_of h v = None.
Proof.
  destruct j; simpl; intros H Hn; try (subst; reflexivity).
  - destruct H as [l [ys [-> [_ [Hl _]]]]]. simpl. rewrite Hl; reflexivity.
  - exfalso; eapply Hn; eauto.
Qed.

(** [get_nested_helper] follows a path through a decoded document the way
    [jget] follows it through the document. *)
Lemma get_nested_helper_repr segs : forall j b h v,
  repr b h v j ->
  match jget j segs with
  | JFound x => repr b h (get_nested_helper h v segs) x
  | JMissing => get_nested_helper h v segs = VNone
  | JNotMapping => get_nested_helper h v segs = VBool false
  end.
Proof.
  induction segs as [|k rest IH]; intros j b h v H; simpl; auto.
  destruct j as [| | | | |kvs];
    try (rewrite (repr_not_dict _ _ _ _ H) by discriminate; reflexivity).
  destruct (repr_dict_of _ _ _ _ H) as [d [Hd [_ [Hk Ho]]]]. rewrite Hd.
  destruct (jlookup k kvs) as [x|] eqn:Ej.
  - destruct (repr_obj_lookup _ _ _ _ _ Ho Ej) as [y [Hy Hr]]. rewrite Hy.
    destruct rest as [|k' rest']; auto.
    apply (IH x b h y Hr).
  - assert (lookup k d = None) as Hn by (apply Hk; auto). rewrite Hn.
    destruct rest; reflexivity.
Qed.

(** ** Properties of computations

    [sat R P F m]: every run of [m] relates its start and end states by
    [R], every exception it raises satisfies [P], and it runs out of fuel
    only if [F]. *)

Definition res_ok {A} (P : exc -> Prop) (F : Prop) (o : outcome A) : Prop :=
  match o with
  | Ok _ => True
  | Raise e => P e
  | OutOfFuel => F
  end.

Definition sat {A} (R : state -> state -> Prop) (P : exc -> Prop) (F : Prop) (m : M A)
  : Prop :=
  forall s, R s (snd (m s)) /\ res_ok P F (fst (m s)).

Section Sat.
Context (R : state -> state -> Prop) `{Reflexive _ R} `{Transitive _ R}.
Context (P : exc -> Prop) (F : Prop).

Lemma sat_ret {A} (a : A) : sat R P F (ret a).
Proof. intros s; simpl; split; [reflexivity | exact I]. Qed.

Lemma sat_raise {A} e : P e -> sat R P F (@raise A e).
Proof. intros He s; simpl; split; [reflexivity | exact He]. Qed.

Lemma sat_bind {A B} (m : M A) (k : A -> M B) :
  sat R P F m -> (forall a, sat R P F (k a)) -> sat R P F (bind m k).
Proof.
  intros Hm Hk s. unfold bind. destruct (Hm s) as [R1 O1].
  destruct (m s) as [[a|e|] s1]; simpl in *; auto.
  destruct (Hk a s1) as [R2 O2]. split; auto. etransitivity; eauto.
Qed.

Lemma sat_get_heap : sat R P F get_heap.
Proof. intros s; simpl; split; [reflexivity | exact I]. Qed.

Lemma sat_mapM {A B} (f : A -> M B) xs :
  (forall x, sat R P F (f x)) -> sat R P F (mapM f xs).
Proof.
  intros Hf; induction xs as [|x r IH]; simpl.
  - apply sat_ret.
  - apply sat_bind; auto; intros y. apply sat_bind; auto; intros ys. apply sat_ret.
Qed.

Lemma sat_iterM {A} (f : A -> M unit) xs :
  (forall x, sat R P F (f x)) -> sat R P F (iterM f xs).
Proof.
  intros Hf; induction xs as [|x r IH]; simpl.
  - apply sat_ret.
  - apply sat_bind; auto.
Qed.

End Sat.

(** The relations used with [sat] *)
Definition no_io (s s' : state) : Prop :=
  trace_of s' = trace_of s /\ ncalls s' = ncalls s /\ srv s' = srv s.
Definition heap_grows (s s' : state) : Prop :=
  exists ext, heap_of s' = heap_of s ++ ext.
Definition any_step (s s' : state) : Prop := True.

#[export] Instance no_io_refl : Reflexive no_io.
Proof. intros s; unfold no_io; auto. Qed.
#[export] Instance no_io_trans : Transitive no_io.
Proof. intros a b c [? [? ?]] [? [? ?]]; unfold no_io; repeat split; congruence. Qed.
#[export] Instance heap_grows_refl : Reflexive heap_grows.
Proof. intros s; exists []; rewrite app_nil_r; auto. Qed.
#[export] Instance heap_grows_trans : Transitive heap_grows.
Proof.
  intros a b c [e1 E1] [e2 E2]; exists (e1 ++ e2); rewrite E2, E1, app_assoc; auto.
Qed.
#[export] Instance any_step_refl : Reflexive any_step.
Proof. intros s; exact I. Qed.
#[export] Instance any_step_trans : Transitive any_step.
Proof. intros a b c _ _; exact I. Qed.
#[export] Instance eq_state_refl : Reflexive (@eq state).
Proof. intros s; reflexivity. Qed.
#[export] Instance eq_state_trans : Transitive (@eq state).
Proof. intros a b c -> ->; reflexivity. Qed.

Create HintDb sat.
#[export] Hint Resolve sat_ret sat_get_heap : sat.

(** Decompose a computation into its steps; [base] closes the leaves. *)
Ltac intro_forall := match goal with |- forall _ : _, _ => intro end.

Ltac sat_decompose base :=
  repeat match goal with
  | |- sat _ _ _ (bind _ _) =>
      apply sat_bind; try typeclasses eauto; try intro_forall
  | |- sat _ _ _ (mapM _ _) =>
      apply sat_mapM; try typeclasses eauto; try intro_forall
  | |- sat _ _ _ (iterM _ _) =>
      apply sat_iterM; try typeclasses eauto; try intro_forall
  | |- sat _ _ _ (match ?x with _ => _ end) => destruct x
  | |- sat _ _ _ (if ?b then _ else _) => destruct b
  | |- sat _ _ _ (ret _) => apply sat_ret; try typeclasses eauto
  | |- sat _ _ _ get_heap => apply sat_get_heap; try typeclasses eauto
  | |- sat _ _ _ (raise _) => apply sat_raise; try typeclasses eauto; base
  | |- sat _ _ _ type_error => apply sat_raise; try typeclasses eauto; base
  | |- sat _ _ _ (invalid _) => apply sat_raise; try typeclasses eauto; base
  | |- sat _ _ _ (GraphQLApiError_msg_only _) =>
      apply sat_raise; try typeclasses eauto; base
  end.

Section Primitives.
Context (R : state -> state -> Prop) `{Reflexive _ R} `{Transitive _ R}.
Context (P : exc -> Prop) (F : Prop).
Hypothesis HPy : forall k, P (PyError k).

Lemma sat_py_get v k : sat R P F (py_get v k).
Proof. unfold py_get; sat_decompose auto. Qed.
Lemma sat_py_getitem v k : sat R P F (py_getitem v k).
Proof. unfold py_getitem; sat_decompose auto. Qed.
Lemma sat_py_contains v k : sat R P F (py_contains v k).
Proof. unfold py_contains; sat_decompose auto. Qed.
Lemma sat_py_iter v : sat R P F (py_iter v).
Proof. unfold py_iter; sat_decompose auto. Qed.
Lemma sat_py_len_list v : sat R P F (py_len_list v).
Proof. unfold py_len_list; sat_decompose auto. Qed.
Lemma sat_py_len v : sat R P F (py_len v).
Proof. unfold py_len; sat_decompose auto. Qed.
Lemma sat_py_index v i : sat R P F (py_index v i).
Proof. unfold py_index; sat_decompose auto. Qed.
Lemma sat_py_join sep xs : sat R P F (py_join sep xs).
Proof. unfold py_join; sat_decompose auto. Qed.
Lemma sat_get_nested v p : sat R P F (get_nested v p).
Proof. unfold get_nested; sat_decompose auto. Qed.
Lemma sat_json_dumps v : sat R P F (json_dumps v).
Proof. unfold json_dumps; sat_decompose auto. Qed.
Lemma sat_dump_payload p : sat R P F (dump_payload p).
Proof.
  unfold dump_payload; sat_decompose auto; apply sat_json_dumps.
Qed.

End Primitives.

Lemma sat_put_heap_no_io P F h : sat no_io P F (put_heap h).
Proof. intros s; simpl; split; [unfold no_io; auto | exact I]. Qed.

Lemma sat_alloc R P F o :
  (forall s, R s (mkState (heap_of s ++ [o]) (trace_of s) (ncalls s) (srv s))) ->
  Transitive R -> Reflexive R -> sat R P F (alloc o).
Proof. intros HR _ _ s; simpl; split; [auto | exact I]. Qed.

Lemma sat_alloc_no_io P F o : sat no_io P F (alloc o).
Proof. apply sat_alloc; try typeclasses eauto. intros s; unfold no_io; auto. Qed.

Lemma sat_alloc_grows P F o : sat heap_grows P F (alloc o).
Proof. apply sat_alloc; try typeclasses eauto. intros s; exists [o]; auto. Qed.

Lemma sat_json_loads_no_io P F j : sat no_io P F (json_loads j).
Proof.
  intros s; unfold json_loads, bind; simpl.
  destruct (loads j (heap_of s)); simpl; split; [unfold no_io; auto | exact I].
Qed.

Lemma sat_json_loads_grows P F j : sat heap_grows P F (json_loads j).
Proof.
  intros s; unfold json_loads, bind; simpl.
  destruct (loads j (heap_of s)) as [v h'] eqn:E; simpl; split; [|exact I].
  destruct (loads_spec _ _ _ _ E) as [[e ->] _]. exists e; auto.
Qed.

Lemma sat_py_setitem_no_io P F v k x : (forall k, P (PyError k)) ->
  sat no_io P F (py_setitem v k x).
Proof.
  intros HP; unfold py_setitem; sat_decompose auto; apply sat_put_heap_no_io.
Qed.

Lemma sat_py_delitem_no_io P F v k : (forall k, P (PyError k)) ->
  sat no_io P F (py_delitem v k).
Proof.
  intros HP; unfold py_delitem; sat_decompose auto; apply sat_put_heap_no_io.
Qed.

Lemma sat_py_append_no_io P F v x : (forall k, P (PyError k)) ->
  sat no_io P F (py_append v x).
Proof.
  intros HP; unfold py_append; sat_decompose auto; apply sat_put_heap_no_io.
Qed.

#[export] Hint Resolve sat_py_get sat_py_getitem sat_py_contains sat_py_iter
  sat_py_len_list sat_py_len sat_py_index sat_py_join sat_get_nested
  sat_json_dumps sat_dump_payload : sat.

Section Response.
Context (R : state -> state -> Prop) `{Reflexive _ R} `{Transitive _ R}.
Context (P : exc -> Prop) (F : Prop).
Hypothesis HPy : forall k, P (PyError k).
Hypothesis HApi : forall m st r, P (GraphQLApiError m st r).
Hypothesis HLoads : forall j, sat R P F (json_loads j).

Lemma sat_post_errors st r v : sat R P F (post_errors st r v).
Proof.
  unfold post_errors; sat_decompose auto; eauto using sat_py_get, sat_py_getitem,
    sat_py_iter, sat_py_join.
Qed.

Lemma sat_handle_response r : sat R P F (handle_response r).
Proof.
  unfold handle_response; sat_decompose auto;
    eauto using sat_py_contains, sat_py_getitem, sat_post_errors.
Qed.

End Response.

Lemma handle_response_facts r s :
  no_io s (snd (handle_response r s)) /\ heap_grows s (snd (handle_response r s)) /\
  fst (handle_response r s) <> OutOfFuel.
Proof.
  destruct (sat_handle_response no_io (fun _ => True) False (fun _ => I)
              (fun _ _ _ => I) (sat_json_loads_no_io _ _) r s) as [H1 H2].
  destruct (sat_handle_response heap_grows (fun _ => True) False (fun _ => I)
              (fun _ _ _ => I) (sat_json_loads_grows _ _) r s) as [H3 _].
  split; [exact H1 | split; [exact H3 |]].
  destruct (handle_response r s) as [[| |] s']; unfold res_ok in H2; simpl in *;
    [discriminate | discriminate | destruct H2].
Qed.

(** One call of [post_graphql] sends at most one request; when it returns
    a value it has sent exactly one. *)
Lemma post_graphql_io p r s :
  srv (snd (post_graphql p r s)) = srv s /\
  heap_grows s (snd (post_graphql p r s)) /\
  fst (post_graphql p r s) <> OutOfFuel /\
  ((trace_of (snd (post_graphql p r s)) = trace_of s /\
    ncalls (snd (post_graphql p r s)) = ncalls s /\
    (forall v, fst (post_graphql p r s) <> Ok v)) \/
   (exists d, trace_of (snd (post_graphql p r s)) = trace_of s ++ [EPost (graphql_url r) d] /\
              ncalls (snd (post_graphql p r s)) = S (ncalls s))).
Proof.
  destruct (sat_dump_payload eq (fun _ => True) False (fun _ => I) p s) as [E1 O1].
  unfold post_graphql, bind, urlopen. cbv beta.
  destruct (dump_payload p s) as [o1 s1] eqn:Ed; simpl in E1, O1; subst s1.
  destruct o1 as [d|e|]; [| | contradiction].
  - set (s2 := mkState (heap_of s) (trace_of s ++ [EPost (graphql_url r) d]) (S (ncalls s)) (srv s)).
    destruct (handle_response_facts (srv s (ncalls s) (graphql_url r) d) s2)
      as [[T [N S]] [[ext G] O]].
    repeat split.
    + rewrite S; reflexivity.
    + exists ext; rewrite G; reflexivity.
    + exact O.
    + right; exists d; rewrite T, N; auto.
  - simpl. repeat split; auto.
    + exists []; rewrite app_nil_r; auto.
    + discriminate.
    + left; repeat split; auto; discriminate.
Qed.

Lemma py_append_run v x s xs l :
  v = VRef l -> nth_error (heap_of s) l = Some (OList xs) ->
  py_append v x s =
  (Ok tt, mkState (set_nth (heap_of s) l (OList (xs ++ [x]))) (trace_of s) (ncalls s) (srv s)).
Proof. intros -> Hl. unfold py_append, bind; simpl. rewrite Hl. reflexivity. Qed.

(** Without a cursor path the loop runs once. *)
Lemma query_graphql_one_post fuel q vs mut region s :
  match query_graphql (S fuel) q vs None mut region s with
  | (o, s') =>
      o <> OutOfFuel /\ ncalls s' <= S (ncalls s) /\
      (forall r, o = Ok r ->
         ncalls s' = S (ncalls s) /\
         (exists l v, r = VRef l /\ nth_error (heap_of s') l = Some (OList [v])) /\
         fst (py_len_list r s') = Ok 1)
  end.
Proof.
  unfold query_graphql, bind at 1, alloc, bind at 1. simpl.
  set (l := length (heap_of s)).
  set (s1 := mkState (heap_of s ++ [OList []]) (trace_of s) (ncalls s) (srv s)).
  set (p := build_graphql_payload q vs mut).
  destruct (post_graphql_io p region s1) as [_ [[ext G] [NF IO]]].
  assert (Hl : nth_error (heap_of (snd (post_graphql p region s1))) l = Some (OList [])).
  { rewrite G. simpl. rewrite <- app_assoc. unfold l. apply nth_error_app_len. }
  unfold bind.
  destruct (post_graphql p region s1) as [o2 s2] eqn:E2; simpl in NF, IO, Hl.
  destruct o2 as [g|e|]; [| | contradiction].
  - destruct IO as [[_ [_ Hno]] | [d [_ N2]]]; [exfalso; eapply Hno; reflexivity|].
    rewrite (py_append_run (VRef l) g s2 [] l eq_refl Hl). simpl.
    split; [discriminate|]. split; [simpl in N2; lia|]. intros rr Er; injection Er as <-.
    split; [|split].
    + simpl in N2; exact N2.
    + exists l, g; split; [reflexivity|]. apply nth_error_set_nth_eq. eapply nth_error_some_lt; eauto.
    + unfold py_len_list, bind; simpl. rewrite nth_error_set_nth_eq by (eapply nth_error_some_lt; eauto). reflexivity.
  - destruct IO as [[_ [N2 _]] | [d [_ N2]]]; simpl in N2; repeat split; try discriminate; try lia.
Qed.

(** ** Error replies *)

Definition never_ok {A} (m : M A) : Prop := forall s x, fst (m s) <> Ok x.

Lemma never_ok_bind {A B} (m : M A) (k : A -> M B) :
  (forall a, never_ok (k a)) -> never_ok (bind m k).
Proof.
  intros Hk s x. unfold bind. destruct (m s) as [[a|e|] s1]; simpl; try discriminate.
  apply Hk.
Qed.

Lemma never_ok_raise {A} e : never_ok (@raise A e).
Proof. intros s x; discriminate. Qed.

Lemma post_errors_never_ok st r v : never_ok (post_errors st r v).
Proof.
  unfold post_errors. repeat (apply never_ok_bind; intros). apply never_ok_raise.
Qed.

(** [e] is an error entry [{"message": m, ...}] *)
Definition has_message (e : json) (m : string) : Prop :=
  exists ekvs, e = JObj ekvs /\ jlookup "message" ekvs = Some (JStr m).

Lemma py_get_message b x e m s :
  repr b (heap_of s) x e -> has_message e m -> py_get x "message" s = (Ok (VStr m), s).
Proof.
  intros H [ekvs [-> Hm]].
  destruct (repr_dict_of _ _ _ _ H) as [d [Hd [_ [_ Ho]]]].
  destruct (repr_obj_lookup _ _ _ _ _ Ho Hm) as [y [Hy Hr]]. simpl in Hr; subst y.
  unfold py_get, bind; simpl. rewrite Hd, Hy. reflexivity.
Qed.

Lemma messages_run b es xs msgs s :
  repr_arr (repr b (heap_of s)) es xs -> Forall2 has_message es msgs ->
  iterM (fun e => _ <- py_get e "message" ;; ret tt) xs s = (Ok tt, s) /\
  mapM (fun e => py_get e "message") xs s = (Ok (map VStr msgs), s).
Proof.
  intros Ha HF; revert xs Ha; induction HF as [|e m es' ms' Hm HF IH];
    intros [|x xr] Ha; simpl in Ha; try contradiction; simpl; auto.
  destruct Ha as [Hx Hr]. destruct (IH xr Hr) as [I1 I2].
  unfold bind. rewrite (py_get_message _ _ _ _ _ Hx Hm).
  unfold bind in I1, I2. simpl. rewrite I1.
  destruct (mapM (fun e => py_get e "message") xr s) as [o s'] eqn:Em.
  injection I2 as -> ->. auto.
Qed.

Lemma py_join_strs sep msgs :
  py_join sep (map VStr msgs) = ret (join sep msgs).
Proof.
  unfold py_join. replace (omap _ (map VStr msgs)) with (Some msgs); auto.
  induction msgs as [|m r IH]; simpl; auto. rewrite <- IH; reflexivity.
Qed.

Lemma bind_run {A B} (m : M A) (k : A -> M B) s a s' :
  m s = (Ok a, s') -> bind m k s = k a s'.
Proof. intros E; unfold bind; rewrite E; reflexivity. Qed.

Lemma bind_run_raise {A B} (m : M A) (k : A -> M B) s e s' :
  m s = (Raise e, s') -> bind m k s = (Raise e, s').
Proof. intros E; unfold bind; rewrite E; reflexivity. Qed.

Lemma bind_assoc_run {A B C} (m : M A) (k1 : A -> M B) (k2 : B -> M C) s :
  bind (bind m k1) k2 s = bind m (fun a => bind (k1 a) k2) s.
Proof. unfold bind; destruct (m s) as [[a|e|] s1]; reflexivity. Qed.

Lemma post_errors_run st r b v kvs es msgs s :
  repr b (heap_of s) v (JObj kvs) -> jlookup "errors" kvs = Some (JArr es) ->
  Forall2 has_message es msgs ->
  post_errors st r v s =
  (Raise (GraphQLApiError ("GraphQL post error: " ^^ join "," msgs) st r), s).
Proof.
  intros H He HF.
  destruct (repr_dict_of _ _ _ _ H) as [d [Hd [_ [_ Ho]]]].
  destruct (repr_obj_lookup _ _ _ _ _ Ho He) as [y [Hy Hr]].
  destruct Hr as [l [xs [-> [_ [Hl Ha]]]]].
  destruct (messages_run _ _ _ _ s Ha HF) as [I1 I2].
  unfold post_errors.
  rewrite (bind_run _ _ s (VRef l) s)
    by (unfold py_getitem, bind, get_heap; cbv beta iota; rewrite Hd, Hy; reflexivity).
  rewrite (bind_run _ _ s xs s)
    by (unfold py_iter, bind, get_heap; cbv beta iota; rewrite Hl; reflexivity).
  rewrite (bind_run _ _ s tt s I1).
  rewrite (bind_run _ _ s _ s I2).
  rewrite py_join_strs. reflexivity.
Qed.

Lemma handle_response_errors reason kvs ej s :
  jlookup "errors" kvs = Some ej ->
  exists v h', repr (length (heap_of s)) h' v (JObj kvs) /\
    handle_response (Response 200 reason (BodyText (Some (JObj kvs)))) s =
    post_errors 200 reason v (mkState h' (trace_of s) (ncalls s) (srv s)).
Proof.
  intros He. unfold handle_response.
  change (negb (Z.eqb 200 200)) with false. cbv iota.
  destruct (loads (JObj kvs) (heap_of s)) as [v h'] eqn:E.
  destruct (loads_spec _ _ _ _ E) as [_ Hr].
  exists v, h'. split; auto.
  destruct (repr_dict_of _ _ _ _ Hr) as [d [Hd [_ [Hk _]]]].
  assert (lookup "errors" d <> None) as Hn by (rewrite Hk; congruence).
  set (s1 := mkState h' (trace_of s) (ncalls s) (srv s)).
  rewrite (bind_run _ _ s v s1)
    by (unfold json_loads, bind, get_heap, put_heap, ret; cbv beta iota; rewrite E; reflexivity).
  rewrite (bind_run _ _ s1 true s1); [reflexivity|].
  unfold py_contains, bind, get_heap; cbv beta iota.
  destruct v as [| | | |l]; try discriminate. simpl in Hd. unfold s1 at 1; cbn [heap_of].
  destruct (nth_error h' l) as [[d'|]|]; try discriminate. injection Hd as ->.
  destruct (lookup "errors" d); [reflexivity | congruence].
Qed.

(** C7: when the server answers a request with status 200 and a decoded
    body that is an object with a top-level [errors] key, [post_graphql]
    never returns a value; when [errors] is an array of objects each with a
    string [message] and the request could be encoded, the call raises
    [GraphQLApiError] with status 200 and the message
    ["GraphQL post error: " ^^ join "," msgs]. *)
Theorem post_graphql_errors_200 p region s reason kvs ej :
  (forall d, srv s (ncalls s) (graphql_url region) d =
             Response 200 reason (BodyText (Some (JObj kvs)))) ->
  jlookup "errors" kvs = Some ej ->
  (forall v, fst (post_graphql p region s) <> Ok v) /\
  (forall es msgs, ej = JArr es -> Forall2 has_message es msgs ->
     (exists d, fst (dump_payload p s) = Ok d) ->
     fst (post_graphql p region s) =
     Raise (GraphQLApiError ("GraphQL post error: " ^^ join "," msgs) 200 reason)).
Proof.
  intros Hsrv He.
  destruct (sat_dump_payload eq (fun _ => True) False (fun _ => I) p s) as [E1 O1].
  unfold post_graphql.
  destruct (dump_payload p s) as [o1 s1] eqn:Ed; simpl in E1, O1; subst s1.
  destruct o1 as [d|e|]; [| | contradiction].
  - rewrite (bind_run _ _ s d s Ed).
    set (s2 := mkState (heap_of s) (trace_of s ++ [EPost (graphql_url region) d])
                       (S (ncalls s)) (srv s)).
    rewrite (bind_run _ _ s _ s2 eq_refl). rewrite Hsrv.
    destruct (handle_response_errors reason kvs ej s2 He) as [v [h' [Hr Eh]]].
    rewrite Eh. split.
    + apply post_errors_never_ok.
    + intros es msgs -> HF _. erewrite post_errors_run; eauto. reflexivity.
  - unfold bind; rewrite Ed. split.
    + intros v; simpl; discriminate.
    + intros es msgs _ _ [x Hx]. simpl in Hx. discriminate.
Qed.

Lemma post_graphql_errors_200_witness :
  (forall v, fst (post_graphql query_payload "US" (empty_state (const_server errors_reply)))
             <> Ok v) /\
  fst (post_graphql query_payload "US" (empty_state (const_server errors_reply))) =
  Raise (GraphQLApiError ("GraphQL post error: " ^^ join "," ["x"]) 200 "OK").
Proof.
  destruct (post_graphql_errors_200 query_payload "US"
              (empty_state (const_server errors_reply)) "OK" errors_reply_body
              (JArr [JObj [("message", JStr "x")]]) (fun d => eq_refl) eq_refl)
    as [H1 H2].
  split; [exact H1|].
  apply (H2 [JObj [("message", JStr "x")]]); [reflexivity | |].
  - constructor; [|constructor]. exists [("message", JStr "x")]. split; reflexivity.
  - exists (JObj [("query", JStr (p_query query_payload)); ("variables", JObj [])]).
    reflexivity.
Defined.

(** ** Paginated queries *)

Lemma omap_ext {A B} (f g : A -> option B) xs ys :
  (forall x y, In x xs -> f x = Some y -> g x = Some y) -> omap f xs = Some ys -> omap g xs = Some ys.
Proof.
  revert ys; induction xs as [|x r IH]; intros ys Hfg E; simpl in *; auto.
  destruct (f x) as [y|] eqn:Ex; [|discriminate].
  destruct (omap f r) as [yr|] eqn:Er; [|discriminate].
  rewrite (Hfg x y (or_introl eq_refl) Ex).
  rewrite (IH yr) by (auto || (intros; apply Hfg; auto)). exact E.
Qed.

Lemma vars_set_forall (P : val -> Prop) k ty v vs :
  P v -> Forall (fun kv => P (snd (snd kv))) vs ->
  Forall (fun kv => P (snd (snd kv))) (vars_set k (ty, v) vs).
Proof.
  intros Hv HF; induction HF as [|kv r Hx HF IH]; simpl.
  - constructor; auto.
  - destruct kv as [k' [ty' v']]. destruct (String.eqb k k'); constructor; auto.
Qed.

(** Encoding reads only the cells below the heap's length *)
Lemma dump_agree fuel : forall h h' fuel' v j,
  dump h fuel v = Some j -> fuel <= fuel' ->
  (forall i, i < length h -> nth_error h' i = nth_error h i) ->
  dump h' fuel' v = Some j.
Proof.
  induction fuel as [|f IH]; intros h h' fuel' v j E Hle Hag; [discriminate|].
  destruct fuel' as [|f']; [lia|]. simpl in E |- *.
  destruct v as [| | | |l]; auto.
  destruct (nth_error h l) as [[d|xs]|] eqn:El; [| |discriminate];
    rewrite (Hag l) by (eapply nth_error_some_lt; eauto); rewrite El.
  - destruct (omap (fun kv => dump h f (snd kv)) d) as [js|] eqn:Eo; [|discriminate].
    rewrite (omap_ext (fun kv => dump h f (snd kv)) (fun kv => dump h' f' (snd kv)) d js); auto.
    intros x y _ Hx. apply (IH h h' f' _ _ Hx); auto; lia.
  - destruct (omap (dump h f) xs) as [js|] eqn:Eo; [|discriminate].
    rewrite (omap_ext (dump h f) (dump h' f') xs js); auto.
    intros x y _ Hx. apply (IH h h' f' _ _ Hx); auto; lia.
Qed.

Lemma dump_scalar h n v : scalar v = true -> exists j, dump h (S n) v = Some j.
Proof. destruct v; simpl; intros Hs; try discriminate; eauto. Qed.

(** The payload encodes when every variable encodes in an older heap
    whose cells are still there *)
Lemma dump_payload_from p s h0 :
  Forall (fun kv => exists j, dump h0 (S (length h0)) (snd kv) = Some j) (p_variables p) ->
  length h0 <= length (heap_of s) ->
  (forall i, i < length h0 -> nth_error (heap_of s) i = nth_error h0 i) ->
  exists d, dump_payload p s = (Ok d, s).
Proof.
  intros HF Hle Hag. unfold dump_payload.
  assert (exists js, mapM (fun kv => j <- json_dumps (snd kv) ;; ret (fst kv, j))
                       (p_variables p) s = (Ok js, s)) as [js Hjs].
  { induction HF as [|kv r [j0 Hx] HF IH]; simpl; [exists []; reflexivity|]. destruct kv as [k v].
    destruct IH as [js Hjs].
    assert (Hj : json_dumps v s = (Ok j0, s)).
    { unfold json_dumps, bind, get_heap; cbv beta iota.
      rewrite (dump_agree _ h0 (heap_of s) _ v j0 Hx) by (auto; lia). reflexivity. }
    exists ((k, j0) :: js).
    rewrite (bind_run _ _ s (k, j0) s) by (rewrite (bind_run _ _ s j0 s Hj); reflexivity).
    rewrite (bind_run _ _ s js s Hjs). reflexivity. }
  eexists. rewrite (bind_run _ _ s js s Hjs). reflexivity.
Qed.

Lemma build_payload_vars (P : val -> Prop) q vs mut :
  Forall (fun kv => P (snd (snd kv))) vs ->
  Forall (fun kv => P (snd kv)) (p_variables (build_graphql_payload q vs mut)).
Proof.
  intros HF; unfold build_graphql_payload; simpl.
  induction HF; simpl; constructor; auto.
Qed.

Lemma post_graphql_run p region s d :
  dump_payload p s = (Ok d, s) ->
  post_graphql p region s =
  handle_response (srv s (ncalls s) (graphql_url region) d)
    (mkState (heap_of s) (trace_of s ++ [EPost (graphql_url region) d]) (S (ncalls s)) (srv s)).
Proof.
  intros E. unfold post_graphql. rewrite (bind_run _ _ s d s E).
  apply (bind_run _ _ _ _ _ eq_refl).
Qed.

(** A reply without [errors] yields its decoded [data] *)
Lemma handle_response_data reason kvs page s :
  jlookup "errors" kvs = None -> jlookup "data" kvs = Some page ->
  exists y ext,
    handle_response (Response 200 reason (BodyText (Some (JObj kvs)))) s =
    (Ok y, mkState (heap_of s ++ ext) (trace_of s) (ncalls s) (srv s)) /\
    repr (length (heap_of s)) (heap_of s ++ ext) y page.
Proof.
  intros He Hd. unfold handle_response.
  change (negb (Z.eqb 200 200)) with false. cbv iota.
  destruct (loads (JObj kvs) (heap_of s)) as [v h'] eqn:E.
  destruct (loads_spec _ _ _ _ E) as [[ext ->] Hr].
  destruct (repr_dict_of _ _ _ _ Hr) as [d [Hdd [_ [Hk Ho]]]].
  destruct (repr_obj_lookup _ _ _ _ _ Ho Hd) as [y [Hy Hry]].
  assert (lookup "errors" d = None) as Hn by (apply Hk; auto).
  exists y, ext. split; auto.
  set (s1 := mkState (heap_of s ++ ext) (trace_of s) (ncalls s) (srv s)).
  rewrite (bind_run _ _ s v s1)
    by (unfold json_loads, bind, get_heap, put_heap, ret; cbv beta iota; rewrite E; reflexivity).
  destruct v as [| | | |l]; try discriminate. simpl in Hdd.
  rewrite (bind_run _ _ s1 false s1).
  - unfold py_getitem, bind, get_heap; cbv beta iota. unfold s1 at 1; cbn [heap_of].
    unfold dict_of. destruct (nth_error (heap_of s ++ ext) l) as [[d'|]|]; try discriminate.
    injection Hdd as ->. rewrite Hy. reflexivity.
  - unfold py_contains, bind, get_heap; cbv beta iota. unfold s1 at 1; cbn [heap_of].
    destruct (nth_error (heap_of s ++ ext) l) as [[d'|]|]; try discriminate.
    injection Hdd as ->. rewrite Hn. reflexivity.
Qed.

Lemma nth_error_set_nth_app_frame (h ext : heap) l o i :
  l < length h -> S l <= i -> i < length h ->
  nth_error (set_nth (h ++ ext) l o) i = nth_error h i.
Proof.
  intros Hl Hi1 Hi2. rewrite nth_error_set_nth_neq by lia. apply nth_error_app_lt; auto.
Qed.

(** One page after another: every page is fetched, appended in order, and
    its cursor sent with the next request. *)
Lemma query_loop_pages p q mut region h0 : p <> "" ->
  forall pages fuel s l xs0 cur vs,
  pages_ok p pages ->
  length pages <= fuel ->
  scalar cur = true ->
  Forall (fun kv => exists j, dump h0 (S (length h0)) (snd (snd kv)) = Some j) vs ->
  length h0 <= l ->
  (forall i, i < length h0 -> nth_error (heap_of s) i = nth_error h0 i) ->
  l < length (heap_of s) ->
  nth_error (heap_of s) l = Some (OList xs0) ->
  (forall i d, i < length pages ->
     srv s (ncalls s + i) (graphql_url region) d = page_reply (nth i pages JNull)) ->
  exists xs s',
    query_loop fuel q (Some p) mut region (VRef l) cur vs s =
      ((if cursor_fails (cursor_at p (last pages JNull))
        then Raise (PyError "TypeError") else Ok tt), s') /\
    nth_error (heap_of s') l = Some (OList (xs0 ++ xs)) /\
    repr_arr (repr (S l) (heap_of s')) pages xs /\
    ncalls s' = ncalls s + length pages /\
    length (heap_of s) <= length (heap_of s') /\
    (forall i, S l <= i -> i < length (heap_of s) ->
               nth_error (heap_of s') i = nth_error (heap_of s) i).
Proof.
  intros Hp.
  assert (Hpt : path_truthy (Some p) = true).
  { simpl. destruct (String.eqb p "") eqn:E; auto. apply String.eqb_eq in E; contradiction. }
  induction pages as [|pg rest IH];
    intros fuel s l xs0 cur vs Hok Hlen Hcur Hvs Hh0 Hag Hl Hxs Hsrv; [contradiction|].
  destruct fuel as [|f]; [simpl in Hlen; lia|].
  cbn [query_loop]. rewrite Hpt. cbv iota.
  set (vs' := vars_set "cursor" ("String", cur) vs).
  assert (Hvs' : Forall (fun kv => exists j, dump h0 (S (length h0)) (snd (snd kv)) = Some j) vs')
    by (apply (vars_set_forall (fun v => exists j, dump h0 (S (length h0)) v = Some j));
        [apply dump_scalar; exact Hcur | exact Hvs]).
  set (P := build_graphql_payload q vs' mut).
  destruct (dump_payload_from P s h0
               (build_payload_vars (fun v => exists j, dump h0 (S (length h0)) v = Some j)
                  q vs' mut Hvs') ltac:(lia) Hag)
    as [d Hd].
  set (s2 := mkState (heap_of s) (trace_of s ++ [EPost (graphql_url region) d])
                     (S (ncalls s)) (srv s)).
  destruct (handle_response_data "OK" [("data", pg)] pg s2 eq_refl eq_refl)
    as [y [ext [Eh Hry]]].
  set (s3 := mkState (heap_of s2 ++ ext) (trace_of s2) (ncalls s2) (srv s2)).
  assert (Hpost : post_graphql P region s = (Ok y, s3)).
  { rewrite (post_graphql_run P region s d Hd).
    assert (H0 := Hsrv 0 d). rewrite Nat.add_0_r in H0. rewrite H0 by (simpl; lia).
    exact Eh. }
  rewrite (bind_run _ _ _ _ _ Hpost).
  assert (Hl3 : nth_error (heap_of s3) l = Some (OList xs0))
    by (simpl; rewrite nth_error_app_lt; auto).
  rewrite (bind_run _ _ _ _ _ (py_append_run (VRef l) y s3 xs0 l eq_refl Hl3)).
  set (h4 := set_nth (heap_of s3) l (OList (xs0 ++ [y]))).
  set (s4 := mkState h4 (trace_of s3) (ncalls s3) (srv s3)).
  assert (Hf4 : forall i, S l <= i -> i < length (heap_of s) ->
                nth_error h4 i = nth_error (heap_of s) i)
    by (intros; apply nth_error_set_nth_app_frame; auto).
  assert (Hy4 : repr (length (heap_of s)) h4 y pg).
  { apply (repr_frame pg (length (heap_of s)) (length (heap_of s)) (heap_of s2 ++ ext) h4 y Hry);
      [lia|].
    intros i Hi _. unfold h4. rewrite nth_error_set_nth_neq by lia. reflexivity. }
  assert (Hlen4 : length (heap_of s) <= length h4)
    by (unfold h4; rewrite length_set_nth; simpl; rewrite length_app; lia).
  assert (Hxs4 : nth_error h4 l = Some (OList (xs0 ++ [y]))).
  { unfold h4. apply nth_error_set_nth_eq. simpl. rewrite length_app; lia. }
  assert (Hag4 : forall i, i < length h0 -> nth_error h4 i = nth_error h0 i).
  { intros i Hi. unfold h4. rewrite nth_error_set_nth_neq by lia. simpl.
    rewrite nth_error_app_lt by lia. apply Hag; exact Hi. }
  assert (Hc := get_nested_helper_repr (split_on "." p) pg _ _ _ Hy4).
  rewrite bind_assoc_run.
  rewrite (bind_run (get_nested y p) _ s4 (get_nested_pure h4 y p) s4 eq_refl).
  unfold get_nested_pure. fold (cursor_at p pg) in Hc.
  destruct rest as [|pg' rest'].
  - simpl in Hok. unfold final_cursor in Hok. simpl last.
    exists [y], s4.
    assert (Hwrap : repr_arr (repr (S l) h4) [pg] [y] /\ ncalls s4 = ncalls s + 1 /\
                    length (heap_of s) <= length h4 /\
                    (forall i, S l <= i -> i < length (heap_of s) ->
                               nth_error h4 i = nth_error (heap_of s) i)).
    { split; [simpl; split; auto; eapply repr_weaken; eauto; lia|].
      split; [simpl; lia|]. split; auto. }
    destruct Hwrap as [W1 [W2 [W3 W4]]].
    destruct Hok as [Ho|[Ho|Ho]]; rewrite Ho in Hc |- *; simpl in Hc; rewrite Hc;
      simpl; (split; [reflexivity|]); auto.
  - destruct Hok as [[c [Hcne Hcp]] Hok'].
    rewrite Hcp in Hc. simpl in Hc. rewrite Hc.
    assert (Htc : truthy h4 (VStr c) = true).
    { simpl. destruct (String.eqb c "") eqn:E; auto. apply String.eqb_eq in E; contradiction. }
    cbn [eq_False]. cbv iota.
    rewrite (bind_run (ret (VStr c)) _ s4 (VStr c) s4 eq_refl).
    rewrite (bind_run get_heap _ s4 h4 s4 eq_refl). rewrite Htc.
    destruct (IH f s4 l (xs0 ++ [y]) (VStr c) vs' Hok') as [xs [s' [R1 [R2 [R3 [R4 [R5 R6]]]]]]];
      auto.
    + simpl in *; lia.
    + change (heap_of s4) with h4; lia.
    + intros i d' Hi. simpl. replace (S (ncalls s + i)) with (ncalls s + S i) by lia.
      apply (Hsrv (S i) d'). simpl in *; lia.
    + exists (y :: xs), s'. split; [exact R1|].
      split; [rewrite R2, <- app_assoc; reflexivity|].
      change (heap_of s4) with h4 in R5, R6.
      split; [|split; [rewrite R4; simpl; lia | split; [lia|]]].
      * split; auto.
        apply (repr_frame pg (S l) (S l) h4 (heap_of s') y);
          [apply (repr_weaken pg _ (S l) _ _ Hy4); lia | lia |].
        intros i Hi1 Hi2. apply R6; auto.
      * intros i Hi1 Hi2. rewrite R6; [apply Hf4; auto | auto | lia].
Qed.

(** C8: a paginated query whose variables encode to JSON, against a
    server that hands out the pages [pages], each but the last with a
    non-empty string cursor at [p], sends one request per page and
    collects the decoded pages in request order.  The last page ends the
    loop normally when its cursor is [null] or missing (a missing key
    anywhere on the path reads as [null]).  When the path runs into a
    value that is not an object, the call fails instead, and with
    [TypeError] rather than [GraphQLApiError]: the [raise
    GraphQLApiError(msg)] it reaches lacks the constructor's [status] and
    [reason] arguments (see [GraphQLApiError_msg_only]). *)
Theorem query_graphql_pages fuel q vs p mut region s pages :
  p <> "" -> pages_ok p pages -> length pages <= fuel ->
  Forall (fun kv => exists j, json_dumps (snd (snd kv)) s = (Ok j, s)) vs ->
  (forall i d, i < length pages ->
     srv s (ncalls s + i) (graphql_url region) d = page_reply (nth i pages JNull)) ->
  match query_graphql fuel q vs (Some p) mut region s with
  | (o, s') =>
      exists l xs,
        o = (if cursor_fails (cursor_at p (last pages JNull))
             then Raise (PyError "TypeError") else Ok (VRef l)) /\
        nth_error (heap_of s') l = Some (OList xs) /\
        repr_arr (repr 0 (heap_of s')) pages xs /\
        ncalls s' = ncalls s + length pages
  end.
Proof.
  intros Hp Hok Hlen Hvs Hsrv. unfold query_graphql.
  set (l := length (heap_of s)).
  set (s1 := mkState (heap_of s ++ [OList []]) (trace_of s) (ncalls s) (srv s)).
  rewrite (bind_run (alloc (OList [])) _ s l s1 eq_refl).
  assert (Hvs0 : Forall (fun kv => exists j,
                   dump (heap_of s) (S (length (heap_of s))) (snd (snd kv)) = Some j) vs).
  { eapply Forall_impl; [|exact Hvs]. intros [k [ty v]] [j Hj]. exists j. cbn [snd] in Hj |- *.
    unfold json_dumps, bind, get_heap in Hj; cbv beta iota in Hj.
    destruct (dump (heap_of s) (S (length (heap_of s))) v);
      [injection Hj as ->; reflexivity | discriminate Hj]. }
  assert (Hag0 : forall i, i < length (heap_of s) ->
                 nth_error (heap_of s1) i = nth_error (heap_of s) i)
    by (intros i Hi; apply nth_error_app_lt; exact Hi).
  destruct (query_loop_pages p q mut region (heap_of s) Hp pages fuel s1 l [] VNone vs)
    as [xs [s' [R1 [R2 [R3 [R4 _]]]]]]; auto.
  - simpl. rewrite length_app. simpl. unfold l. lia.
  - simpl. unfold l. apply nth_error_app_len.
  - assert (R3' : repr_arr (repr 0 (heap_of s')) pages xs).
    { eapply repr_arr_mono; [|exact R3].
      apply Forall_forall. intros j _ x Hx. apply (repr_weaken j (S l) 0 _ _ Hx). lia. }
    unfold bind. rewrite R1.
    destruct (cursor_fails (cursor_at p (last pages JNull))); simpl;
      exists l, xs; repeat split; auto.
Qed.

Lemma query_graphql_pages_witness :
  (match query_graphql 3 "{ items }" [("first", ("Int", VInt 10))] (Some "next") false "US"
          (empty_state (pages_server two_pages)) with
   | (o, s') =>
       exists l xs,
         o = (if cursor_fails (cursor_at "next" (last two_pages JNull))
              then Raise (PyError "TypeError") else Ok (VRef l)) /\
         nth_error (heap_of s') l = Some (OList xs) /\
         repr_arr (repr 0 (heap_of s')) two_pages xs /\
         ncalls s' = ncalls (empty_state (pages_server two_pages)) + length two_pages
   end) /\
  (match query_graphql 2 "{ items }" [] (Some "page.next") false "US"
          (empty_state (pages_server [JObj [("page", JNum 1)]])) with
   | (o, s') =>
       exists l xs,
         o = (if cursor_fails (cursor_at "page.next" (last [JObj [("page", JNum 1)]] JNull))
              then Raise (PyError "TypeError") else Ok (VRef l)) /\
         nth_error (heap_of s') l = Some (OList xs) /\
         repr_arr (repr 0 (heap_of s')) [JObj [("page", JNum 1)]] xs /\
         ncalls s' = ncalls (empty_state (pages_server [JObj [("page", JNum 1)]]))
                     + length [JObj [("page", JNum 1)]]
   end) /\
  cursor_fails (cursor_at "page.next" (JObj [("page", JNum 1)])) = true /\
  (match query_graphql 2 "{ items }" [] (Some "page.next") false "US"
          (empty_state (pages_server [JObj []])) with
   | (o, s') =>
       exists l xs,
         o = (if cursor_fails (cursor_at "page.next" (last [JObj []] JNull))
              then Raise (PyError "TypeError") else Ok (VRef l)) /\
         nth_error (heap_of s') l = Some (OList xs) /\
         repr_arr (repr 0 (heap_of s')) [JObj []] xs /\
         ncalls s' = ncalls (empty_state (pages_server [JObj []])) + length [JObj []]
   end) /\
  cursor_fails (cursor_at "page.next" (JObj [])) = false.
Proof.
  split; [|split; [|split; [|split]]].
  - apply query_graphql_pages.
    + discriminate.
    + simpl. split; [exists "c1"; split; [discriminate | reflexivity]|].
      left; reflexivity.
    + simpl; lia.
    + constructor; [exists (JNum 10); reflexivity | constructor].
    + intros i d _. reflexivity.
  - apply query_graphql_pages.
    + discriminate.
    + simpl. right; right; reflexivity.
    + simpl; lia.
    + constructor.
    + intros i d _. reflexivity.
  - reflexivity.
  - apply query_graphql_pages.
    + discriminate.
    + simpl. right; left; reflexivity.
    + simpl; lia.
    + constructor.
    + intros i d _. reflexivity.
  - reflexivity.
Defined.

(** ** Runs of the dict and list primitives *)

Lemma py_get_run v k s d : dict_of (heap_of s) v = Some d ->
  py_get v k s = (Ok (match lookup k d with Some x => x | None => VNone end), s).
Proof. intros H. unfold py_get, bind, get_heap; cbv beta iota. rewrite H. reflexivity. Qed.

Lemma py_getitem_run v k s d x : dict_of (heap_of s) v = Some d -> lookup k d = Some x ->
  py_getitem v k s = (Ok x, s).
Proof.
  intros H Hx. unfold py_getitem, bind, get_heap; cbv beta iota. rewrite H, Hx. reflexivity.
Qed.

Lemma py_contains_dict_run l k s d : nth_error (heap_of s) l = Some (ODict d) ->
  py_contains (VRef l) k s = (Ok (match lookup k d with Some _ => true | None => false end), s).
Proof. intros H. unfold py_contains, bind, get_heap; cbv beta iota. rewrite H. reflexivity. Qed.

Lemma py_iter_list_run l s xs : nth_error (heap_of s) l = Some (OList xs) ->
  py_iter (VRef l) s = (Ok xs, s).
Proof. intros H. unfold py_iter, bind, get_heap; cbv beta iota. rewrite H. reflexivity. Qed.

Lemma py_setitem_run l k x s d : nth_error (heap_of s) l = Some (ODict d) ->
  py_setitem (VRef l) k x s =
  (Ok tt, mkState (set_nth (heap_of s) l (ODict (assoc_set k x d))) (trace_of s) (ncalls s) (srv s)).
Proof.
  intros H. unfold py_setitem, bind, get_heap; cbv beta iota. unfold dict_of. rewrite H.
  reflexivity.
Qed.

Lemma py_delitem_run l k s d x : nth_error (heap_of s) l = Some (ODict d) ->
  lookup k d = Some x ->
  py_delitem (VRef l) k s =
  (Ok tt, mkState (set_nth (heap_of s) l (ODict (assoc_del k d))) (trace_of s) (ncalls s) (srv s)).
Proof.
  intros H Hx. unfold py_delitem, bind, get_heap; cbv beta iota. unfold dict_of. rewrite H, Hx.
  reflexivity.
Qed.

Lemma alloc_run o s :
  alloc o s = (Ok (length (heap_of s)), mkState (heap_of s ++ [o]) (trace_of s) (ncalls s) (srv s)).
Proof. reflexivity. Qed.

Lemma set_nth_app_last {A} (xs : list A) x y : set_nth (xs ++ [x]) (length xs) y = xs ++ [y].
Proof. induction xs as [|a r IH]; simpl; auto. rewrite IH; reflexivity. Qed.

Lemma dict_of_app h ext l d : nth_error h l = Some (ODict d) -> dict_of (h ++ ext) (VRef l) = Some d.
Proof.
  intros H. simpl. rewrite nth_error_app_lt by (eapply nth_error_some_lt; eauto). rewrite H.
  reflexivity.
Qed.

(** ** Linked entities *)

Lemma iterM_collect (f : val -> M unit) (R : val -> list (string * val) -> Prop)
    h t n sv es ekvs :
  (forall e kvs acc, R e kvs ->
     f e (mkState (h ++ [OList acc]) t n sv) =
     (Ok tt, mkState (h ++ [OList (acc ++ guid_of kvs)]) t n sv)) ->
  Forall2 R es ekvs ->
  forall acc,
  iterM f es (mkState (h ++ [OList acc]) t n sv) =
  (Ok tt, mkState (h ++ [OList (acc ++ entity_guids ekvs)]) t n sv).
Proof.
  intros Hf HF; induction HF as [|e kvs es' ekvs' He HF IH]; intros acc; simpl.
  - rewrite app_nil_r. reflexivity.
  - rewrite (bind_run _ _ _ _ _ (Hf e kvs acc He)). rewrite IH.
    unfold entity_guids. rewrite app_assoc. reflexivity.
Qed.

Lemma linked_entity_step h t n sv e kvs acc :
  (exists l', e = VRef l' /\ nth_error h l' = Some (ODict kvs)) ->
  (h0 <- get_heap ;;
   if negb (is_dict h0 e) then invalid "linked entity element found in widget"
   else
     has_guid <- py_contains e "guid" ;;
     if has_guid then g <- py_getitem e "guid" ;; py_append (VRef (length h)) g
     else ret tt) (mkState (h ++ [OList acc]) t n sv) =
  (Ok tt, mkState (h ++ [OList (acc ++ guid_of kvs)]) t n sv).
Proof.
  intros [l' [-> Hl']].
  set (s0 := mkState (h ++ [OList acc]) t n sv).
  assert (Hl0 : nth_error (heap_of s0) l' = Some (ODict kvs))
    by (simpl; rewrite nth_error_app_lt by (eapply nth_error_some_lt; eauto); exact Hl').
  rewrite (bind_run get_heap _ s0 _ s0 eq_refl).
  assert (Hd : is_dict (heap_of s0) (VRef l') = true)
    by (unfold is_dict, dict_of; cbv iota; rewrite Hl0; reflexivity).
  rewrite Hd. cbn [negb]. cbv iota.
  rewrite (bind_run _ _ _ _ _ (py_contains_dict_run l' "guid" s0 kvs Hl0)).
  unfold guid_of. destruct (lookup "guid" kvs) as [g|] eqn:Eg.
  - assert (Hdict : dict_of (heap_of s0) (VRef l') = Some kvs)
      by (unfold dict_of; cbv iota; rewrite Hl0; reflexivity).
    rewrite (bind_run _ _ _ _ _ (py_getitem_run (VRef l') "guid" s0 kvs g Hdict Eg)).
    rewrite (py_append_run (VRef (length h)) g s0 acc (length h) eq_refl).
    + simpl. rewrite set_nth_app_last. reflexivity.
    + simpl. apply nth_error_app_len.
  - rewrite app_nil_r. reflexivity.
Qed.

(** C6: for a widget whose [linkedEntities] is a list of dicts, the fixup
    transformer returns normally; afterwards the widget has a
    [linkedEntityGuids] list, freshly allocated, holding the [guid] of each
    entry that has one, in order, and no [linkedEntities] key; its other
    keys are untouched. *)
Theorem transform_linked_entities_guids guid pageGuid widgetId w s wd le es ekvs :
  nth_error (heap_of s) w = Some (ODict wd) ->
  NoDup (map fst wd) ->
  lookup "linkedEntities" wd = Some (VRef le) ->
  nth_error (heap_of s) le = Some (OList es) ->
  Forall2 (fun e kvs => exists l', e = VRef l' /\ nth_error (heap_of s) l' = Some (ODict kvs))
    es ekvs ->
  match transform_linked_entities guid pageGuid widgetId (VRef w) s with
  | (o, s') =>
      o = Ok tt /\
      exists wd' gl,
        nth_error (heap_of s') w = Some (ODict wd') /\
        lookup "linkedEntityGuids" wd' = Some (VRef gl) /\
        gl = length (heap_of s) /\
        nth_error (heap_of s') gl = Some (OList (entity_guids ekvs)) /\
        lookup "linkedEntities" wd' = None /\
        (forall k, k <> "linkedEntityGuids" -> k <> "linkedEntities" ->
                   lookup k wd' = lookup k wd)
  end.
Proof.
  intros Hw Hnd Hle Hes HF.
  assert (Hwlt : w < length (heap_of s)) by (eapply nth_error_some_lt; eauto).
  unfold transform_linked_entities.
  assert (Hdw : dict_of (heap_of s) (VRef w) = Some wd) by (simpl; rewrite Hw; reflexivity).
  rewrite (bind_run _ _ _ _ _ (py_get_run (VRef w) "linkedEntities" s wd Hdw)). rewrite Hle.
  rewrite (bind_run get_heap _ s _ s eq_refl).
  assert (Hil : is_list (heap_of s) (VRef le) = true)
    by (unfold is_list, list_of; cbv iota; rewrite Hes; reflexivity).
  cbv beta iota. rewrite Hil. cbn [negb]. cbv iota.
  rewrite bind_assoc_run, (bind_run _ _ _ _ _ (alloc_run (OList []) s)). cbv beta.
  set (gl := length (heap_of s)).
  set (s1 := mkState (heap_of s ++ [OList []]) (trace_of s) (ncalls s) (srv s)).
  assert (Hes1 : nth_error (heap_of s1) le = Some (OList es))
    by (simpl; rewrite nth_error_app_lt by (eapply nth_error_some_lt; eauto); exact Hes).
  rewrite bind_assoc_run, (bind_run _ _ _ _ _ (py_iter_list_run le s1 es Hes1)). cbv beta.
  rewrite bind_assoc_run.
  rewrite (bind_run _ _ _ _ _
    (iterM_collect _ _ (heap_of s) (trace_of s) (ncalls s) (srv s) es ekvs
       (fun e kvs acc He => linked_entity_step (heap_of s) (trace_of s) (ncalls s) (srv s)
                              e kvs acc He) HF [])).
  cbv beta. simpl app.
  set (s2 := mkState (heap_of s ++ [OList (entity_guids ekvs)]) (trace_of s) (ncalls s) (srv s)).
  assert (Hw2 : nth_error (heap_of s2) w = Some (ODict wd))
    by (simpl; rewrite nth_error_app_lt by auto; exact Hw).
  rewrite (bind_run _ _ _ _ _ (py_setitem_run w "linkedEntityGuids" (VRef gl) s2 wd Hw2)).
  set (wd2 := assoc_set "linkedEntityGuids" (VRef gl) wd).
  set (s3 := mkState (set_nth (heap_of s2) w (ODict wd2)) (trace_of s2) (ncalls s2) (srv s2)).
  assert (Hw3 : nth_error (heap_of s3) w = Some (ODict wd2)).
  { simpl. apply nth_error_set_nth_eq. rewrite length_app; lia. }
  assert (Hl2 : lookup "linkedEntities" wd2 = Some (VRef le)).
  { unfold wd2. rewrite lookup_assoc_set_neq by discriminate. exact Hle. }
  rewrite (bind_run _ _ _ _ _ (py_contains_dict_run w "linkedEntities" s3 wd2 Hw3)).
  rewrite Hl2. cbv beta iota.
  rewrite (py_delitem_run w "linkedEntities" s3 wd2 (VRef le) Hw3 Hl2).
  split; [reflexivity|].
  exists (assoc_del "linkedEntities" wd2), gl. simpl heap_of.
  split; [|split; [|split; [reflexivity|split; [|split]]]].
  - apply nth_error_set_nth_eq. simpl. rewrite length_set_nth, length_app; simpl; lia.
  - rewrite lookup_assoc_del_neq by discriminate. apply lookup_assoc_set_eq.
  - rewrite nth_error_set_nth_neq by lia. simpl. rewrite nth_error_set_nth_neq by lia.
    unfold gl. apply nth_error_app_len.
  - apply lookup_assoc_del_eq. apply nodup_assoc_set; auto.
  - intros k H1 H2. rewrite lookup_assoc_del_neq by auto.
    apply lookup_assoc_set_neq; auto.
Qed.

Lemma transform_linked_entities_guids_witness :
  match transform_linked_entities VNone VNone (VInt 1) (VRef 0)
          (mkState widget_heap [] 0 (const_server URLErrorRaised)) with
  | (o, s') =>
      o = Ok tt /\
      exists wd' gl,
        nth_error (heap_of s') 0 = Some (ODict wd') /\
        lookup "linkedEntityGuids" wd' = Some (VRef gl) /\
        gl = length widget_heap /\
        nth_error (heap_of s') gl =
          Some (OList (entity_guids [[("guid", VStr "g1")]; [("name", VStr "x")]])) /\
        lookup "linkedEntities" wd' = None /\
        (forall k, k <> "linkedEntityGuids" -> k <> "linkedEntities" ->
                   lookup k wd' = lookup k [("id", VInt 1); ("linkedEntities", VRef 1)])
  end.
Proof.
  apply (transform_linked_entities_guids VNone VNone (VInt 1) 0
           (mkState widget_heap [] 0 (const_server URLErrorRaised))
           [("id", VInt 1); ("linkedEntities", VRef 1)] 1 [VRef 2; VRef 3]
           [[("guid", VStr "g1")]; [("name", VStr "x")]]).
  - reflexivity.
  - constructor; [simpl; intros [H|[]]; discriminate | constructor; [simpl; tauto | constructor]].
  - reflexivity.
  - reflexivity.
  - constructor; [exists 2; split; reflexivity|].
    constructor; [exists 3; split; reflexivity | constructor].
Defined.

(** ** The path accessor *)

(** C3: on a decoded document, [get_nested] yields the value at the end of
    the path when every segment is found in an object; it yields [None]
    when a key on the path is missing, which is also what a present [null]
    yields, and [False] when the path runs into a value that is not an
    object.  So [get({}, "a.b")] is [None], [get({a:{b:null}}, "a.b")] is
    [None], [get({a:{b:1}}, "a.b")] is [1] and [get({a:1}, "a.b")] is
    [False]. *)
Theorem get_nested_paths :
  (forall j b h v path, repr b h v j ->
     match jget j (split_on "." path) with
     | JFound x => repr b h (get_nested_pure h v path) x
     | JMissing => get_nested_pure h v path = VNone
     | JNotMapping => get_nested_pure h v path = VBool false
     end) /\
  get_json (JObj []) "a.b" = VNone /\
  get_json (JObj [("a", JObj [("b", JNull)])]) "a.b" = VNone /\
  get_json (JObj [("a", JObj [("b", JNum 1)])]) "a.b" = VInt 1 /\
  get_json (JObj [("a", JNum 1)]) "a.b" = VBool false.
Proof.
  split; [|repeat split; vm_compute; reflexivity].
  intros j b h v path H. unfold get_nested_pure. apply get_nested_helper_repr; exact H.
Qed.

Lemma get_nested_paths_witness :
  repr 0 (snd (loads doc_a_b_1 [])) (fst (loads doc_a_b_1 [])) doc_a_b_1 /\
  repr 0 (snd (loads doc_a_b_1 []))
    (get_nested_pure (snd (loads doc_a_b_1 [])) (fst (loads doc_a_b_1 [])) "a.b") (JNum 1).
Proof.
  assert (H : repr 0 (snd (loads doc_a_b_1 [])) (fst (loads doc_a_b_1 [])) doc_a_b_1)
    by exact (proj2 (loads_spec doc_a_b_1 [] _ _ eq_refl)).
  split; [exact H|].
  exact (proj1 get_nested_paths doc_a_b_1 0 _ _ "a.b" H).
Defined.

(** C3 (counterexample): a missing intermediate key and a present [null]
    give the same result, and it differs from the one for a non-object
    intermediate value. *)
Lemma get_nested_missing_is_null :
  get_json (JObj []) "a.b" = get_json (JObj [("a", JObj [("b", JNull)])]) "a.b" /\
  get_json (JObj []) "a.b" <> get_json (JObj [("a", JNum 1)]) "a.b".
Proof. split; vm_compute; [reflexivity | discriminate]. Qed.

(** ** Refresh rates *)

(** C1: for a widget without [rawConfiguration] (or with [None] there),
    the refresh-rate transformer returns normally but leaves the widget
    dict as it was: the configuration it builds is never stored in the
    widget, so the widget gets no [rawConfiguration.refreshRate.frequency]. *)
Theorem update_refresh_rate_new_config_dropped guid pageGuid widgetId w rate s wd :
  nth_error (heap_of s) w = Some (ODict wd) ->
  (lookup "rawConfiguration" wd = None \/ lookup "rawConfiguration" wd = Some VNone) ->
  match update_refresh_rate guid pageGuid widgetId (VRef w) rate s with
  | (o, s') => o = Ok tt /\ nth_error (heap_of s') w = Some (ODict wd)
  end.
Proof.
  intros Hw Hraw.
  assert (Hwlt : w < length (heap_of s)) by (eapply nth_error_some_lt; eauto).
  assert (Hdw : dict_of (heap_of s) (VRef w) = Some wd) by (simpl; rewrite Hw; reflexivity).
  unfold update_refresh_rate.
  rewrite (bind_run _ _ _ _ _ (py_get_run (VRef w) "rawConfiguration" s wd Hdw)).
  replace (match lookup "rawConfiguration" wd with Some x => x | None => VNone end) with VNone
    by (destruct Hraw as [-> | ->]; reflexivity).
  rewrite (bind_run get_heap _ s _ s eq_refl). cbv beta iota.
  rewrite bind_assoc_run, (bind_run _ _ _ _ _ (alloc_run (ODict []) s)). cbv beta.
  set (l := length (heap_of s)).
  set (s1 := mkState (heap_of s ++ [ODict []]) (trace_of s) (ncalls s) (srv s)).
  rewrite (bind_run (ret (VRef l)) _ s1 (VRef l) s1 eq_refl).
  assert (Hl1 : nth_error (heap_of s1) l = Some (ODict [])) by apply nth_error_app_len.
  rewrite (bind_run _ _ _ _ _ (py_contains_dict_run l "refreshRate" s1 [] Hl1)). cbv beta iota.
  rewrite (bind_run _ _ _ _ _ (alloc_run (ODict [("frequency", rate)]) s1)).
  set (s2 := mkState (heap_of s1 ++ [ODict [("frequency", rate)]]) (trace_of s1) (ncalls s1)
                     (srv s1)).
  assert (Hl2 : nth_error (heap_of s2) l = Some (ODict [])).
  { simpl. rewrite nth_error_app_lt by (rewrite length_app; simpl; unfold l; lia).
    apply nth_error_app_len. }
  rewrite (py_setitem_run l "refreshRate" _ s2 [] Hl2).
  split; [reflexivity|]. simpl heap_of.
  rewrite nth_error_set_nth_neq by (unfold l; lia).
  simpl. rewrite !nth_error_app_lt by (try rewrite length_app; simpl; lia). exact Hw.
Qed.

Lemma update_refresh_rate_new_config_dropped_witness :
  match update_refresh_rate VNone VNone (VInt 1) (VRef 0) (VInt 60)
          (mkState [ODict [("id", VInt 1)]] [] 0 (const_server URLErrorRaised)) with
  | (o, s') => o = Ok tt /\ nth_error (heap_of s') 0 = Some (ODict [("id", VInt 1)])
  end.
Proof.
  apply (update_refresh_rate_new_config_dropped VNone VNone (VInt 1) 0 (VInt 60)
           (mkState [ODict [("id", VInt 1)]] [] 0 (const_server URLErrorRaised))
           [("id", VInt 1)]); [reflexivity | left; reflexivity].
Defined.

(** ** Dashboard updates *)

(** C2: whenever the update mutation itself gets an answer, [update_dashboard]
    returns normally: it looks [dashboardUpdate.errors] up in the list of
    results rather than in the result, which always yields [False].  In
    particular an answer with a non-empty [errors] list is accepted. *)
Theorem update_dashboard_ignores_errors fuel guid dashboard region s :
  match query_graphql (S fuel) update_dashboard_query
          [("guid", ("EntityGuid!", guid)); ("dashboard", ("DashboardInput!", dashboard))]
          None true region s with
  | (Ok _, _) => fst (update_dashboard (S fuel) guid dashboard region s) = Ok tt
  | _ => True
  end /\
  fst (update_dashboard 1 (VStr "g") (VRef 0) "US"
         (mkState [ODict []] [] 0 (const_server (page_reply update_errors_page)))) = Ok tt.
Proof.
  split; [|vm_compute; reflexivity].
  set (vs := [("guid", ("EntityGuid!", guid)); ("dashboard", ("DashboardInput!", dashboard))]).
  pose proof (query_graphql_one_post fuel update_dashboard_query vs true region s) as Q.
  destruct (query_graphql (S fuel) update_dashboard_query vs None true region s)
    as [o s'] eqn:E.
  destruct o as [r|e|]; auto.
  destruct Q as [_ [_ Hr]]. destruct (Hr r eq_refl) as [_ [[l [v [-> Hl]]] _]].
  unfold update_dashboard. fold vs.
  rewrite (bind_run _ _ s (VRef l) s' E).
  assert (Hn : py_len_list (VRef l) s' = (Ok 1, s')).
  { unfold py_len_list, bind, get_heap; cbv beta iota. unfold list_of. cbv iota.
    rewrite Hl. reflexivity. }
  rewrite (bind_run _ _ _ _ _ Hn). cbn [Nat.eqb negb]. cbv iota.
  assert (Hg : get_nested (VRef l) "dashboardUpdate.errors" s' = (Ok (VBool false), s')).
  { unfold get_nested, bind, get_heap, ret; cbv beta iota. unfold get_nested_pure.
    change (split_on "." "dashboardUpdate.errors") with ["dashboardUpdate"; "errors"].
    cbn [get_nested_helper]. unfold dict_of. cbv iota. rewrite Hl. reflexivity. }
  rewrite (bind_run _ _ _ _ _ Hg).
  rewrite (bind_run get_heap _ s' _ s' eq_refl). cbn [truthy]. cbv iota.
  rewrite (bind_run (ret false) _ s' false s' eq_refl). reflexivity.
Qed.

(** ** Requests sent by a computation *)

(** [one_post u m]: a run of [m] sends at most one request, to [u], and
    returns a value only if it sent it. *)
Definition one_post {A} (u : string) (m : M A) : Prop :=
  forall s, match m s with
  | (o, s') =>
      srv s' = srv s /\
      ((exists d, trace_of s' = trace_of s ++ [EPost u d] /\ ncalls s' = S (ncalls s)) \/
       (trace_of s' = trace_of s /\ ncalls s' = ncalls s /\ forall a, o <> Ok a))
  end.

Definition quiet {A} (m : M A) : Prop := sat no_io (fun _ => True) True m.

Lemma one_post_bind_l {A B} u (m : M A) (k : A -> M B) :
  one_post u m -> (forall a, quiet (k a)) -> one_post u (bind m k).
Proof.
  intros Hm Hk s. specialize (Hm s). unfold bind.
  destruct (m s) as [[a|e|] s1].
  - destruct Hm as [Sv [[d [T N]] | [_ [_ Hno]]]]; [|exfalso; eapply Hno; reflexivity].
    destruct (Hk a s1) as [[T2 [N2 S2]] _].
    destruct (k a s1) as [o2 s2]; simpl in *.
    split; [congruence|]. left; exists d; split; congruence.
  - destruct Hm as [Sv [H|[T [N _]]]]; split; auto.
    right; repeat split; auto; discriminate.
  - destruct Hm as [Sv [H|[T [N _]]]]; split; auto.
    right; repeat split; auto; discriminate.
Qed.

Lemma one_post_bind_r {A B} u (m : M A) (k : A -> M B) :
  quiet m -> (forall a, one_post u (k a)) -> one_post u (bind m k).
Proof.
  intros Hm Hk s. destruct (Hm s) as [[T1 [N1 S1]] _]. unfold bind.
  destruct (m s) as [[a|e|] s1]; simpl in *.
  - specialize (Hk a s1). destruct (k a s1) as [o2 s2].
    destruct Hk as [Sv [[d [T N]] | [T [N Hno]]]]; (split; [congruence|]).
    + left; exists d; split; congruence.
    + right; repeat split; auto; congruence.
  - split; auto. right; repeat split; auto; discriminate.
  - split; auto. right; repeat split; auto; discriminate.
Qed.

Lemma query_graphql_one_post_io fuel q vs mut region :
  one_post (graphql_url region) (query_graphql (S fuel) q vs None mut region).
Proof.
  intros s.
  unfold query_graphql, bind at 1, alloc, bind at 1. simpl.
  set (l := length (heap_of s)).
  set (s1 := mkState (heap_of s ++ [OList []]) (trace_of s) (ncalls s) (srv s)).
  set (p := build_graphql_payload q vs mut).
  destruct (post_graphql_io p region s1) as [Sv [[ext G] [NF IO]]].
  assert (Hl : nth_error (heap_of (snd (post_graphql p region s1))) l = Some (OList [])).
  { rewrite G. simpl. rewrite <- app_assoc. unfold l. apply nth_error_app_len. }
  unfold bind.
  destruct (post_graphql p region s1) as [o2 s2] eqn:E2; simpl in Sv, NF, IO, Hl.
  destruct o2 as [g|e|]; [| | contradiction].
  - destruct IO as [[_ [_ Hno]] | [d [T2 N2]]]; [exfalso; eapply Hno; reflexivity|].
    rewrite (py_append_run (VRef l) g s2 [] l eq_refl Hl). simpl.
    split; [exact Sv|]. left; exists d; split; auto.
  - split; [exact Sv|].
    destruct IO as [[T2 [N2 _]] | [d [T2 N2]]].
    + right; repeat split; auto; discriminate.
    + left; exists d; split; auto.
Qed.

Ltac quiet_leaves :=
  first [ exact I
        | apply sat_py_get | apply sat_py_getitem | apply sat_py_contains
        | apply sat_py_iter | apply sat_py_len_list | apply sat_py_len
        | apply sat_py_index | apply sat_py_join | apply sat_get_nested
        | apply sat_json_dumps | apply sat_alloc_no_io | apply sat_py_setitem_no_io
        | apply sat_py_delitem_no_io | apply sat_py_append_no_io ];
  try typeclasses eauto; try (intros; exact I).

Lemma get_dashboard_one_post fuel guid region :
  one_post (graphql_url region) (get_dashboard (S fuel) guid region).
Proof.
  unfold get_dashboard. apply one_post_bind_l; [apply query_graphql_one_post_io|].
  intros a; unfold quiet; sat_decompose ltac:(exact I); quiet_leaves.
Qed.

Lemma update_dashboard_one_post fuel guid dashboard region :
  one_post (graphql_url region) (update_dashboard (S fuel) guid dashboard region).
Proof.
  unfold update_dashboard. apply one_post_bind_l; [apply query_graphql_one_post_io|].
  intros a; unfold quiet; sat_decompose ltac:(exact I); quiet_leaves.
Qed.

Section Transformers.
Context (R : state -> state -> Prop) `{Reflexive _ R} `{Transitive _ R}.
Context (P : exc -> Prop) (F : Prop).
Hypothesis HPy : forall k, P (PyError k).
Hypothesis HInv : forall m, P (DashboardValidationError m).

Lemma sat_transform_widgets guid dashboard (f : transformer) :
  (forall g pg wid w, sat R P F (f g pg wid w)) ->
  sat R P F (transform_widgets guid dashboard f).
Proof.
  intros Hf. unfold transform_widgets.
  sat_decompose auto; first [apply sat_py_get | apply sat_py_getitem | apply sat_py_iter | auto];
    auto.
Qed.

End Transformers.

Lemma quiet_transform_linked_entities g pg wid w :
  quiet (transform_linked_entities g pg wid w).
Proof. unfold quiet, transform_linked_entities; sat_decompose ltac:(exact I); quiet_leaves. Qed.

Lemma quiet_update_refresh_rate g pg wid w rate :
  quiet (update_refresh_rate g pg wid w rate).
Proof. unfold quiet, update_refresh_rate; sat_decompose ltac:(exact I); quiet_leaves. Qed.

Lemma quiet_fixup guid dashboard : quiet (fixup_linked_entities guid dashboard).
Proof.
  unfold quiet, fixup_linked_entities. apply sat_transform_widgets; try typeclasses eauto;
    try (intros; exact I). apply quiet_transform_linked_entities.
Qed.

Lemma quiet_update_refresh_rates guid dashboard rate :
  quiet (update_refresh_rates guid dashboard rate).
Proof.
  unfold quiet, update_refresh_rates. apply sat_transform_widgets; try typeclasses eauto;
    try (intros; exact I). intros; apply quiet_update_refresh_rate.
Qed.

(** C10: without a cursor path, [query_graphql] never loops: it sends at
    most one request and, when it returns, it has sent exactly one and
    returns a list of exactly one page, so the [len(results) != 1] checks
    of [get_dashboard] and [update_dashboard] never fail. *)
Theorem query_graphql_unpaged fuel q vs mut region s :
  match query_graphql (S fuel) q vs None mut region s with
  | (o, s') =>
      o <> OutOfFuel /\ ncalls s' <= S (ncalls s) /\
      (forall r, o = Ok r ->
         ncalls s' = S (ncalls s) /\
         (exists l v, r = VRef l /\ nth_error (heap_of s') l = Some (OList [v])) /\
         fst (py_len_list r s') = Ok 1)
  end.
Proof. apply query_graphql_one_post. Qed.

(** ** The batch orchestrator *)

(** An entry that is not a dict, or whose [guid] or [refreshRate] is
    missing or falsy, is passed over *)
Lemma entries_skip_run process dc rest results s :
  (dict_of (heap_of s) dc = None \/
   exists d, dict_of (heap_of s) dc = Some d /\
     (truthy (heap_of s) (match lookup "guid" d with Some x => x | None => VNone end) = false \/
      truthy (heap_of s) (match lookup "refreshRate" d with Some x => x | None => VNone end)
        = false)) ->
  process_entries process (dc :: rest) results s = process_entries process rest results s.
Proof.
  intros H. cbn [process_entries].
  rewrite (bind_run get_heap _ s _ s eq_refl). cbv beta.
  destruct H as [Hn | [d [Hd Hf]]].
  - unfold is_dict. rewrite Hn. reflexivity.
  - assert (Hid : is_dict (heap_of s) dc = true) by (unfold is_dict; rewrite Hd; reflexivity).
    rewrite Hid. cbn [negb]. cbv iota.
    rewrite (bind_run _ _ _ _ _ (py_get_run dc "guid" s d Hd)).
    rewrite (bind_run _ _ _ _ _ (py_get_run dc "refreshRate" s d Hd)).
    rewrite (bind_run get_heap _ s _ s eq_refl).
    destruct Hf as [Hf|Hf]; rewrite Hf; cbn [negb orb];
      [reflexivity | rewrite orb_true_r; reflexivity].
Qed.

(** An entry that is processed: the step runs, then the status is
    recorded ([TypeError] for an unhashable guid) and the remaining
    entries follow, unless the step raised an exception that is not
    handled *)
Lemma entries_step_run process dc rest results s d guid rr :
  dict_of (heap_of s) dc = Some d ->
  lookup "guid" d = Some guid -> lookup "refreshRate" d = Some rr ->
  truthy (heap_of s) guid = true -> truthy (heap_of s) rr = true ->
  process_entries process (dc :: rest) results s =
  match process guid rr s with
  | (Ok _, s2) =>
      if scalar guid then process_entries process rest (status_set guid "OK" results) s2
      else (Raise (PyError "TypeError"), s2)
  | (Raise e, s2) =>
      match status_of e with
      | Some st =>
          if scalar guid then process_entries process rest (status_set guid st results) s2
          else (Raise (PyError "TypeError"), s2)
      | None => (Raise e, s2)
      end
  | (OutOfFuel, s2) => (OutOfFuel, s2)
  end.
Proof.
  intros Hd Hg Hr Htg Htr.
  cbn [process_entries].
  rewrite (bind_run get_heap _ s _ s eq_refl).
  assert (Hid : is_dict (heap_of s) dc = true) by (unfold is_dict; rewrite Hd; reflexivity).
  rewrite Hid. cbn [negb]. cbv iota.
  rewrite (bind_run _ _ _ _ _ (py_get_run dc "guid" s d Hd)). rewrite Hg.
  rewrite (bind_run _ _ _ _ _ (py_get_run dc "refreshRate" s d Hd)). rewrite Hr.
  rewrite (bind_run get_heap _ s _ s eq_refl). rewrite Htg, Htr. cbn [negb orb]. cbv iota.
  destruct guid as [| | | |lg];
  (unfold bind at 1, try_except; unfold bind, results_set, ret, type_error, raise;
   destruct (process _ rr s) as [[u|e|] s2]; cbv beta iota;
   [ reflexivity
   | destruct (status_of e); reflexivity
   | reflexivity ]).
Qed.

(** C9: the orchestrator walks the entries in input order.  An entry that
    is not a dict, or whose [guid] or [refreshRate] is missing or falsy,
    is skipped.  For any other entry the step runs first.  If the guid is
    hashable (not a list or dict), [OK] is recorded when the step returns,
    and when it raises one of the three handled exceptions
    ([DashboardNotFoundError], [DashboardValidationError],
    [GraphQLApiError]) the matching status is recorded; in both cases the
    remaining entries are processed next.  Any other exception (a
    [PyError]) ends the run with that exception.  If the guid is a list or
    dict, recording its status raises [TypeError], which ends the run. *)
Theorem process_entries_step process dc rest results s :
  ((dict_of (heap_of s) dc = None \/
    exists d, dict_of (heap_of s) dc = Some d /\
      (truthy (heap_of s) (match lookup "guid" d with Some x => x | None => VNone end) = false \/
       truthy (heap_of s) (match lookup "refreshRate" d with Some x => x | None => VNone end)
         = false)) ->
   process_entries process (dc :: rest) results s = process_entries process rest results s) /\
  (forall d guid rr,
     dict_of (heap_of s) dc = Some d ->
     lookup "guid" d = Some guid -> lookup "refreshRate" d = Some rr ->
     truthy (heap_of s) guid = true -> truthy (heap_of s) rr = true ->
     process_entries process (dc :: rest) results s =
     match process guid rr s with
     | (Ok _, s2) =>
         if scalar guid then process_entries process rest (status_set guid "OK" results) s2
         else (Raise (PyError "TypeError"), s2)
     | (Raise e, s2) =>
         match status_of e with
         | Some st =>
             if scalar guid then process_entries process rest (status_set guid st results) s2
             else (Raise (PyError "TypeError"), s2)
         | None => (Raise e, s2)
         end
     | (OutOfFuel, s2) => (OutOfFuel, s2)
     end) /\
  (forall e, status_of e = None <-> exists k, e = PyError k).
Proof.
  split; [apply entries_skip_run|]. split.
  - intros d guid rr; apply entries_step_run.
  - intros [m st r|m|m|k]; simpl; split; intros H;
      try discriminate; try (destruct H; discriminate); eauto.
Qed.

Lemma process_entries_step_witness :
  process_entries (fun _ _ => raise (DashboardNotFoundError "gone"))
    [VInt 7; VRef 0] []
    (mkState [ODict [("guid", VStr "g"); ("refreshRate", VInt 60)]] [] 0
             (const_server URLErrorRaised)) =
  (Ok [(VStr "g", "NOT FOUND")],
   mkState [ODict [("guid", VStr "g"); ("refreshRate", VInt 60)]] [] 0
           (const_server URLErrorRaised)) /\
  process_entries (fun _ _ => raise (GraphQLApiError "bad" 500 "err"))
    [VRef 0; VRef 2] []
    (mkState [ODict [("guid", VRef 1); ("refreshRate", VInt 60)]; OList [VStr "x"];
              ODict [("guid", VStr "y"); ("refreshRate", VInt 60)]] [] 0
             (const_server URLErrorRaised)) =
  (Raise (PyError "TypeError"),
   mkState [ODict [("guid", VRef 1); ("refreshRate", VInt 60)]; OList [VStr "x"];
            ODict [("guid", VStr "y"); ("refreshRate", VInt 60)]] [] 0
           (const_server URLErrorRaised)) /\
  process_entries (fun _ _ => raise (PyError "KeyError"))
    [VRef 0; VRef 0] []
    (mkState [ODict [("guid", VStr "g"); ("refreshRate", VInt 60)]] [] 0
             (const_server URLErrorRaised)) =
  (Raise (PyError "KeyError"),
   mkState [ODict [("guid", VStr "g"); ("refreshRate", VInt 60)]] [] 0
           (const_server URLErrorRaised)).
Proof.
  split; [|split].
  - rewrite (proj1 (process_entries_step (fun _ _ => raise (DashboardNotFoundError "gone"))
                      (VInt 7) [VRef 0] []
                      (mkState [ODict [("guid", VStr "g"); ("refreshRate", VInt 60)]] [] 0
                               (const_server URLErrorRaised))))
      by (left; reflexivity).
    rewrite (proj1 (proj2 (process_entries_step (fun _ _ => raise (DashboardNotFoundError "gone"))
                      (VRef 0) [] []
                      (mkState [ODict [("guid", VStr "g"); ("refreshRate", VInt 60)]] [] 0
                               (const_server URLErrorRaised))))
               [("guid", VStr "g"); ("refreshRate", VInt 60)] (VStr "g") (VInt 60))
      by reflexivity.
    reflexivity.
  - rewrite (proj1 (proj2 (process_entries_step (fun _ _ => raise (GraphQLApiError "bad" 500 "err"))
                      (VRef 0) [VRef 2] []
                      (mkState [ODict [("guid", VRef 1); ("refreshRate", VInt 60)];
                                OList [VStr "x"];
                                ODict [("guid", VStr "y"); ("refreshRate", VInt 60)]] [] 0
                               (const_server URLErrorRaised))))
               [("guid", VRef 1); ("refreshRate", VInt 60)] (VRef 1) (VInt 60))
      by reflexivity.
    reflexivity.
  - rewrite (proj1 (proj2 (process_entries_step (fun _ _ => raise (PyError "KeyError"))
                      (VRef 0) [VRef 0] []
                      (mkState [ODict [("guid", VStr "g"); ("refreshRate", VInt 60)]] [] 0
                               (const_server URLErrorRaised))))
               [("guid", VStr "g"); ("refreshRate", VInt 60)] (VStr "g") (VInt 60))
      by reflexivity.
    reflexivity.
Defined.

(** C9 (counterexample): the first entry's guid is a list; its fetch fails
    with [GraphQLApiError], which is handled, but recording its status
    raises [TypeError], so the run ends and the second entry is never
    sent. *)
Lemma process_all_list_guid_stops :
  fst (run_config 2 None "US" list_guid_config (const_server (HTTPErrorRaised 500 "err")))
  = Raise (PyError "TypeError") /\
  trace_of (snd (run_config 2 None "US" list_guid_config
                   (const_server (HTTPErrorRaised 500 "err"))))
  = [EPost GRAPHQL_US_URL
       (JObj [("query", JStr ("query($guid: EntityGuid!)" ^^ get_dashboard_query));
              ("variables", JObj [("guid", JArr [JStr "x"])])])].
Proof. split; vm_compute; reflexivity. Qed.

(** ** Backups *)

Lemma json_dumps_run v s j : dump (heap_of s) (S (length (heap_of s))) v = Some j ->
  json_dumps v s = (Ok j, s).
Proof. intros E. unfold json_dumps, bind, get_heap; cbv beta iota. rewrite E. reflexivity. Qed.

Lemma json_dumps_fail v s : dump (heap_of s) (S (length (heap_of s))) v = None ->
  json_dumps v s = (Raise (PyError "ValueError"), s).
Proof. intros E. unfold json_dumps, bind, get_heap; cbv beta iota. rewrite E. reflexivity. Qed.

(** C5: with a backup directory, the run of [process_dashboard_update]
    sends the fetch, then writes the backup, then sends the update, and
    stops after any of them; the backup holds the dashboard as it is after
    the linked-entities fixup and before the refresh rates are set. *)
Theorem process_dashboard_update_backup fuel guid rate dir region s :
  dir <> "" ->
  match process_dashboard_update (S fuel) guid rate (Some dir) region s with
  | (o, s') =>
      exists T, trace_of s' = trace_of s ++ T /\
      (T = [] \/ (exists p1, T = [EPost (graphql_url region) p1]) \/
       exists dv s1 s2 snap p1,
         get_dashboard (S fuel) guid region s = (Ok dv, s1) /\
         fixup_linked_entities guid dv s1 = (Ok tt, s2) /\
         json_dumps dv s2 = (Ok snap, s2) /\
         (T = [EPost (graphql_url region) p1; EBackup dir guid snap] \/
          exists p2, T = [EPost (graphql_url region) p1; EBackup dir guid snap;
                          EPost (graphql_url region) p2]))
  end.
Proof.
  intros Hd.
  assert (Hdir : String.eqb dir "" = false) by (apply String.eqb_neq; exact Hd).
  unfold process_dashboard_update.
  pose proof (get_dashboard_one_post fuel guid region s) as G.
  destruct (get_dashboard (S fuel) guid region s) as [o1 s1] eqn:E1.
  unfold bind at 1. rewrite E1.
  destruct o1 as [dv|e|].
  2, 3: destruct G as [_ [[p1 [T _]] | [T _]]];
    [ exists [EPost (graphql_url region) p1]; split; [exact T | right; left; eauto]
    | exists []; rewrite app_nil_r; split; [exact T | left; reflexivity] ].
  destruct G as [_ [[p1 [T1 _]] | [_ [_ Hno]]]]; [|exfalso; eapply Hno; reflexivity].
  destruct (quiet_fixup guid dv s1) as [[T2 _] _].
  destruct (fixup_linked_entities guid dv s1) as [o2 s2] eqn:E2. simpl in T2.
  unfold bind at 1. rewrite E2.
  destruct o2 as [[]|e|];
    [| exists [EPost (graphql_url region) p1]; split; [congruence | right; left; eauto] ..].
  rewrite Hdir.
  destruct (dump (heap_of s2) (S (length (heap_of s2))) dv) as [snap|] eqn:Ed.
  2: { unfold bind at 1, backup_dashboard. rewrite (bind_run_raise _ _ _ _ _ (json_dumps_fail dv s2 Ed)).
       exists [EPost (graphql_url region) p1]; split; [congruence | right; left; eauto]. }
  set (s3 := mkState (heap_of s2) (trace_of s2 ++ [EBackup dir guid snap]) (ncalls s2) (srv s2)).
  assert (Hb : backup_dashboard dir guid dv s2 = (Ok tt, s3)).
  { unfold backup_dashboard. rewrite (bind_run _ _ _ _ _ (json_dumps_run dv s2 snap Ed)).
    reflexivity. }
  rewrite (bind_run _ _ _ _ _ Hb).
  assert (Hsnap : json_dumps dv s2 = (Ok snap, s2)) by exact (json_dumps_run dv s2 snap Ed).
  destruct (quiet_update_refresh_rates guid dv rate s3) as [[T4 _] _].
  destruct (update_refresh_rates guid dv rate s3) as [o4 s4] eqn:E4. simpl in T4.
  unfold bind at 1. rewrite E4.
  destruct o4 as [[]|e|].
  2, 3: exists [EPost (graphql_url region) p1; EBackup dir guid snap];
        split; [rewrite T4; simpl; rewrite T2, T1, <- app_assoc; reflexivity|];
        right; right; exists dv, s1, s2, snap, p1; repeat split; auto.
  pose proof (update_dashboard_one_post fuel guid dv region s4) as U.
  destruct (update_dashboard (S fuel) guid dv region s4) as [o5 s5].
  destruct U as [_ [[p2 [T5 _]] | [T5 _]]].
  - exists [EPost (graphql_url region) p1; EBackup dir guid snap; EPost (graphql_url region) p2].
    split; [rewrite T5, T4; simpl; rewrite T2, T1, <- !app_assoc; reflexivity|].
    right; right; exists dv, s1, s2, snap, p1; repeat split; auto. right; eauto.
  - exists [EPost (graphql_url region) p1; EBackup dir guid snap].
    split; [rewrite T5, T4; simpl; rewrite T2, T1, <- app_assoc; reflexivity|].
    right; right; exists dv, s1, s2, snap, p1; repeat split; auto.
Qed.

Lemma process_dashboard_update_backup_witness :
  match process_dashboard_update 1 (VStr "g") (VInt 60) (Some "b") "US"
          (empty_state (const_server (entity_reply linked_dashboard))) with
  | (o, s') =>
      exists T, trace_of s' = trace_of (empty_state (const_server (entity_reply linked_dashboard))) ++ T /\
      (T = [] \/ (exists p1, T = [EPost (graphql_url "US") p1]) \/
       exists dv s1 s2 snap p1,
         get_dashboard 1 (VStr "g") "US" (empty_state (const_server (entity_reply linked_dashboard)))
           = (Ok dv, s1) /\
         fixup_linked_entities (VStr "g") dv s1 = (Ok tt, s2) /\
         json_dumps dv s2 = (Ok snap, s2) /\
         (T = [EPost (graphql_url "US") p1; EBackup "b" (VStr "g") snap] \/
          exists p2, T = [EPost (graphql_url "US") p1; EBackup "b" (VStr "g") snap;
                          EPost (graphql_url "US") p2]))
  end.
Proof.
  apply (process_dashboard_update_backup 0 (VStr "g") (VInt 60) "b" "US"
           (empty_state (const_server (entity_reply linked_dashboard)))).
  discriminate.
Defined.

(** C5 (counterexample): for a dashboard whose widget has linked entities,
    the backup written is not the dashboard as fetched but the fixed-up
    one, and the run succeeds. *)
Lemma backup_is_not_fetched_dashboard :
  fst (process_dashboard_update 1 (VStr "g") (VInt 60) (Some "b") "US"
         (empty_state (const_server (entity_reply linked_dashboard)))) = Ok tt /\
  nth_error (trace_of (snd (process_dashboard_update 1 (VStr "g") (VInt 60) (Some "b") "US"
                               (empty_state (const_server (entity_reply linked_dashboard))))))
    1 = Some (EBackup "b" (VStr "g") linked_dashboard_fixed) /\
  linked_dashboard_fixed <> linked_dashboard.
Proof. split; [|split]; [vm_compute; reflexivity | vm_compute; reflexivity | discriminate]. Qed.

(** ** No dashboard is reported as not found *)

Lemma sat_any_of_no_io {A} P F (m : M A) : sat no_io P F m -> sat any_step P F m.
Proof. intros H s; destruct (H s) as [_ H2]; split; [exact I | exact H2]. Qed.

Ltac nf_leaves := first [ quiet_leaves | apply sat_any_of_no_io; quiet_leaves ].

Lemma nf_urlopen u d : sat any_step not_nf True (urlopen u d).
Proof. intros s; split; exact I. Qed.

Lemma nf_emit e : sat any_step not_nf True (emit e).
Proof. intros s; split; exact I. Qed.

Lemma nf_json_loads j : sat any_step not_nf True (json_loads j).
Proof. apply sat_any_of_no_io, sat_json_loads_no_io. Qed.

Lemma nf_post_graphql p region : sat any_step not_nf True (post_graphql p region).
Proof.
  unfold post_graphql. apply sat_bind; try typeclasses eauto.
  - apply sat_dump_payload; try typeclasses eauto; intros; exact I.
  - intros d. apply sat_bind; try typeclasses eauto; [apply nf_urlopen|].
    intros r. apply sat_handle_response; try typeclasses eauto; try (intros; exact I).
    intros; apply nf_json_loads.
Qed.

Lemma nf_query_loop fuel q ncp mut region results :
  forall nc vs, sat any_step not_nf True (query_loop fuel q ncp mut region results nc vs).
Proof.
  induction fuel as [|f IH]; intros nc vs; cbn [query_loop].
  - intros s; split; exact I.
  - cbv zeta. sat_decompose ltac:(exact I); first [apply nf_post_graphql | apply IH | nf_leaves].
Qed.

Lemma nf_query_graphql fuel q vs ncp mut region :
  sat any_step not_nf True (query_graphql fuel q vs ncp mut region).
Proof.
  unfold query_graphql. sat_decompose ltac:(exact I); first [apply nf_query_loop | nf_leaves].
Qed.

Lemma nf_get_dashboard fuel guid region : sat any_step not_nf True (get_dashboard fuel guid region).
Proof.
  unfold get_dashboard. sat_decompose ltac:(exact I); first [apply nf_query_graphql | nf_leaves].
Qed.

Lemma nf_update_dashboard fuel guid dashboard region :
  sat any_step not_nf True (update_dashboard fuel guid dashboard region).
Proof.
  unfold update_dashboard. sat_decompose ltac:(exact I); first [apply nf_query_graphql | nf_leaves].
Qed.

Lemma nf_transform_linked_entities g pg wid w :
  sat any_step not_nf True (transform_linked_entities g pg wid w).
Proof. unfold transform_linked_entities; sat_decompose ltac:(exact I); nf_leaves. Qed.

Lemma nf_update_refresh_rate g pg wid w rate :
  sat any_step not_nf True (update_refresh_rate g pg wid w rate).
Proof. unfold update_refresh_rate; sat_decompose ltac:(exact I); nf_leaves. Qed.

Lemma nf_fixup guid dashboard : sat any_step not_nf True (fixup_linked_entities guid dashboard).
Proof.
  unfold fixup_linked_entities.
  apply (sat_transform_widgets any_step not_nf True); try (intros; exact I).
  apply nf_transform_linked_entities.
Qed.

Lemma nf_update_refresh_rates guid dashboard rate :
  sat any_step not_nf True (update_refresh_rates guid dashboard rate).
Proof.
  unfold update_refresh_rates.
  apply (sat_transform_widgets any_step not_nf True); try (intros; exact I).
  intros; apply nf_update_refresh_rate.
Qed.

Lemma nf_process_dashboard_update fuel guid rate dir region :
  sat any_step not_nf True (process_dashboard_update fuel guid rate dir region).
Proof.
  unfold process_dashboard_update.
  apply sat_bind; try typeclasses eauto; [apply nf_get_dashboard | intros dashboard].
  apply sat_bind; try typeclasses eauto; [apply nf_fixup | intros _].
  apply sat_bind; try typeclasses eauto.
  - destruct dir as [d|]; [destruct (String.eqb d "")|]; try apply sat_ret; try typeclasses eauto.
    unfold backup_dashboard. apply sat_bind; try typeclasses eauto; [nf_leaves | intros; apply nf_emit].
  - intros _. apply sat_bind; try typeclasses eauto;
      [apply nf_update_refresh_rates | intros; apply nf_update_dashboard].
Qed.

Lemma sat_nf_res {A} (m : M A) s : sat any_step not_nf True m -> nf_res (fun _ => True) (fst (m s)).
Proof. intros H; destruct (H s) as [_ H2]; destruct (fst (m s)); exact H2 || exact I. Qed.

Lemma bind_nf {A B} (I : A -> Prop) (J : B -> Prop) (m : M A) (k : A -> M B) s :
  nf_res I (fst (m s)) ->
  (forall a s', m s = (Ok a, s') -> I a -> nf_res J (fst (k a s'))) ->
  nf_res J (fst (bind m k s)).
Proof. unfold bind. destruct (m s) as [[a|e|] s1]; simpl; eauto. Qed.

Lemma nf_res_weaken {A} (I J : A -> Prop) o : nf_res I o -> (forall a, I a -> J a) -> nf_res J o.
Proof. destruct o; simpl; auto. Qed.

Definition no_not_found (rs : list (val * string)) : Prop := ~ In "NOT FOUND" (map snd rs).

Lemma status_set_no_not_found k st rs :
  st <> "NOT FOUND" -> no_not_found rs -> no_not_found (status_set k st rs).
Proof.
  unfold no_not_found; intros Hst; induction rs as [|[k' st'] r IH]; simpl.
  - intros _ [E|[]]; congruence.
  - intros Hn. destruct (key_eq k k'); simpl.
    + intros [E|E]; [congruence | apply Hn; right; exact E].
    + intros [E|E]; [apply Hn; left; exact E | apply IH; [intros E'; apply Hn; right; exact E' | exact E]].
Qed.

Lemma results_set_nf k st rs s :
  st <> "NOT FOUND" -> no_not_found rs -> nf_res no_not_found (fst (results_set k st rs s)).
Proof.
  intros Hst Hn. destruct k; simpl; try exact I; apply status_set_no_not_found; auto.
Qed.

Lemma status_of_not_nf e st : not_nf e -> status_of e = Some st -> st <> "NOT FOUND".
Proof. destruct e; simpl; intros H E; try contradiction; try discriminate; injection E as <-; discriminate. Qed.

Section NoNotFound.
Variable process : val -> val -> M unit.
Hypothesis Hprocess : forall g r, sat any_step not_nf True (process g r).

Lemma try_step_nf g r results s :
  no_not_found results ->
  nf_res no_not_found
    (fst (try_except (process g r ;;; results_set g "OK" results)
            (fun e => match status_of e with
                      | Some st => Some (results_set g st results)
                      | None => None
                      end) s)).
Proof.
  intros Hn. unfold try_except.
  assert (H1 : nf_res no_not_found (fst ((process g r ;;; results_set g "OK" results) s))).
  { apply (bind_nf (fun _ => True)); [apply sat_nf_res, Hprocess|].
    intros _ s' _ _. apply results_set_nf; [discriminate | exact Hn]. }
  destruct ((process g r ;;; results_set g "OK" results) s) as [[a|e|] s1]; simpl in H1.
  - exact H1.
  - destruct (status_of e) as [st|] eqn:Est; [|exact H1].
    apply results_set_nf; [eapply status_of_not_nf; eauto | exact Hn].
  - exact I.
Qed.

Lemma process_entries_nf entries : forall results s,
  no_not_found results -> nf_res no_not_found (fst (process_entries process entries results s)).
Proof.
  induction entries as [|dc rest IH]; intros results s Hn; cbn [process_entries].
  - exact Hn.
  - apply (bind_nf (fun _ => True)); [exact I|]. intros h s1 _ _.
    destruct (negb (is_dict h dc)); [apply IH; exact Hn|].
    apply (bind_nf (fun _ => True)); [apply sat_nf_res; apply sat_py_get; try typeclasses eauto; intros; exact I|].
    intros guid s2 _ _.
    apply (bind_nf (fun _ => True)); [apply sat_nf_res; apply sat_py_get; try typeclasses eauto; intros; exact I|].
    intros rr s3 _ _.
    apply (bind_nf (fun _ => True)); [exact I|]. intros h' s4 _ _.
    destruct (negb (truthy h' guid) || negb (truthy h' rr)); [apply IH; exact Hn|].
    apply (bind_nf no_not_found); [apply try_step_nf; exact Hn|].
    intros results' s5 _ Hn'. apply IH; exact Hn'.
Qed.

Lemma process_dashboard_updates_nf config s :
  nf_res no_not_found (fst (process_dashboard_updates process config s)).
Proof.
  unfold process_dashboard_updates.
  apply (bind_nf (fun _ => True)); [apply sat_nf_res; apply sat_py_contains; try typeclasses eauto; intros; exact I|].
  intros has s1 _ _. destruct (negb has); [intros []|].
  apply (bind_nf (fun _ => True)); [apply sat_nf_res; apply sat_py_getitem; try typeclasses eauto; intros; exact I|].
  intros ds s2 _ _.
  apply (bind_nf (fun _ => True)); [exact I|]. intros h s3 _ _.
  destruct (negb (is_list h ds)); [intros []|].
  apply (bind_nf (fun _ => True)); [apply sat_nf_res; apply sat_py_iter; try typeclasses eauto; intros; exact I|].
  intros entries s4 _ _. apply process_entries_nf. intros [].
Qed.

End NoNotFound.

(** An unpaged query answered with an object that has [data] and no
    [errors]: one request, and a list holding the decoded [data] *)
Lemma query_graphql_unpaged_reply fuel q vs mut region s d reason kvs dj :
  dump_payload (build_graphql_payload q vs mut)
    (mkState (heap_of s ++ [OList []]) (trace_of s) (ncalls s) (srv s)) =
    (Ok d, mkState (heap_of s ++ [OList []]) (trace_of s) (ncalls s) (srv s)) ->
  srv s (ncalls s) (graphql_url region) d = Response 200 reason (BodyText (Some (JObj kvs))) ->
  jlookup "errors" kvs = None -> jlookup "data" kvs = Some dj ->
  exists y h3,
    query_graphql (S fuel) q vs None mut region s =
      (Ok (VRef (length (heap_of s))),
       mkState h3 (trace_of s ++ [EPost (graphql_url region) d]) (S (ncalls s)) (srv s)) /\
    nth_error h3 (length (heap_of s)) = Some (OList [y]) /\
    repr (S (length (heap_of s))) h3 y dj.
Proof.
  intros Hd Hs He Hdj. unfold query_graphql.
  set (s1 := mkState (heap_of s ++ [OList []]) (trace_of s) (ncalls s) (srv s)) in Hd.
  rewrite (bind_run (alloc (OList [])) _ s (length (heap_of s)) s1 (alloc_run _ _)).
  cbv beta. cbn [query_loop path_truthy]. cbv iota.
  set (s2 := mkState (heap_of s1) (trace_of s1 ++ [EPost (graphql_url region) d])
                     (S (ncalls s1)) (srv s1)).
  destruct (handle_response_data reason kvs dj s2 He Hdj) as [y [ext [Eh Hry]]].
  set (s3 := mkState (heap_of s2 ++ ext) (trace_of s2) (ncalls s2) (srv s2)).
  assert (Hpost : post_graphql (build_graphql_payload q vs mut) region s1 = (Ok y, s3)).
  { rewrite (post_graphql_run _ region s1 d Hd).
    change (srv s1 (ncalls s1)) with (srv s (ncalls s)). rewrite Hs. exact Eh. }
  rewrite bind_assoc_run. rewrite (bind_run _ _ _ _ _ Hpost).
  assert (Hl3 : nth_error (heap_of s3) (length (heap_of s)) = Some (OList [])).
  { cbn [heap_of s3 s2 s1]. rewrite <- app_assoc. apply nth_error_app_len. }
  rewrite bind_assoc_run.
  rewrite (bind_run _ _ _ _ _ (py_append_run _ y s3 [] _ eq_refl Hl3)).
  set (h4 := set_nth (heap_of s3) (length (heap_of s)) (OList ([] ++ [y]))).
  rewrite bind_assoc_run.
  rewrite (bind_run (ret VNone) _ _ VNone _ eq_refl).
  rewrite bind_assoc_run.
  rewrite (bind_run get_heap _ _ _ _ eq_refl). cbn [truthy].
  exists y, h4. split; [reflexivity|]. split.
  - unfold h4. apply nth_error_set_nth_eq. eapply nth_error_some_lt; eauto.
  - eapply repr_frame; [exact Hry| |].
    + cbn [heap_of s2 s1]. rewrite length_app; simpl; lia.
    + intros i Hi _. unfold h4. rewrite nth_error_set_nth_neq by
        (cbn [heap_of s2 s1] in Hi; rewrite length_app in Hi; simpl in Hi; lia). reflexivity.
Qed.

(** A fetch answered with a [data] whose [actor.entity] is not an object
    reaches [raise GraphQLApiError(msg)], which lacks the [status] and
    [reason] arguments of the constructor: [TypeError] *)
Lemma get_dashboard_bad_entity fuel g region s reason kvs dj :
  srv s (ncalls s) (graphql_url region) (get_dashboard_request g) =
    Response 200 reason (BodyText (Some (JObj kvs))) ->
  jlookup "errors" kvs = None -> jlookup "data" kvs = Some dj ->
  (forall ekvs, jget dj ["actor"; "entity"] <> JFound (JObj ekvs)) ->
  exists h3,
    get_dashboard (S fuel) (VStr g) region s =
    (Raise (PyError "TypeError"),
     mkState h3 (trace_of s ++ [EPost (graphql_url region) (get_dashboard_request g)])
             (S (ncalls s)) (srv s)).
Proof.
  intros Hs He Hdj Hne. unfold get_dashboard. cbv zeta.
  destruct (query_graphql_unpaged_reply fuel get_dashboard_query [("guid", ("EntityGuid!", VStr g))]
              false region s (get_dashboard_request g) reason kvs dj eq_refl Hs He Hdj)
    as [y [h3 [Eq [Hl3 Hry]]]].
  rewrite (bind_run _ _ _ _ _ Eq).
  set (s3 := mkState h3 (trace_of s ++ [EPost (graphql_url region) (get_dashboard_request g)])
                     (S (ncalls s)) (srv s)).
  assert (Hlen : py_len_list (VRef (length (heap_of s))) s3 = (Ok 1, s3)).
  { unfold py_len_list, bind, get_heap. cbn [heap_of s3 list_of]. rewrite Hl3. reflexivity. }
  rewrite (bind_run _ _ _ _ _ Hlen). cbn [Nat.eqb negb]. cbv iota.
  assert (Hix : py_index (VRef (length (heap_of s))) 0 s3 = (Ok y, s3)).
  { unfold py_index, bind, get_heap. cbn [heap_of s3 list_of]. rewrite Hl3. reflexivity. }
  rewrite (bind_run _ _ _ _ _ Hix).
  rewrite (bind_run (get_nested y "actor.entity") _ s3 _ s3 eq_refl).
  rewrite (bind_run get_heap _ s3 _ s3 eq_refl).
  pose proof (get_nested_helper_repr ["actor"; "entity"] dj _ _ _ Hry) as Hg.
  unfold get_nested_pure. change (split_on "." "actor.entity") with ["actor"; "entity"].
  cbn [heap_of s3].
  assert (Hnd : is_dict h3 (get_nested_helper h3 y ["actor"; "entity"]) = false).
  { destruct (jget dj ["actor"; "entity"]) as [x| |] eqn:Ej; rewrite ?Hg; try reflexivity.
    unfold is_dict. rewrite (repr_not_dict _ _ _ _ Hg); [reflexivity|].
    intros ekvs E; subst x; exact (Hne ekvs eq_refl). }
  rewrite Hnd. exists h3. reflexivity.
Qed.

(** C4: no run reports a dashboard as not found: [process_all] never
    raises [DashboardNotFoundError] and, when it returns, no guid has
    status [NOT FOUND].  A fetch whose reply is well formed but whose
    [actor.entity] is [null], missing or not an object fails with
    [TypeError] (not a [GraphQLApiError]), after its one request; the
    orchestrator does not handle [TypeError], so for an entry with that
    guid the run ends there: no status is recorded and no later entry is
    processed. *)
Theorem process_all_never_not_found fuel dir region config s :
  (forall rs, fst (process_all fuel dir region config s) = Ok rs ->
              ~ In "NOT FOUND" (map snd rs)) /\
  (forall m, fst (process_all fuel dir region config s) <> Raise (DashboardNotFoundError m)) /\
  (forall f g reason kvs dj,
     srv s (ncalls s) (graphql_url region) (get_dashboard_request g) =
       Response 200 reason (BodyText (Some (JObj kvs))) ->
     jlookup "errors" kvs = None -> jlookup "data" kvs = Some dj ->
     (forall ekvs, jget dj ["actor"; "entity"] <> JFound (JObj ekvs)) ->
     fst (get_dashboard (S f) (VStr g) region s) = Raise (PyError "TypeError") /\
     (forall dc d rr rest results,
        dict_of (heap_of s) dc = Some d ->
        lookup "guid" d = Some (VStr g) -> lookup "refreshRate" d = Some rr ->
        truthy (heap_of s) (VStr g) = true -> truthy (heap_of s) rr = true ->
        exists s',
          process_entries
            (fun guid refresh_rate => process_dashboard_update (S f) guid refresh_rate dir region)
            (dc :: rest) results s = (Raise (PyError "TypeError"), s') /\
          trace_of s' = trace_of s ++ [EPost (graphql_url region) (get_dashboard_request g)])).
Proof.
  assert (H := process_dashboard_updates_nf
                 (fun g r => process_dashboard_update fuel g r dir region)
                 (fun g r => nf_process_dashboard_update fuel g r dir region) config s).
  unfold process_all. split; [|split].
  - intros rs E; rewrite E in H; exact H.
  - intros m E; rewrite E in H; exact H.
  - intros f g reason kvs dj Hs He Hdj Hne.
    destruct (get_dashboard_bad_entity f g region s reason kvs dj Hs He Hdj Hne) as [h3 Eg].
    split; [rewrite Eg; reflexivity|].
    intros dc d rr rest results Hd Hg Hr Htg Htr.
    rewrite (entries_step_run _ dc rest results s d (VStr g) rr Hd Hg Hr Htg Htr).
    cbv beta. unfold process_dashboard_update at 1.
    rewrite (bind_run_raise _ _ _ _ _ Eg). cbn [status_of].
    eexists; split; reflexivity.
Qed.

(** C4 (witness): two valid entries, and a server whose replies carry a
    [null] entity: the first fetch raises [TypeError], which ends the run
    before the second entry is fetched; the whole run on the matching
    configuration document ends in the same way. *)
Lemma null_entity_run_fails :
  (fst (get_dashboard 1 (VStr "g") "US"
          (mkState [ODict [("guid", VStr "g"); ("refreshRate", VInt 60)];
                    ODict [("guid", VStr "h"); ("refreshRate", VInt 60)]] [] 0
                   (const_server (entity_reply JNull))))
   = Raise (PyError "TypeError") /\
   exists s',
     process_entries
       (fun guid refresh_rate => process_dashboard_update 1 guid refresh_rate None "US")
       [VRef 0; VRef 1] []
       (mkState [ODict [("guid", VStr "g"); ("refreshRate", VInt 60)];
                 ODict [("guid", VStr "h"); ("refreshRate", VInt 60)]] [] 0
                (const_server (entity_reply JNull)))
     = (Raise (PyError "TypeError"), s') /\
     trace_of s' = [] ++ [EPost (graphql_url "US") (get_dashboard_request "g")]) /\
  fst (run_config 1 None "US" one_dashboard_config (const_server (entity_reply JNull)))
  = Raise (PyError "TypeError").
Proof.
  split; [|vm_compute; reflexivity].
  destruct (proj2 (proj2 (process_all_never_not_found 1 None "US" VNone
              (mkState [ODict [("guid", VStr "g"); ("refreshRate", VInt 60)];
                        ODict [("guid", VStr "h"); ("refreshRate", VInt 60)]] [] 0
                       (const_server (entity_reply JNull)))))
              0 "g" "OK" [("data", JObj [("actor", JObj [("entity", JNull)])])]
              (JObj [("actor", JObj [("entity", JNull)])]) eq_refl eq_refl eq_refl
              ltac:(intros ekvs; discriminate)) as [G P].
  split; [exact G|].
  exact (P (VRef 0) [("guid", VStr "g"); ("refreshRate", VInt 60)] (VInt 60) [VRef 1] []
           eq_refl eq_refl eq_refl eq_refl eq_refl).
Defined.

(* ================================================================== *)
(** * Further properties of the code *)

(** ** Paths *)

Lemma split_on_nonempty sep s : split_on sep s <> [].
Proof.
  induction s as [|c r IH]; simpl; [discriminate|].
  destruct (split_on sep r) as [|w ws]; [contradiction|].
  destruct (Ascii.eqb c sep); discriminate.
Qed.

Lemma split_on_dot p q :
  split_on "." (p ^^ "." ^^ q) = split_on "." p ++ split_on "." q.
Proof.
  induction p as [|c r IH].
  - change ("" ^^ "." ^^ q) with (String "." q). cbn [split_on].
    destruct (split_on "." q) as [|w ws] eqn:E; [exfalso; eapply split_on_nonempty; eauto|].
    reflexivity.
  - change (String c r ^^ "." ^^ q) with (String c (r ^^ "." ^^ q)).
    cbn [split_on]. rewrite IH. destruct (split_on "." r) as [|w ws] eqn:E;
      [exfalso; eapply split_on_nonempty; eauto|].
    cbn [app]. destruct (Ascii.eqb c "."); reflexivity.
Qed.

Lemma get_nested_helper_non_dict h v segs :
  dict_of h v = None -> segs <> [] -> get_nested_helper h v segs = VBool false.
Proof. destruct segs as [|k r]; simpl; intros Hd Hn; [congruence | rewrite Hd; reflexivity]. Qed.

Lemma get_nested_helper_app h s1 : forall v s2,
  s1 <> [] -> s2 <> [] -> is_dict h (get_nested_helper h v s1) = true ->
  get_nested_helper h v (s1 ++ s2) = get_nested_helper h (get_nested_helper h v s1) s2.
Proof.
  induction s1 as [|k r IH]; intros v s2 H1 H2 Hd; [congruence|].
  simpl in Hd |- *. destruct (dict_of h v) as [d|]; [|discriminate].
  destruct r as [|k' r'].
  - simpl. destruct s2 as [|k2 s2']; [congruence|].
    destruct (lookup k d); [reflexivity | discriminate].
  - destruct (lookup k d) as [x|]; [|discriminate].
    cbn [app]. apply IH; auto; discriminate.
Qed.

(** [_get_nested_helper] returns [False] at once when the value it is given
    is not a dict: [get_nested] of a non-dict is [False] for every path. *)
Theorem get_nested_non_dict h v path :
  dict_of h v = None -> get_nested_pure h v path = VBool false.
Proof. intros Hd. apply get_nested_helper_non_dict; [exact Hd | apply split_on_nonempty]. Qed.

Lemma get_nested_non_dict_witness :
  dict_of [] (VInt 3) = None /\ get_nested_pure [] (VInt 3) "a.b" = VBool false.
Proof. split; [reflexivity | apply get_nested_non_dict; reflexivity]. Defined.

(** A dotted path can be followed in two steps: when the prefix [p] leads
    to a dict, [get_nested(d, p + "." + q)] is [get_nested(get_nested(d, p), q)]. *)
Theorem get_nested_compose h v p q :
  is_dict h (get_nested_pure h v p) = true ->
  get_nested_pure h v (p ^^ "." ^^ q) = get_nested_pure h (get_nested_pure h v p) q.
Proof.
  intros Hd. unfold get_nested_pure in *. rewrite split_on_dot.
  apply get_nested_helper_app; auto using split_on_nonempty.
Qed.

Lemma get_nested_compose_witness :
  is_dict [ODict [("a", VRef 1)]; ODict [("b", VInt 7)]]
    (get_nested_pure [ODict [("a", VRef 1)]; ODict [("b", VInt 7)]] (VRef 0) "a") = true /\
  get_nested_pure [ODict [("a", VRef 1)]; ODict [("b", VInt 7)]] (VRef 0) ("a" ^^ "." ^^ "b")
  = get_nested_pure [ODict [("a", VRef 1)]; ODict [("b", VInt 7)]]
      (get_nested_pure [ODict [("a", VRef 1)]; ODict [("b", VInt 7)]] (VRef 0) "a") "b".
Proof.
  split; [reflexivity|].
  apply get_nested_compose. reflexivity.
Defined.

(** ** Encoding what was decoded *)

Lemma dump_mono fuel : forall h ext fuel' v j,
  dump h fuel v = Some j -> fuel <= fuel' -> dump (h ++ ext) fuel' v = Some j.
Proof.
  induction fuel as [|f IH]; intros h ext fuel' v j E Hle; [discriminate|].
  destruct fuel' as [|f']; [lia|]. simpl in E |- *.
  destruct v as [| | | |l]; auto.
  destruct (nth_error h l) as [[d|xs]|] eqn:El; [| |discriminate];
    rewrite (nth_error_app_lt h ext l) by (eapply nth_error_some_lt; eauto); rewrite El.
  - destruct (omap (fun kv => dump h f (snd kv)) d) as [js|] eqn:Eo; [|discriminate].
    rewrite (omap_ext (fun kv => dump h f (snd kv)) (fun kv => dump (h ++ ext) f' (snd kv)) d js); auto.
    intros x y _ Hx. apply IH; auto; lia.
  - destruct (omap (dump h f) xs) as [js|] eqn:Eo; [|discriminate].
    rewrite (omap_ext (dump h f) (dump (h ++ ext) f') xs js); auto.
    intros x y _ Hx. apply IH; auto; lia.
Qed.

Lemma dump_frame h ext fuel v j : dump h fuel v = Some j -> dump (h ++ ext) fuel v = Some j.
Proof. intros E; eapply dump_mono; eauto. Qed.

Lemma list_max_cons' x l : list_max (x :: l) = Nat.max x (list_max l).
Proof. reflexivity. Qed.

Lemma assoc_set_fresh k v d : lookup k d = None -> assoc_set k v d = d ++ [(k, v)].
Proof.
  induction d as [|[k' v'] r IH]; simpl; intros H; auto.
  destruct (String.eqb k k'); [discriminate|]. rewrite IH; auto.
Qed.

Lemma combine_fst_snd {A B} (l : list (A * B)) : combine (map fst l) (map snd l) = l.
Proof. induction l as [|[a b] r IH]; simpl; congruence. Qed.

Lemma str_nodup_spec k r : str_nodup (k :: r) = true -> ~ In k r /\ str_nodup r = true.
Proof.
  simpl; intros H; apply andb_prop in H as [H1 H2]; split; auto.
  intros Hin. apply negb_true_iff in H1.
  assert (existsb (String.eqb k) r = true) as H3
    by (apply existsb_exists; exists k; split; auto; apply String.eqb_refl).
  congruence.
Qed.

Definition loads_good (j : json) : Prop :=
  forall h v h', loads j h = (v, h') -> json_ok j = true ->
  (exists ext, h' = h ++ ext) /\ length h + jdepth j <= length h' /\
  forall fuel, jdepth j < fuel -> dump h' fuel v = Some j.

Lemma loads_arr_good js : Forall loads_good js ->
  forall h vs h', loads_arr loads js h = (vs, h') -> forallb json_ok js = true ->
  (exists ext, h' = h ++ ext) /\ length h + list_max (map jdepth js) <= length h' /\
  forall fuel, list_max (map jdepth js) < fuel -> omap (dump h' fuel) vs = Some js.
Proof.
  induction js as [|x r IH]; intros HF h vs h' E Hok; simpl in E.
  - injection E as <- <-. split; [exists []; rewrite app_nil_r; auto|]. simpl; split; [lia|auto].
  - inversion HF as [|? ? Hx Hr]; subst. simpl in Hok. apply andb_prop in Hok as [Hok1 Hok2].
    destruct (loads x h) as [v h1] eqn:Ex.
    destruct (loads_arr loads r h1) as [vs' h2] eqn:Er.
    injection E as <- <-.
    destruct (Hx _ _ _ Ex Hok1) as [[e1 ->] [D1 P1]].
    destruct (IH Hr _ _ _ Er Hok2) as [[e2 ->] [D2 P2]].
    split; [exists (e1 ++ e2); rewrite app_assoc; auto|]. cbn [map]. rewrite list_max_cons'.
    split; [rewrite !length_app in *; lia|].
    intros fuel Hf. simpl. rewrite (dump_frame _ e2 fuel v x) by (apply P1; lia).
    rewrite P2 by lia. reflexivity.
Qed.

Lemma loads_obj_good kvs : Forall (fun kv => loads_good (snd kv)) kvs ->
  forall d0 h d h', loads_obj loads kvs d0 h = (d, h') ->
  str_nodup (map fst kvs) = true -> forallb (fun kv => json_ok (snd kv)) kvs = true ->
  (forall k, In k (map fst kvs) -> lookup k d0 = None) ->
  (exists ext, h' = h ++ ext) /\
  length h + list_max (map (fun kv => jdepth (snd kv)) kvs) <= length h' /\
  exists d', d = d0 ++ d' /\ map fst d' = map fst kvs /\
    forall fuel, list_max (map (fun kv => jdepth (snd kv)) kvs) < fuel ->
    omap (fun kv => dump h' fuel (snd kv)) d' = Some (map snd kvs).
Proof.
  induction kvs as [|[k x] r IH]; intros HF d0 h d h' E Hnd Hok Hfresh; simpl in E.
  - injection E as <- <-. split; [exists []; rewrite app_nil_r; auto|]. simpl; split; [lia|].
    exists []; rewrite app_nil_r; auto.
  - inversion HF as [|? ? Hx Hr]; subst. simpl in Hx, Hok, Hnd.
    apply andb_prop in Hok as [Hok1 Hok2].
    destruct (str_nodup_spec k (map fst r) Hnd) as [Hnin Hnd'].
    destruct (loads x h) as [v h1] eqn:Ex.
    destruct (Hx _ _ _ Ex Hok1) as [[e1 ->] [D1 P1]].
    rewrite (assoc_set_fresh k v d0) in E by (apply Hfresh; left; reflexivity).
    destruct (IH Hr _ _ _ _ E Hnd' Hok2) as [[e2 ->] [D2 [d' [-> [K P2]]]]].
    + intros k' Hk'. rewrite lookup_in_keys. rewrite map_app, in_app_iff. simpl.
      intros [Hin|[<-|[]]]; [|contradiction].
      apply lookup_in_keys in Hin; [exact Hin|]. apply Hfresh. right; exact Hk'.
    + split; [exists (e1 ++ e2); rewrite app_assoc; auto|]. cbn [map snd]. rewrite list_max_cons'.
      split; [rewrite !length_app in *; lia|].
      exists ((k, v) :: d'). split; [rewrite <- app_assoc; reflexivity|].
      split; [simpl; congruence|].
      intros fuel Hf. simpl. rewrite (dump_frame _ e2 fuel v x) by (apply P1; lia).
      rewrite P2 by lia. reflexivity.
Qed.

Lemma loads_good_all j : loads_good j.
Proof.
  induction j as [| | | |js IH|kvs IH] using json_ind'; unfold loads_good; intros h v h' E Hok;
    simpl in E; try solve [injection E as <- <-; split; [exists []; rewrite app_nil_r; auto|];
                           simpl; split; [lia|]; intros [|f] Hf; [lia|reflexivity]].
  - destruct (loads_arr loads js h) as [vs h1] eqn:Ea. injection E as <- <-.
    destruct (loads_arr_good js IH _ _ _ Ea Hok) as [[e ->] [D P]].
    split; [exists (e ++ [OList vs]); rewrite app_assoc; auto|].
    split; [simpl; rewrite !length_app in *; simpl; lia|].
    intros [|f] Hf; [lia|]. simpl. rewrite nth_error_app_len.
    rewrite (omap_ext (dump (h ++ e) f) _ vs js); auto.
    + intros a b _ Ha. apply dump_frame; exact Ha.
    + apply P. simpl in Hf; lia.
  - destruct (loads_obj loads kvs [] h) as [d h1] eqn:Eo. injection E as <- <-.
    simpl in Hok. apply andb_prop in Hok as [Hnd Hok].
    destruct (loads_obj_good kvs IH _ _ _ _ Eo Hnd Hok (fun _ _ => eq_refl))
      as [[e ->] [D [d' [Ed [K P]]]]].
    simpl in Ed; subst d'.
    split; [exists (e ++ [ODict d]); rewrite app_assoc; auto|].
    split; [simpl; rewrite !length_app in *; simpl; lia|].
    intros [|f] Hf; [lia|]. simpl. rewrite nth_error_app_len.
    rewrite (omap_ext (fun kv => dump (h ++ e) f (snd kv)) _ d (map snd kvs)).
    + rewrite K, combine_fst_snd. reflexivity.
    + intros a b _ Ha. apply dump_frame; exact Ha.
    + apply P. simpl in Hf; lia.
Qed.

(** [json.loads] then [json.dumps] gives back the document when no object
    in it repeats a key: the dashboard the program writes to a backup or
    sends back is, before any change, the one it received. *)
Theorem json_dumps_loads j s :
  json_ok j = true ->
  match json_loads j s with
  | (Ok v, s') => json_dumps v s' = (Ok j, s')
  | _ => False
  end.
Proof.
  intros Hok. unfold json_loads, bind, get_heap, put_heap, ret. cbv beta iota.
  destruct (loads j (heap_of s)) as [v h'] eqn:E. cbv beta iota.
  destruct (loads_good_all j _ _ _ E Hok) as [_ [D P]].
  apply json_dumps_run. apply P. simpl. lia.
Qed.

Lemma json_dumps_loads_witness :
  json_ok linked_dashboard = true /\
  match json_loads linked_dashboard (empty_state (const_server URLErrorRaised)) with
  | (Ok v, s') => json_dumps v s' = (Ok linked_dashboard, s')
  | _ => False
  end.
Proof. split; [reflexivity | apply json_dumps_loads; reflexivity]. Defined.

(** ** Building and posting a request *)

Lemma str_append_nil_r (a : string) : a ^^ "" = a.
Proof. induction a as [|c r IH]; simpl; congruence. Qed.

Lemma str_append_assoc (a b c : string) : (a ^^ b) ^^ c = a ^^ b ^^ c.
Proof. induction a as [|x r IH]; simpl; congruence. Qed.

Lemma join_cons2 sep a b r : join sep (a :: b :: r) = a ^^ sep ^^ join sep (b :: r).
Proof. reflexivity. Qed.

Lemma var_spec_of_S n vs :
  var_spec_of (S n) vs =
  match vs with
  | [] => ""
  | _ :: _ => "," ^^ join "," (map (fun kv => "$" ^^ fst kv ^^ ": " ^^ fst (snd kv)) vs)
  end.
Proof.
  revert n; induction vs as [|[k [ty v]] r IH]; intros n; [reflexivity|].
  cbn [var_spec_of Nat.eqb]. rewrite IH.
  destruct r as [|kv r']; [cbn [map join fst snd]; rewrite str_append_nil_r; reflexivity|].
  cbn [map]. rewrite join_cons2. cbn [fst snd]. rewrite !str_append_assoc. reflexivity.
Qed.

(** [build_graphql_payload] declares the variables in order, as
    [$name: Type] separated by commas and wrapped in parentheses (nothing
    when there are none), between the operation keyword and the query
    text, and sends each variable's value under its name. *)
Theorem build_graphql_payload_shape q vs mut :
  build_graphql_payload q vs mut =
  mkPayload ((if mut then "mutation" else "query") ^^
             match vs with
             | [] => ""
             | _ :: _ =>
                 "(" ^^ join "," (map (fun kv => "$" ^^ fst kv ^^ ": " ^^ fst (snd kv)) vs) ^^ ")"
             end ^^ q)
            (map (fun kv => (fst kv, snd (snd kv))) vs).
Proof.
  unfold build_graphql_payload. destruct vs as [|[k [ty v]] r]; [reflexivity|].
  cbn [map var_spec_of Nat.eqb]. rewrite var_spec_of_S.
  destruct r as [|kv r']; [cbn [map join fst snd]; rewrite str_append_nil_r; reflexivity|].
  cbn [map]. rewrite join_cons2. cbn [fst snd]. rewrite !str_append_assoc. reflexivity.
Qed.

(** What [post_graphql] raises when the request goes out but the reply is
    an error: an [HTTPError] (its code and reason are kept), a status other
    than 200, or a body that cannot be read.  In each case exactly the one
    request has been sent and nothing else changed. *)
Theorem post_graphql_failures p region s d :
  dump_payload p s = (Ok d, s) ->
  let s1 := mkState (heap_of s) (trace_of s ++ [EPost (graphql_url region) d])
                    (S (ncalls s)) (srv s) in
  (forall code reason,
     srv s (ncalls s) (graphql_url region) d = HTTPErrorRaised code reason ->
     post_graphql p region s =
     (Raise (GraphQLApiError ("HTTP error occurred with status: " ^^ Z_to_string code
                              ^^ ", reason: " ^^ reason) code reason), s1)) /\
  (forall st reason b,
     srv s (ncalls s) (graphql_url region) d = Response st reason b -> st <> 200%Z ->
     post_graphql p region s =
     (Raise (GraphQLApiError ("GraphQL request failed with status: " ^^ Z_to_string st
                              ^^ ", reason: " ^^ reason) st reason), s1)) /\
  (forall reason e,
     srv s (ncalls s) (graphql_url region) d = Response 200 reason (ReadFails e) ->
     post_graphql p region s =
     (Raise (GraphQLApiError ("error reading GraphQL response: " ^^ e) 200 reason), s1)).
Proof.
  intros Ed s1. rewrite (post_graphql_run _ _ _ _ Ed). fold s1.
  split; [|split].
  - intros code reason ->. reflexivity.
  - intros st reason b -> Hst. unfold handle_response.
    replace (negb (Z.eqb st 200)) with true by (symmetry; apply negb_true_iff, Z.eqb_neq; exact Hst).
    reflexivity.
  - intros reason e ->. reflexivity.
Qed.

Lemma post_graphql_failures_witness :
  let s := empty_state (const_server (HTTPErrorRaised 503 "Unavailable")) in
  let d := JObj [("query", JStr (p_query query_payload)); ("variables", JObj [])] in
  dump_payload query_payload s = (Ok d, s) /\
  srv s (ncalls s) (graphql_url "US") d = HTTPErrorRaised 503 "Unavailable" /\
  post_graphql query_payload "US" s =
  (Raise (GraphQLApiError ("HTTP error occurred with status: " ^^ Z_to_string 503
                           ^^ ", reason: " ^^ "Unavailable") 503 "Unavailable"),
   mkState (heap_of s) (trace_of s ++ [EPost (graphql_url "US") d]) (S (ncalls s)) (srv s)).
Proof.
  intros s d. assert (Ed : dump_payload query_payload s = (Ok d, s)) by reflexivity.
  split; [exact Ed|]. split; [reflexivity|].
  destruct (post_graphql_failures query_payload "US" s d Ed) as [H1 _].
  apply H1. reflexivity.
Defined.

Lemma handle_response_ok r s v s' :
  handle_response r s = (Ok v, s') ->
  exists reason kvs dj,
    r = Response 200 reason (BodyText (Some (JObj kvs))) /\
    jlookup "errors" kvs = None /\ jlookup "data" kvs = Some dj /\
    repr (length (heap_of s)) (heap_of s') v dj /\
    trace_of s' = trace_of s /\ ncalls s' = ncalls s /\ srv s' = srv s.
Proof.
  intros H. destruct r as [code reason| |st reason b]; try discriminate H.
  unfold handle_response in H.
  destruct (negb (Z.eqb st 200)) eqn:Est; [discriminate H|].
  apply negb_false_iff, Z.eqb_eq in Est; subst st.
  destruct b as [e|[j|]]; try discriminate H.
  destruct (loads j (heap_of s)) as [v0 h0] eqn:E.
  destruct (loads_spec _ _ _ _ E) as [_ Hr].
  set (s1 := mkState h0 (trace_of s) (ncalls s) (srv s)) in H.
  rewrite (bind_run _ _ s v0 s1) in H
    by (unfold json_loads, bind, get_heap, put_heap, ret; cbv beta iota; rewrite E; reflexivity).
  destruct (sat_py_contains eq (fun _ => True) False (fun _ => I) v0 "errors" s1) as [Es _].
  unfold bind in H. destruct (py_contains v0 "errors" s1) as [[b| |] s2] eqn:Ec;
    simpl in Es; subst s2; try discriminate H.
  destruct b.
  - exfalso. apply (post_errors_never_ok 200 reason v0 s1 v). rewrite H. reflexivity.
  - unfold py_getitem, bind, get_heap in H. cbv beta iota in H.
    unfold s1 in H at 1; cbn [heap_of] in H.
    destruct (dict_of h0 v0) as [d|] eqn:Ed; [|discriminate H].
    destruct (lookup "data" d) as [x|] eqn:Ex; [|discriminate H].
    injection H as <- <-.
    destruct j as [| | | | |kvs];
      try (rewrite (repr_not_dict _ _ _ _ Hr) in Ed by discriminate; discriminate Ed).
    destruct (repr_dict_of _ _ _ _ Hr) as [d' [Hd' [_ [Hk Ho]]]].
    rewrite Hd' in Ed; injection Ed as <-.
    destruct v0 as [| | | |l]; try discriminate Hd'.
    assert (Hl : nth_error (heap_of s1) l = Some (ODict d')).
    { unfold s1; cbn [heap_of]. simpl in Hd'.
      destruct (nth_error h0 l) as [[dd|]|]; try discriminate; congruence. }
    rewrite (py_contains_dict_run _ _ _ _ Hl) in Ec.
    destruct (lookup "errors" d') eqn:Ee; [discriminate Ec|].
    destruct (jlookup "data" kvs) as [dj|] eqn:Ej.
    + destruct (repr_obj_lookup _ _ _ _ _ Ho Ej) as [y [Hy Hry]].
      rewrite Hy in Ex; injection Ex as <-.
      exists reason, kvs, dj. repeat split; auto. apply Hk; exact Ee.
    + apply Hk in Ej. congruence.
Qed.

Lemma post_graphql_ok_inv p region s v s' :
  post_graphql p region s = (Ok v, s') ->
  exists d reason kvs dj,
    dump_payload p s = (Ok d, s) /\
    srv s (ncalls s) (graphql_url region) d = Response 200 reason (BodyText (Some (JObj kvs))) /\
    jlookup "errors" kvs = None /\ jlookup "data" kvs = Some dj /\
    repr (length (heap_of s)) (heap_of s') v dj /\
    trace_of s' = trace_of s ++ [EPost (graphql_url region) d] /\ ncalls s' = S (ncalls s).
Proof.
  intros H.
  destruct (sat_dump_payload eq (fun _ => True) False (fun _ => I) p s) as [E1 _].
  destruct (dump_payload p s) as [[d|e|] s1] eqn:Ed; simpl in E1; subst s1;
    [| unfold post_graphql, bind in H; rewrite Ed in H; discriminate H
     | unfold post_graphql, bind in H; rewrite Ed in H; discriminate H].
  rewrite (post_graphql_run _ _ _ _ Ed) in H.
  destruct (handle_response_ok _ _ _ _ H) as [reason [kvs [dj [Hr [He [Hd [Hrep [T [N _]]]]]]]]].
  exists d, reason, kvs, dj. repeat split; auto.
Qed.


(** [post_graphql] returns only for a reply with status 200 whose body is a
    JSON object with no [errors] key and a [data] key; what it returns is
    the decoding of [data] (the last one, if the key repeats).  A JSON body
    that is not an object (a list, a string, a number) is never accepted.
    Exactly one request has been sent, to the endpoint of the region. *)
Theorem post_graphql_ok_reply p region s v s' :
  post_graphql p region s = (Ok v, s') ->
  exists d reason kvs dj,
    dump_payload p s = (Ok d, s) /\
    srv s (ncalls s) (graphql_url region) d = Response 200 reason (BodyText (Some (JObj kvs))) /\
    jlookup "errors" kvs = None /\ jlookup "data" kvs = Some dj /\
    repr (length (heap_of s)) (heap_of s') v dj /\
    trace_of s' = trace_of s ++ [EPost (graphql_url region) d] /\ ncalls s' = S (ncalls s).
Proof. apply post_graphql_ok_inv. Qed.

Lemma post_graphql_ok_reply_witness :
  exists v s',
    post_graphql query_payload "US" (empty_state (const_server (page_reply (JNum 5)))) = (Ok v, s') /\
    exists d reason kvs dj,
      dump_payload query_payload (empty_state (const_server (page_reply (JNum 5))))
      = (Ok d, empty_state (const_server (page_reply (JNum 5)))) /\
      srv (empty_state (const_server (page_reply (JNum 5)))) 0 (graphql_url "US") d
      = Response 200 reason (BodyText (Some (JObj kvs))) /\
      jlookup "errors" kvs = None /\ jlookup "data" kvs = Some dj /\
      repr 0 (heap_of s') v dj /\
      trace_of s' = [EPost (graphql_url "US") d] /\ ncalls s' = 1.
Proof.
  eexists; eexists. split; [vm_compute; reflexivity|].
  apply (post_graphql_ok_reply query_payload "US" (empty_state (const_server (page_reply (JNum 5))))).
  vm_compute; reflexivity.
Defined.

(** ** The refresh-rate transformer *)

Lemma val_eq_dec_none (x : val) : {x = VNone} + {x <> VNone}.
Proof. destruct x; [left; reflexivity| right; discriminate ..]. Qed.

Lemma urr_config_run guid pageGuid widgetId w rate s wd c cd :
  nth_error (heap_of s) w = Some (ODict wd) ->
  lookup "rawConfiguration" wd = Some (VRef c) ->
  nth_error (heap_of s) c = Some (ODict cd) ->
  update_refresh_rate guid pageGuid widgetId (VRef w) rate s =
  (has <- py_contains (VRef c) "refreshRate" ;;
   if has then
     rr <- py_getitem (VRef c) "refreshRate" ;;
     h <- get_heap ;;
     if negb (is_dict h rr) then invalid "refreshRate element found in widget"
     else py_setitem rr "frequency" rate
   else
     l <- alloc (ODict [("frequency", rate)]) ;;
     py_setitem (VRef c) "refreshRate" (VRef l)) s.
Proof.
  intros Hw Hraw Hc.
  assert (Hdw : dict_of (heap_of s) (VRef w) = Some wd) by (simpl; rewrite Hw; reflexivity).
  unfold update_refresh_rate.
  rewrite (bind_run _ _ _ _ _ (py_get_run (VRef w) "rawConfiguration" s wd Hdw)). rewrite Hraw.
  rewrite (bind_run get_heap _ s _ s eq_refl). cbv beta iota.
  assert (Hic : is_dict (heap_of s) (VRef c) = true)
    by (unfold is_dict, dict_of; rewrite Hc; reflexivity).
  rewrite Hic. cbn [negb]. cbv iota.
  rewrite (bind_run (ret (VRef c)) _ s (VRef c) s eq_refl). reflexivity.
Qed.

Lemma urr_existing_run guid pageGuid widgetId w rate s wd c cd r rd :
  nth_error (heap_of s) w = Some (ODict wd) ->
  lookup "rawConfiguration" wd = Some (VRef c) ->
  nth_error (heap_of s) c = Some (ODict cd) ->
  lookup "refreshRate" cd = Some (VRef r) ->
  nth_error (heap_of s) r = Some (ODict rd) ->
  update_refresh_rate guid pageGuid widgetId (VRef w) rate s =
  (Ok tt, mkState (set_nth (heap_of s) r (ODict (assoc_set "frequency" rate rd)))
                  (trace_of s) (ncalls s) (srv s)).
Proof.
  intros Hw Hraw Hc Hrr Hr.
  rewrite (urr_config_run _ _ _ _ _ _ _ _ _ Hw Hraw Hc).
  rewrite (bind_run _ _ _ _ _ (py_contains_dict_run c "refreshRate" s cd Hc)). rewrite Hrr.
  cbv beta iota.
  assert (Hdc : dict_of (heap_of s) (VRef c) = Some cd) by (simpl; rewrite Hc; reflexivity).
  rewrite (bind_run _ _ _ _ _ (py_getitem_run (VRef c) "refreshRate" s cd (VRef r) Hdc Hrr)).
  rewrite (bind_run get_heap _ s _ s eq_refl).
  assert (Hir : is_dict (heap_of s) (VRef r) = true)
    by (unfold is_dict, dict_of; rewrite Hr; reflexivity).
  rewrite Hir. cbn [negb]. cbv iota.
  apply py_setitem_run; exact Hr.
Qed.

Lemma urr_new_run guid pageGuid widgetId w rate s wd c cd :
  nth_error (heap_of s) w = Some (ODict wd) ->
  lookup "rawConfiguration" wd = Some (VRef c) ->
  nth_error (heap_of s) c = Some (ODict cd) ->
  lookup "refreshRate" cd = None ->
  update_refresh_rate guid pageGuid widgetId (VRef w) rate s =
  (Ok tt, mkState (set_nth (heap_of s ++ [ODict [("frequency", rate)]]) c
                     (ODict (assoc_set "refreshRate" (VRef (length (heap_of s))) cd)))
                  (trace_of s) (ncalls s) (srv s)).
Proof.
  intros Hw Hraw Hc Hrr.
  rewrite (urr_config_run _ _ _ _ _ _ _ _ _ Hw Hraw Hc).
  rewrite (bind_run _ _ _ _ _ (py_contains_dict_run c "refreshRate" s cd Hc)). rewrite Hrr.
  cbv beta iota.
  rewrite (bind_run _ _ _ _ _ (alloc_run (ODict [("frequency", rate)]) s)).
  rewrite (py_setitem_run c _ _ _ cd). { reflexivity. }
  simpl. rewrite nth_error_app_lt by (eapply nth_error_some_lt; eauto). exact Hc.
Qed.

Lemma urr_none_run guid pageGuid widgetId w rate s wd :
  nth_error (heap_of s) w = Some (ODict wd) ->
  (lookup "rawConfiguration" wd = None \/ lookup "rawConfiguration" wd = Some VNone) ->
  update_refresh_rate guid pageGuid widgetId (VRef w) rate s =
  (Ok tt, mkState (set_nth (heap_of s ++ [ODict []; ODict [("frequency", rate)]])
                     (length (heap_of s))
                     (ODict [("refreshRate", VRef (S (length (heap_of s))))]))
                  (trace_of s) (ncalls s) (srv s)).
Proof.
  intros Hw Hraw.
  assert (Hdw : dict_of (heap_of s) (VRef w) = Some wd) by (simpl; rewrite Hw; reflexivity).
  unfold update_refresh_rate.
  rewrite (bind_run _ _ _ _ _ (py_get_run (VRef w) "rawConfiguration" s wd Hdw)).
  replace (match lookup "rawConfiguration" wd with Some x => x | None => VNone end) with VNone
    by (destruct Hraw as [-> | ->]; reflexivity).
  rewrite (bind_run get_heap _ s _ s eq_refl). cbv beta iota.
  rewrite bind_assoc_run, (bind_run _ _ _ _ _ (alloc_run (ODict []) s)). cbv beta.
  set (l := length (heap_of s)).
  set (s1 := mkState (heap_of s ++ [ODict []]) (trace_of s) (ncalls s) (srv s)).
  rewrite (bind_run (ret (VRef l)) _ s1 (VRef l) s1 eq_refl).
  assert (Hl1 : nth_error (heap_of s1) l = Some (ODict [])) by apply nth_error_app_len.
  rewrite (bind_run _ _ _ _ _ (py_contains_dict_run l "refreshRate" s1 [] Hl1)). cbv beta iota.
  rewrite (bind_run _ _ _ _ _ (alloc_run (ODict [("frequency", rate)]) s1)).
  set (s2 := mkState (heap_of s1 ++ [ODict [("frequency", rate)]]) (trace_of s1) (ncalls s1)
                     (srv s1)).
  assert (Hl2 : nth_error (heap_of s2) l = Some (ODict [])).
  { simpl. rewrite nth_error_app_lt by (rewrite length_app; simpl; unfold l; lia).
    apply nth_error_app_len. }
  etransitivity; [exact (py_setitem_run l "refreshRate" (VRef (length (heap_of s1))) s2 [] Hl2)|].
  unfold s2, s1; simpl. rewrite <- app_assoc, length_app. simpl. rewrite Nat.add_1_r. reflexivity.
Qed.

Lemma urr_invalid_config_run guid pageGuid widgetId w rate s wd x :
  nth_error (heap_of s) w = Some (ODict wd) ->
  lookup "rawConfiguration" wd = Some x -> x <> VNone -> is_dict (heap_of s) x = false ->
  update_refresh_rate guid pageGuid widgetId (VRef w) rate s =
  (Raise (DashboardValidationError "invalid rawConfiguration element found in widget"), s).
Proof.
  intros Hw Hraw Hx Hnd.
  assert (Hdw : dict_of (heap_of s) (VRef w) = Some wd) by (simpl; rewrite Hw; reflexivity).
  unfold update_refresh_rate.
  rewrite (bind_run _ _ _ _ _ (py_get_run (VRef w) "rawConfiguration" s wd Hdw)). rewrite Hraw.
  rewrite (bind_run get_heap _ s _ s eq_refl).
  destruct x as [| | | |l]; [congruence| | | |]; cbv beta iota; rewrite Hnd; reflexivity.
Qed.

Lemma urr_invalid_rate_run guid pageGuid widgetId w rate s wd c cd y :
  nth_error (heap_of s) w = Some (ODict wd) ->
  lookup "rawConfiguration" wd = Some (VRef c) ->
  nth_error (heap_of s) c = Some (ODict cd) ->
  lookup "refreshRate" cd = Some y -> is_dict (heap_of s) y = false ->
  update_refresh_rate guid pageGuid widgetId (VRef w) rate s =
  (Raise (DashboardValidationError "invalid refreshRate element found in widget"), s).
Proof.
  intros Hw Hraw Hc Hrr Hy.
  rewrite (urr_config_run _ _ _ _ _ _ _ _ _ Hw Hraw Hc).
  rewrite (bind_run _ _ _ _ _ (py_contains_dict_run c "refreshRate" s cd Hc)). rewrite Hrr.
  cbv beta iota.
  assert (Hdc : dict_of (heap_of s) (VRef c) = Some cd) by (simpl; rewrite Hc; reflexivity).
  rewrite (bind_run _ _ _ _ _ (py_getitem_run (VRef c) "refreshRate" s cd y Hdc Hrr)).
  rewrite (bind_run get_heap _ s _ s eq_refl). rewrite Hy. reflexivity.
Qed.

(** For a widget whose [rawConfiguration] is a dict, the refresh-rate
    transformer sets [frequency] in the [refreshRate] dict it finds there,
    keeping that dict's other keys; without a [refreshRate] key it adds a
    new dict [{"frequency": rate}] under that key.  Nothing else changes. *)
Theorem update_refresh_rate_sets_frequency guid pageGuid widgetId w rate s wd c cd :
  nth_error (heap_of s) w = Some (ODict wd) ->
  lookup "rawConfiguration" wd = Some (VRef c) ->
  nth_error (heap_of s) c = Some (ODict cd) ->
  (forall r rd, lookup "refreshRate" cd = Some (VRef r) -> nth_error (heap_of s) r = Some (ODict rd) ->
     update_refresh_rate guid pageGuid widgetId (VRef w) rate s =
     (Ok tt, mkState (set_nth (heap_of s) r (ODict (assoc_set "frequency" rate rd)))
                     (trace_of s) (ncalls s) (srv s))) /\
  (lookup "refreshRate" cd = None ->
     update_refresh_rate guid pageGuid widgetId (VRef w) rate s =
     (Ok tt, mkState (set_nth (heap_of s ++ [ODict [("frequency", rate)]]) c
                        (ODict (assoc_set "refreshRate" (VRef (length (heap_of s))) cd)))
                     (trace_of s) (ncalls s) (srv s))).
Proof.
  intros Hw Hraw Hc. split.
  - intros r rd Hrr Hr. eapply urr_existing_run; eauto.
  - intros Hrr. eapply urr_new_run; eauto.
Qed.


Lemma update_refresh_rate_sets_frequency_witness :
  update_refresh_rate VNone VNone (VInt 1) (VRef 0) (VInt 60)
    (mkState urr_heap [] 0 (const_server URLErrorRaised)) =
  (Ok tt, mkState (set_nth urr_heap 2 (ODict [("frequency", VInt 60); ("x", VBool true)]))
                  [] 0 (const_server URLErrorRaised)).
Proof.
  destruct (update_refresh_rate_sets_frequency VNone VNone (VInt 1) 0 (VInt 60)
              (mkState urr_heap [] 0 (const_server URLErrorRaised))
              [("id", VInt 1); ("rawConfiguration", VRef 1)] 1 [("refreshRate", VRef 2)]
              eq_refl eq_refl eq_refl) as [H _].
  apply (H 2 [("frequency", VInt 30); ("x", VBool true)] eq_refl eq_refl).
Defined.

(** A [rawConfiguration] that is present but neither [None] nor a dict,
    and a [refreshRate] that is present but not a dict ([None] included),
    make the transformer raise [DashboardValidationError] before it has
    changed anything. *)
Theorem update_refresh_rate_invalid guid pageGuid widgetId w rate s wd :
  nth_error (heap_of s) w = Some (ODict wd) ->
  (forall x, lookup "rawConfiguration" wd = Some x -> x <> VNone -> is_dict (heap_of s) x = false ->
     update_refresh_rate guid pageGuid widgetId (VRef w) rate s =
     (Raise (DashboardValidationError "invalid rawConfiguration element found in widget"), s)) /\
  (forall c cd y, lookup "rawConfiguration" wd = Some (VRef c) ->
     nth_error (heap_of s) c = Some (ODict cd) ->
     lookup "refreshRate" cd = Some y -> is_dict (heap_of s) y = false ->
     update_refresh_rate guid pageGuid widgetId (VRef w) rate s =
     (Raise (DashboardValidationError "invalid refreshRate element found in widget"), s)).
Proof.
  intros Hw. split.
  - intros x Hraw Hx Hnd. eapply urr_invalid_config_run; eauto.
  - intros c cd y Hraw Hc Hrr Hy. eapply urr_invalid_rate_run; eauto.
Qed.

Lemma update_refresh_rate_invalid_witness :
  update_refresh_rate VNone VNone (VInt 1) (VRef 0) (VInt 60)
    (mkState [ODict [("rawConfiguration", VRef 1)]; ODict [("refreshRate", VNone)]] []
             0 (const_server URLErrorRaised)) =
  (Raise (DashboardValidationError "invalid refreshRate element found in widget"),
   mkState [ODict [("rawConfiguration", VRef 1)]; ODict [("refreshRate", VNone)]] []
           0 (const_server URLErrorRaised)).
Proof.
  destruct (update_refresh_rate_invalid VNone VNone (VInt 1) 0 (VInt 60)
              (mkState [ODict [("rawConfiguration", VRef 1)]; ODict [("refreshRate", VNone)]] []
                       0 (const_server URLErrorRaised))
              [("rawConfiguration", VRef 1)] eq_refl) as [_ H].
  apply (H 1 [("refreshRate", VNone)] VNone eq_refl eq_refl eq_refl eq_refl).
Defined.

(** Whenever the refresh-rate transformer raises, it has changed nothing:
    every check comes before the first write. *)
Theorem update_refresh_rate_raise_unchanged guid pageGuid widgetId w rate s e s' :
  update_refresh_rate guid pageGuid widgetId w rate s = (Raise e, s') -> s' = s.
Proof.
  intros H.
  destruct (dict_of (heap_of s) w) as [wd|] eqn:Hdw.
  2:{ unfold update_refresh_rate, py_get, bind, get_heap in H. cbv beta iota in H.
      rewrite Hdw in H. injection H as _ <-. reflexivity. }
  destruct w as [| | | |wl]; try discriminate Hdw.
  assert (Hw : nth_error (heap_of s) wl = Some (ODict wd))
    by (simpl in Hdw; destruct (nth_error (heap_of s) wl) as [[|]|]; congruence).
  destruct (lookup "rawConfiguration" wd) as [x|] eqn:Hraw.
  2:{ rewrite (urr_none_run _ _ _ _ _ _ _ Hw (or_introl Hraw)) in H. discriminate H. }
  destruct (val_eq_dec_none x) as [->|Hx].
  { rewrite (urr_none_run _ _ _ _ _ _ _ Hw (or_intror Hraw)) in H. discriminate H. }
  destruct (is_dict (heap_of s) x) eqn:Hix.
  2:{ rewrite (urr_invalid_config_run _ _ _ _ _ _ _ _ Hw Hraw Hx Hix) in H.
      injection H as _ <-. reflexivity. }
  destruct x as [| | | |c]; try discriminate Hix.
  unfold is_dict, dict_of in Hix.
  destruct (nth_error (heap_of s) c) as [[cd|]|] eqn:Hc; try discriminate Hix.
  destruct (lookup "refreshRate" cd) as [y|] eqn:Hrr.
  2:{ rewrite (urr_new_run _ _ _ _ _ _ _ _ _ Hw Hraw Hc Hrr) in H. discriminate H. }
  destruct (is_dict (heap_of s) y) eqn:Hiy.
  2:{ rewrite (urr_invalid_rate_run _ _ _ _ _ _ _ _ _ _ Hw Hraw Hc Hrr Hiy) in H.
      injection H as _ <-. reflexivity. }
  destruct y as [| | | |r]; try discriminate Hiy.
  unfold is_dict, dict_of in Hiy.
  destruct (nth_error (heap_of s) r) as [[rd|]|] eqn:Hr; try discriminate Hiy.
  rewrite (urr_existing_run _ _ _ _ _ _ _ _ _ _ _ Hw Hraw Hc Hrr Hr) in H. discriminate H.
Qed.

Lemma update_refresh_rate_raise_unchanged_witness :
  update_refresh_rate VNone VNone (VInt 1) (VRef 0) (VInt 60)
    (mkState [ODict [("rawConfiguration", VInt 3)]] [] 0 (const_server URLErrorRaised)) =
  (Raise (DashboardValidationError "invalid rawConfiguration element found in widget"),
   mkState [ODict [("rawConfiguration", VInt 3)]] [] 0 (const_server URLErrorRaised)) /\
  mkState [ODict [("rawConfiguration", VInt 3)]] [] 0 (const_server URLErrorRaised) =
  mkState [ODict [("rawConfiguration", VInt 3)]] [] 0 (const_server URLErrorRaised).
Proof.
  split; [reflexivity|].
  apply (update_refresh_rate_raise_unchanged VNone VNone (VInt 1) (VRef 0) (VInt 60)
           (mkState [ODict [("rawConfiguration", VInt 3)]] [] 0 (const_server URLErrorRaised))
           (DashboardValidationError "invalid rawConfiguration element found in widget")).
  reflexivity.
Defined.

Lemma assoc_set_idem k v d : assoc_set k v (assoc_set k v d) = assoc_set k v d.
Proof.
  induction d as [|[k' v'] r IH]; simpl.
  - rewrite String.eqb_refl; reflexivity.
  - destruct (String.eqb k k') eqn:E; simpl; rewrite E; [reflexivity|rewrite IH; reflexivity].
Qed.

Lemma set_nth_same {A} (xs : list A) n x : nth_error xs n = Some x -> set_nth xs n x = xs.
Proof.
  revert n; induction xs as [|y r IH]; intros [|n] H; simpl in *; try discriminate.
  - injection H as ->; reflexivity.
  - rewrite IH; auto.
Qed.

Lemma cell_key_kept (h : heap) i d j dj k k' x v :
  nth_error h i = Some (ODict d) -> lookup k d = Some v ->
  nth_error h j = Some (ODict dj) -> k' <> k ->
  exists d', nth_error (set_nth h j (ODict (assoc_set k' x dj))) i = Some (ODict d') /\
             lookup k d' = Some v.
Proof.
  intros Hi Hk Hj Hne. destruct (Nat.eq_dec j i) as [<-|Hji].
  - exists (assoc_set k' x dj). rewrite nth_error_set_nth_eq by (eapply nth_error_some_lt; eauto).
    split; [reflexivity|]. rewrite Hi in Hj. injection Hj as <-.
    rewrite lookup_assoc_set_neq by exact Hne. exact Hk.
  - exists d. rewrite nth_error_set_nth_neq by exact Hji. auto.
Qed.

(** For a widget whose [rawConfiguration] is a dict, running the
    refresh-rate transformer a second time with the same rate changes
    nothing more. *)
Theorem update_refresh_rate_idempotent guid pageGuid widgetId w rate s s1 wd c cd :
  nth_error (heap_of s) w = Some (ODict wd) ->
  lookup "rawConfiguration" wd = Some (VRef c) ->
  nth_error (heap_of s) c = Some (ODict cd) ->
  update_refresh_rate guid pageGuid widgetId (VRef w) rate s = (Ok tt, s1) ->
  update_refresh_rate guid pageGuid widgetId (VRef w) rate s1 = (Ok tt, s1).
Proof.
  intros Hw Hraw Hc Hrun.
  destruct (lookup "refreshRate" cd) as [y|] eqn:Hrr.
  - destruct (is_dict (heap_of s) y) eqn:Hiy.
    2:{ rewrite (urr_invalid_rate_run _ _ _ _ _ _ _ _ _ _ Hw Hraw Hc Hrr Hiy) in Hrun.
        discriminate Hrun. }
    destruct y as [| | | |r]; try discriminate Hiy.
    unfold is_dict, dict_of in Hiy.
    destruct (nth_error (heap_of s) r) as [[rd|]|] eqn:Hr; try discriminate Hiy.
    rewrite (urr_existing_run _ _ _ _ _ _ _ _ _ _ _ Hw Hraw Hc Hrr Hr) in Hrun.
    injection Hrun as <-.
    assert (Hne1 : "frequency" <> "rawConfiguration") by discriminate.
    assert (Hne2 : "frequency" <> "refreshRate") by discriminate.
    destruct (cell_key_kept _ _ _ _ _ _ _ rate _ Hw Hraw Hr Hne1) as [wd1 [Hw1 Hraw1]].
    destruct (cell_key_kept _ _ _ _ _ _ _ rate _ Hc Hrr Hr Hne2) as [cd1 [Hc1 Hrr1]].
    assert (Hr1 : nth_error (set_nth (heap_of s) r (ODict (assoc_set "frequency" rate rd))) r =
                  Some (ODict (assoc_set "frequency" rate rd)))
      by (apply nth_error_set_nth_eq; eapply nth_error_some_lt; eauto).
    rewrite (urr_existing_run guid pageGuid widgetId w rate
               (mkState (set_nth (heap_of s) r (ODict (assoc_set "frequency" rate rd)))
                        (trace_of s) (ncalls s) (srv s)) wd1 c cd1 r _ Hw1 Hraw1 Hc1 Hrr1 Hr1).
    cbn [heap_of trace_of ncalls srv]. rewrite assoc_set_idem, set_nth_same by exact Hr1.
    reflexivity.
  - rewrite (urr_new_run _ _ _ _ _ _ _ _ _ Hw Hraw Hc Hrr) in Hrun.
    injection Hrun as <-.
    set (n := length (heap_of s)).
    set (h0 := heap_of s ++ [ODict [("frequency", rate)]]).
    assert (Hcn : c < n) by (eapply nth_error_some_lt; eauto).
    assert (Hw0 : nth_error h0 w = Some (ODict wd))
      by (unfold h0; rewrite nth_error_app_lt by (eapply nth_error_some_lt; eauto); exact Hw).
    assert (Hc0 : nth_error h0 c = Some (ODict cd))
      by (unfold h0; rewrite nth_error_app_lt by exact Hcn; exact Hc).
    assert (Hne1 : "refreshRate" <> "rawConfiguration") by discriminate.
    destruct (cell_key_kept _ _ _ _ _ _ _ (VRef n) _ Hw0 Hraw Hc0 Hne1) as [wd1 [Hw1 Hraw1]].
    assert (Hc1 : nth_error (set_nth h0 c (ODict (assoc_set "refreshRate" (VRef n) cd))) c =
                  Some (ODict (assoc_set "refreshRate" (VRef n) cd)))
      by (apply nth_error_set_nth_eq; unfold h0; rewrite length_app; simpl; lia).
    assert (Hn1 : nth_error (set_nth h0 c (ODict (assoc_set "refreshRate" (VRef n) cd))) n =
                  Some (ODict [("frequency", rate)])).
    { rewrite nth_error_set_nth_neq by lia. apply nth_error_app_len. }
    rewrite (urr_existing_run guid pageGuid widgetId w rate
               (mkState (set_nth h0 c (ODict (assoc_set "refreshRate" (VRef n) cd)))
                        (trace_of s) (ncalls s) (srv s)) wd1 c _ n _ Hw1 Hraw1 Hc1
               (lookup_assoc_set_eq _ _ _) Hn1).
    cbn [heap_of trace_of ncalls srv].
    change (assoc_set "frequency" rate [("frequency", rate)]) with [("frequency", rate)].
    rewrite set_nth_same by exact Hn1. reflexivity.
Qed.

Lemma update_refresh_rate_idempotent_witness :
  update_refresh_rate VNone VNone (VInt 1) (VRef 0) (VInt 60)
    (mkState (set_nth urr_heap 2 (ODict [("frequency", VInt 60); ("x", VBool true)]))
             [] 0 (const_server URLErrorRaised)) =
  (Ok tt, mkState (set_nth urr_heap 2 (ODict [("frequency", VInt 60); ("x", VBool true)]))
                  [] 0 (const_server URLErrorRaised)).
Proof.
  apply (update_refresh_rate_idempotent VNone VNone (VInt 1) 0 (VInt 60)
           (mkState urr_heap [] 0 (const_server URLErrorRaised))
           _ [("id", VInt 1); ("rawConfiguration", VRef 1)] 1 [("refreshRate", VRef 2)]
           eq_refl eq_refl eq_refl).
  vm_compute. reflexivity.
Defined.

(** ** The linked-entities transformer *)

Lemma tle_absent_run guid pageGuid widgetId w s wd :
  nth_error (heap_of s) w = Some (ODict wd) ->
  lookup "linkedEntities" wd = None ->
  transform_linked_entities guid pageGuid widgetId (VRef w) s = (Ok tt, s).
Proof.
  intros Hw Hle.
  assert (Hdw : dict_of (heap_of s) (VRef w) = Some wd) by (simpl; rewrite Hw; reflexivity).
  unfold transform_linked_entities.
  rewrite (bind_run _ _ _ _ _ (py_get_run (VRef w) "linkedEntities" s wd Hdw)). rewrite Hle.
  rewrite (bind_run get_heap _ s _ s eq_refl). cbv beta iota.
  rewrite (bind_run (ret tt) _ s tt s eq_refl).
  rewrite (bind_run _ _ _ _ _ (py_contains_dict_run w "linkedEntities" s wd Hw)).
  rewrite Hle. reflexivity.
Qed.

Lemma tle_null_run guid pageGuid widgetId w s wd :
  nth_error (heap_of s) w = Some (ODict wd) ->
  lookup "linkedEntities" wd = Some VNone ->
  transform_linked_entities guid pageGuid widgetId (VRef w) s =
  (Ok tt, mkState (set_nth (heap_of s) w (ODict (assoc_del "linkedEntities" wd)))
                  (trace_of s) (ncalls s) (srv s)).
Proof.
  intros Hw Hle.
  assert (Hdw : dict_of (heap_of s) (VRef w) = Some wd) by (simpl; rewrite Hw; reflexivity).
  unfold transform_linked_entities.
  rewrite (bind_run _ _ _ _ _ (py_get_run (VRef w) "linkedEntities" s wd Hdw)). rewrite Hle.
  rewrite (bind_run get_heap _ s _ s eq_refl). cbv beta iota.
  rewrite (bind_run (ret tt) _ s tt s eq_refl).
  rewrite (bind_run _ _ _ _ _ (py_contains_dict_run w "linkedEntities" s wd Hw)).
  rewrite Hle. cbv beta iota. apply (py_delitem_run w "linkedEntities" s wd VNone Hw Hle).
Qed.

Lemma tle_not_list_run guid pageGuid widgetId w s wd x :
  nth_error (heap_of s) w = Some (ODict wd) ->
  lookup "linkedEntities" wd = Some x -> x <> VNone -> is_list (heap_of s) x = false ->
  transform_linked_entities guid pageGuid widgetId (VRef w) s =
  (Raise (DashboardValidationError "invalid linkedEntities element found in widget"), s).
Proof.
  intros Hw Hle Hx Hnl.
  assert (Hdw : dict_of (heap_of s) (VRef w) = Some wd) by (simpl; rewrite Hw; reflexivity).
  unfold transform_linked_entities.
  rewrite (bind_run _ _ _ _ _ (py_get_run (VRef w) "linkedEntities" s wd Hdw)). rewrite Hle.
  rewrite (bind_run get_heap _ s _ s eq_refl).
  destruct x as [| | | |l]; [congruence| | | |]; cbv beta iota; rewrite Hnl; reflexivity.
Qed.

(** One pass of the loop over the linked entities: it either appends the
    entry's guid (or nothing) to the [guids] list in the last cell, or
    raises for an entry that is not a dict; nothing else moves. *)
Lemma linked_entity_step_shape h t n sv e acc :
  exists acc' o,
  (h0 <- get_heap ;;
   if negb (is_dict h0 e) then invalid "linked entity element found in widget"
   else
     has_guid <- py_contains e "guid" ;;
     if has_guid then g <- py_getitem e "guid" ;; py_append (VRef (length h)) g
     else ret tt) (mkState (h ++ [OList acc]) t n sv) =
  (o, mkState (h ++ [OList acc']) t n sv) /\
  (o = Ok tt \/ o = Raise (DashboardValidationError "invalid linked entity element found in widget")).
Proof.
  set (s0 := mkState (h ++ [OList acc]) t n sv).
  rewrite (bind_run get_heap _ s0 _ s0 eq_refl). cbv beta.
  destruct (is_dict (heap_of s0) e) eqn:Hd.
  2:{ exists acc, (Raise (DashboardValidationError
                               "invalid linked entity element found in widget")).
      split; [reflexivity | right; reflexivity]. }
  cbn [negb]. cbv iota.
  destruct e as [| | | |l']; try discriminate Hd.
  unfold is_dict, dict_of in Hd.
  destruct (nth_error (heap_of s0) l') as [[kvs|]|] eqn:Hl0; try discriminate Hd.
  rewrite (bind_run _ _ _ _ _ (py_contains_dict_run l' "guid" s0 kvs Hl0)).
  destruct (lookup "guid" kvs) as [g|] eqn:Eg.
  - assert (Hdict : dict_of (heap_of s0) (VRef l') = Some kvs)
      by (unfold dict_of; cbv iota; rewrite Hl0; reflexivity).
    rewrite (bind_run _ _ _ _ _ (py_getitem_run (VRef l') "guid" s0 kvs g Hdict Eg)).
    rewrite (py_append_run (VRef (length h)) g s0 acc (length h) eq_refl).
    + exists (acc ++ [g]), (Ok tt). simpl. rewrite set_nth_app_last.
      split; [reflexivity | left; reflexivity].
    + simpl. apply nth_error_app_len.
  - exists acc, (Ok tt). split; [reflexivity | left; reflexivity].
Qed.

Lemma linked_entities_loop_shape h t n sv es : forall acc o s',
  iterM (fun entity =>
    h0 <- get_heap ;;
    if negb (is_dict h0 entity) then invalid "linked entity element found in widget"
    else
      has_guid <- py_contains entity "guid" ;;
      if has_guid then g <- py_getitem entity "guid" ;; py_append (VRef (length h)) g
      else ret tt) es (mkState (h ++ [OList acc]) t n sv) = (o, s') ->
  exists acc', s' = mkState (h ++ [OList acc']) t n sv /\
  (o = Ok tt \/ o = Raise (DashboardValidationError "invalid linked entity element found in widget")).
Proof.
  induction es as [|e r IH]; intros acc o s' H.
  - cbn [iterM] in H. injection H as <- <-. exists acc. split; [reflexivity | left; reflexivity].
  - cbn [iterM] in H.
    destruct (linked_entity_step_shape h t n sv e acc) as [acc1 [o1 [He [Ho1|Ho1]]]]; subst o1.
    + rewrite (bind_run _ _ _ _ _ He) in H. exact (IH acc1 o s' H).
    + rewrite (bind_run_raise _ _ _ _ _ He) in H. injection H as <- <-.
      exists acc1. split; [reflexivity | right; reflexivity].
Qed.

Lemma tle_list_cases guid pageGuid widgetId w s wd le es :
  nth_error (heap_of s) w = Some (ODict wd) ->
  lookup "linkedEntities" wd = Some (VRef le) ->
  nth_error (heap_of s) le = Some (OList es) ->
  exists acc,
    transform_linked_entities guid pageGuid widgetId (VRef w) s =
    (Raise (DashboardValidationError "invalid linked entity element found in widget"),
     mkState (heap_of s ++ [OList acc]) (trace_of s) (ncalls s) (srv s)) \/
    transform_linked_entities guid pageGuid widgetId (VRef w) s =
    (Ok tt,
     mkState (set_nth (set_nth (heap_of s ++ [OList acc]) w
                (ODict (assoc_set "linkedEntityGuids" (VRef (length (heap_of s))) wd))) w
                (ODict (assoc_del "linkedEntities"
                   (assoc_set "linkedEntityGuids" (VRef (length (heap_of s))) wd))))
             (trace_of s) (ncalls s) (srv s)).
Proof.
  intros Hw Hle Hes.
  assert (Hwlt : w < length (heap_of s)) by (eapply nth_error_some_lt; eauto).
  assert (Hdw : dict_of (heap_of s) (VRef w) = Some wd) by (simpl; rewrite Hw; reflexivity).
  unfold transform_linked_entities.
  rewrite (bind_run _ _ _ _ _ (py_get_run (VRef w) "linkedEntities" s wd Hdw)).
  rewrite Hle.
  rewrite (bind_run get_heap _ s _ s eq_refl).
  assert (Hil : is_list (heap_of s) (VRef le) = true)
    by (unfold is_list, list_of; cbv iota; rewrite Hes; reflexivity).
  cbv beta iota. rewrite Hil. cbn [negb]. cbv iota.
  rewrite bind_assoc_run, (bind_run _ _ _ _ _ (alloc_run (OList []) s)). cbv beta.
  set (s0 := mkState (heap_of s ++ [OList []]) (trace_of s) (ncalls s) (srv s)).
  assert (Hes0 : nth_error (heap_of s0) le = Some (OList es))
    by (simpl; rewrite nth_error_app_lt by (eapply nth_error_some_lt; eauto); exact Hes).
  rewrite bind_assoc_run, (bind_run _ _ _ _ _ (py_iter_list_run le s0 es Hes0)).
  cbv beta. rewrite bind_assoc_run.
  match goal with
  | |- context [iterM ?f es] => destruct (iterM f es s0) as [o s2] eqn:Hit
  end.
  destruct (linked_entities_loop_shape (heap_of s) (trace_of s) (ncalls s) (srv s) es [] o s2 Hit)
    as [acc [-> [->| ->]]]; exists acc;
    [right; rewrite (bind_run _ _ _ _ _ Hit)
    |left; rewrite (bind_run_raise _ _ _ _ _ Hit); reflexivity].
  assert (Hw2 : nth_error (heap_of s ++ [OList acc]) w = Some (ODict wd))
    by (rewrite nth_error_app_lt by exact Hwlt; exact Hw).
  rewrite (bind_run _ _ _ _ _
    (py_setitem_run w "linkedEntityGuids" (VRef (length (heap_of s)))
       (mkState (heap_of s ++ [OList acc]) (trace_of s) (ncalls s) (srv s)) wd Hw2)).
  set (wd2 := assoc_set "linkedEntityGuids" (VRef (length (heap_of s))) wd).
  set (s3 := mkState (set_nth (heap_of s ++ [OList acc]) w (ODict wd2))
                     (trace_of s) (ncalls s) (srv s)).
  assert (Hw3 : nth_error (heap_of s3) w = Some (ODict wd2)).
  { simpl. apply nth_error_set_nth_eq. rewrite length_app; simpl; lia. }
  assert (Hl2 : lookup "linkedEntities" wd2 = Some (VRef le)).
  { unfold wd2. rewrite lookup_assoc_set_neq by discriminate. exact Hle. }
  rewrite (bind_run _ _ _ _ _ (py_contains_dict_run w "linkedEntities" s3 wd2 Hw3)).
  rewrite Hl2. cbv beta iota.
  rewrite (py_delitem_run w "linkedEntities" s3 wd2 (VRef le) Hw3 Hl2). reflexivity.
Qed.

(** A normal return from the linked-entities transformer on a widget dict
    with distinct keys leaves the widget without a [linkedEntities] key,
    and the widget dict stays where it was. *)
Lemma tle_ok_removes guid pageGuid widgetId w s s1 wd :
  nth_error (heap_of s) w = Some (ODict wd) ->
  NoDup (map fst wd) ->
  transform_linked_entities guid pageGuid widgetId (VRef w) s = (Ok tt, s1) ->
  exists wd1, nth_error (heap_of s1) w = Some (ODict wd1) /\
              lookup "linkedEntities" wd1 = None.
Proof.
  intros Hw Hnd H.
  assert (Hwlt : w < length (heap_of s)) by (eapply nth_error_some_lt; eauto).
  destruct (lookup "linkedEntities" wd) as [x|] eqn:Hle.
  2:{ rewrite (tle_absent_run _ _ _ _ _ _ Hw Hle) in H. injection H as <-. exists wd; auto. }
  destruct x as [| | | |le].
  { rewrite (tle_null_run _ _ _ _ _ _ Hw Hle) in H. injection H as <-.
    exists (assoc_del "linkedEntities" wd). simpl. split.
    - apply nth_error_set_nth_eq; exact Hwlt.
    - apply lookup_assoc_del_eq; exact Hnd. }
  1-3: rewrite (tle_not_list_run _ _ _ _ _ _ _ Hw Hle ltac:(discriminate) eq_refl) in H;
       discriminate H.
  destruct (nth_error (heap_of s) le) as [[d|es]|] eqn:Hes.
  1,3: rewrite (tle_not_list_run _ _ _ _ _ _ _ Hw Hle ltac:(discriminate)
                  ltac:(unfold is_list, list_of; rewrite Hes; reflexivity)) in H; discriminate H.
  destruct (tle_list_cases guid pageGuid widgetId _ _ _ _ _ Hw Hle Hes) as [acc [E|E]];
    rewrite E in H; [discriminate H|].
  injection H as <-. eexists. simpl. split.
  - apply nth_error_set_nth_eq. rewrite length_set_nth, length_app; simpl; lia.
  - apply lookup_assoc_del_eq. apply nodup_assoc_set; exact Hnd.
Qed.

(** Edge cases of the linked-entities transformer on a widget dict: with
    no [linkedEntities] key it changes nothing; with [linkedEntities: None]
    it only deletes that key; with a value that is neither [None] nor a
    list it raises [DashboardValidationError] and changes nothing. *)
Theorem transform_linked_entities_edges guid pageGuid widgetId w s wd :
  nth_error (heap_of s) w = Some (ODict wd) ->
  (lookup "linkedEntities" wd = None ->
     transform_linked_entities guid pageGuid widgetId (VRef w) s = (Ok tt, s)) /\
  (lookup "linkedEntities" wd = Some VNone ->
     transform_linked_entities guid pageGuid widgetId (VRef w) s =
     (Ok tt, mkState (set_nth (heap_of s) w (ODict (assoc_del "linkedEntities" wd)))
                     (trace_of s) (ncalls s) (srv s))) /\
  (forall x, lookup "linkedEntities" wd = Some x -> x <> VNone -> is_list (heap_of s) x = false ->
     transform_linked_entities guid pageGuid widgetId (VRef w) s =
     (Raise (DashboardValidationError "invalid linkedEntities element found in widget"), s)).
Proof.
  intros Hw. split; [|split].
  - apply tle_absent_run; exact Hw.
  - apply tle_null_run; exact Hw.
  - intros x Hle Hx Hnl. eapply tle_not_list_run; eauto.
Qed.

Lemma transform_linked_entities_edges_witness :
  transform_linked_entities VNone VNone (VInt 1) (VRef 0)
    (mkState [ODict [("id", VInt 1); ("linkedEntities", VNone)]] [] 0
             (const_server URLErrorRaised)) =
  (Ok tt, mkState [ODict [("id", VInt 1)]] [] 0 (const_server URLErrorRaised)).
Proof.
  destruct (transform_linked_entities_edges VNone VNone (VInt 1) 0
              (mkState [ODict [("id", VInt 1); ("linkedEntities", VNone)]] [] 0
                       (const_server URLErrorRaised))
              [("id", VInt 1); ("linkedEntities", VNone)] eq_refl) as [_ [H _]].
  apply (H eq_refl).
Defined.

(** On a widget dict with distinct keys, running the linked-entities
    transformer again after it returned normally changes nothing: the
    first run has removed [linkedEntities]. *)
Theorem transform_linked_entities_idempotent guid pageGuid widgetId w s s1 wd :
  nth_error (heap_of s) w = Some (ODict wd) ->
  NoDup (map fst wd) ->
  transform_linked_entities guid pageGuid widgetId (VRef w) s = (Ok tt, s1) ->
  transform_linked_entities guid pageGuid widgetId (VRef w) s1 = (Ok tt, s1).
Proof.
  intros Hw Hnd H.
  destruct (tle_ok_removes _ _ _ _ _ _ _ Hw Hnd H) as [wd1 [Hw1 Hle1]].
  apply (tle_absent_run _ _ _ _ _ _ Hw1 Hle1).
Qed.

Lemma transform_linked_entities_idempotent_witness :
  let s0 := mkState widget_heap [] 0 (const_server URLErrorRaised) in
  let s1 := snd (transform_linked_entities VNone VNone (VInt 1) (VRef 0) s0) in
  transform_linked_entities VNone VNone (VInt 1) (VRef 0) s1 = (Ok tt, s1).
Proof.
  intros s0 s1.
  apply (transform_linked_entities_idempotent VNone VNone (VInt 1) 0 s0 s1
           [("id", VInt 1); ("linkedEntities", VRef 1)]).
  - reflexivity.
  - constructor; [simpl; intros [H|[]]; discriminate | constructor; [simpl; tauto | constructor]].
  - vm_compute. reflexivity.
Defined.

(** When the linked-entities transformer raises, every cell that existed
    before holds what it held (the widget keeps its [linkedEntities]), and
    no request or backup was made; at most a fresh, unreachable [guids]
    list was added. *)
Theorem transform_linked_entities_raise_keeps guid pageGuid widgetId w s e s' :
  transform_linked_entities guid pageGuid widgetId w s = (Raise e, s') ->
  (forall i, i < length (heap_of s) -> nth_error (heap_of s') i = nth_error (heap_of s) i) /\
  trace_of s' = trace_of s /\ ncalls s' = ncalls s.
Proof.
  intros H.
  destruct (dict_of (heap_of s) w) as [wd|] eqn:Hdw.
  2:{ unfold transform_linked_entities, py_get, bind, get_heap in H. cbv beta iota in H.
      rewrite Hdw in H. injection H as _ <-. auto. }
  destruct w as [| | | |wl]; try discriminate Hdw.
  assert (Hw : nth_error (heap_of s) wl = Some (ODict wd))
    by (simpl in Hdw; destruct (nth_error (heap_of s) wl) as [[|]|]; congruence).
  destruct (lookup "linkedEntities" wd) as [x|] eqn:Hle.
  2:{ rewrite (tle_absent_run _ _ _ _ _ _ Hw Hle) in H. discriminate H. }
  destruct x as [| | | |le].
  { rewrite (tle_null_run _ _ _ _ _ _ Hw Hle) in H. discriminate H. }
  1-3: rewrite (tle_not_list_run _ _ _ _ _ _ _ Hw Hle ltac:(discriminate) eq_refl) in H;
       injection H as _ <-; auto.
  destruct (nth_error (heap_of s) le) as [[d|es]|] eqn:Hes.
  1,3: rewrite (tle_not_list_run _ _ _ _ _ _ _ Hw Hle ltac:(discriminate)
                  ltac:(unfold is_list, list_of; rewrite Hes; reflexivity)) in H;
       injection H as _ <-; auto.
  destruct (tle_list_cases guid pageGuid widgetId _ _ _ _ _ Hw Hle Hes) as [acc [E|E]];
    rewrite E in H; [|discriminate H].
  injection H as _ <-. simpl. split; [|auto].
  intros i Hi. apply nth_error_app_lt; exact Hi.
Qed.


Lemma transform_linked_entities_raise_keeps_witness :
  let s0 := mkState bad_entity_heap [] 0 (const_server URLErrorRaised) in
  fst (transform_linked_entities VNone VNone (VInt 1) (VRef 0) s0) =
    Raise (DashboardValidationError "invalid linked entity element found in widget") /\
  nth_error (heap_of (snd (transform_linked_entities VNone VNone (VInt 1) (VRef 0) s0))) 0 =
    nth_error bad_entity_heap 0.
Proof.
  intros s0. split; [vm_compute; reflexivity|].
  destruct (transform_linked_entities_raise_keeps VNone VNone (VInt 1) (VRef 0) s0
              (DashboardValidationError "invalid linked entity element found in widget")
              (snd (transform_linked_entities VNone VNone (VInt 1) (VRef 0) s0)))
    as [Hk _].
  - vm_compute. reflexivity.
  - apply Hk. vm_compute. lia.
Defined.

(** ** The status report *)

Lemma bind_ok {A B} (J : B -> Prop) (m : M A) (k : A -> M B) s :
  (forall a s', m s = (Ok a, s') -> ok_res J (fst (k a s'))) -> ok_res J (fst (bind m k s)).
Proof. unfold bind. destruct (m s) as [[a|e|] s1]; simpl; eauto. Qed.

Lemma results_set_ok k st rs s a s' :
  results_set k st rs s = (Ok a, s') -> a = status_set k st rs.
Proof. destruct k; simpl; intros H; try discriminate H; injection H as <- _; reflexivity. Qed.

Lemma status_of_report e st : status_of e = Some st -> report_status st = true.
Proof. destruct e; simpl; intros H; try discriminate H; injection H as <-; reflexivity. Qed.

Section Report.
Variable process : val -> val -> M unit.
Variable J : list (val * string) -> Prop.
Hypothesis HJ : forall k st rs, scalar k = true -> report_status st = true -> J rs ->
  J (status_set k st rs).

Lemma results_set_J k st rs s a s' :
  report_status st = true -> J rs -> results_set k st rs s = (Ok a, s') -> J a.
Proof.
  intros Hst Hrs H. pose proof (results_set_ok _ _ _ _ _ _ H) as ->.
  apply HJ; auto. destruct k; simpl in H |- *; try discriminate H; reflexivity.
Qed.

Lemma try_step_J g r results s :
  J results ->
  ok_res J (fst (try_except (process g r ;;; results_set g "OK" results)
                   (fun e => match status_of e with
                             | Some st => Some (results_set g st results)
                             | None => None
                             end) s)).
Proof.
  intros Hn. unfold try_except.
  destruct ((process g r ;;; results_set g "OK" results) s) as [[a|e|] s1] eqn:E; simpl.
  - unfold bind in E. destruct (process g r s) as [[u|e|] s0]; try discriminate E.
    exact (results_set_J g "OK" results s0 a s1 eq_refl Hn E).
  - destruct (status_of e) as [st|] eqn:Est; [|exact I].
    destruct (results_set g st results s1) as [[a|e'|] s2] eqn:E2; simpl; try exact I.
    exact (results_set_J _ _ _ _ _ _ (status_of_report _ _ Est) Hn E2).
  - exact I.
Qed.

Lemma process_entries_J entries : forall results s,
  J results -> ok_res J (fst (process_entries process entries results s)).
Proof.
  induction entries as [|dc rest IH]; intros results s Hn; cbn [process_entries].
  - exact Hn.
  - apply bind_ok. intros h s1 _.
    destruct (negb (is_dict h dc)); [apply IH; exact Hn|].
    apply bind_ok. intros guid s2 _.
    apply bind_ok. intros rr s3 _.
    apply bind_ok. intros h' s4 _.
    destruct (negb (truthy h' guid) || negb (truthy h' rr)); [apply IH; exact Hn|].
    apply bind_ok. intros results' s5 E.
    pose proof (try_step_J guid rr results s4 Hn) as T. rewrite E in T.
    apply IH; exact T.
Qed.

Lemma process_dashboard_updates_J config s :
  J [] -> ok_res J (fst (process_dashboard_updates process config s)).
Proof.
  intros H0. unfold process_dashboard_updates.
  apply bind_ok. intros has s1 _. destruct (negb has); [exact H0|].
  apply bind_ok. intros ds s2 _.
  apply bind_ok. intros h s3 _.
  destruct (negb (is_list h ds)); [exact H0|].
  apply bind_ok. intros entries s4 _. apply process_entries_J. exact H0.
Qed.

End Report.

Lemma key_eq_sym a b : key_eq a b = key_eq b a.
Proof.
  destruct a, b; simpl; try reflexivity.
  - destruct b, b0; reflexivity.
  - apply Z.eqb_sym.
  - apply String.eqb_sym.
Qed.

Lemma status_set_keys k st rs p :
  In p (status_set k st rs) -> fst p = k \/ In (fst p) (map fst rs).
Proof.
  induction rs as [|[k' st'] r IH]; simpl.
  - intros [<-|[]]; left; reflexivity.
  - destruct (key_eq k k'); simpl.
    + intros [<-|Hp]; [right; left; reflexivity | right; right; apply in_map; exact Hp].
    + intros [<-|Hp]; [right; left; reflexivity|].
      destruct (IH Hp) as [E|E]; [left; exact E | right; right; exact E].
Qed.

Lemma status_set_distinct k st rs :
  keys_distinct rs = true -> keys_distinct (status_set k st rs) = true.
Proof.
  induction rs as [|[k' st'] r IH]; simpl; intros H.
  - reflexivity.
  - apply andb_true_iff in H as [Hall Hr].
    destruct (key_eq k k') eqn:Ek; simpl.
    + rewrite Hall, Hr. reflexivity.
    + rewrite IH by exact Hr. rewrite andb_true_r.
      apply forallb_forall. intros p Hp.
      destruct (status_set_keys _ _ _ _ Hp) as [E|E].
      * rewrite E, key_eq_sym, Ek. reflexivity.
      * rewrite forallb_forall in Hall.
        apply in_map_iff in E as [q [Eq Hq]]. rewrite <- Eq. exact (Hall q Hq).
Qed.

Lemma status_set_report k st rs :
  report_status st = true -> forallb (fun p => report_status (snd p)) rs = true ->
  forallb (fun p => report_status (snd p)) (status_set k st rs) = true.
Proof.
  intros Hst. induction rs as [|[k' st'] r IH]; simpl; intros H.
  - rewrite Hst. reflexivity.
  - apply andb_true_iff in H as [H1 H2].
    destruct (key_eq k k'); simpl; [rewrite Hst, H2 | rewrite H1, IH by exact H2]; reflexivity.
Qed.

(** Whatever the per-dashboard step does, a status report returned by
    [process_dashboard_updates] has one entry per guid (no two of its
    guids are [==]) and every status in it is one of [OK], [NOT FOUND],
    [INVALID] and [API ERROR]. *)
Theorem process_dashboard_updates_report process config s :
  ok_res (fun rs => keys_distinct rs = true /\
                    forallb (fun p => report_status (snd p)) rs = true)
    (fst (process_dashboard_updates process config s)).
Proof.
  apply process_dashboard_updates_J; [|split; reflexivity].
  intros k st rs _ Hst [H1 H2]. split.
  - apply status_set_distinct; exact H1.
  - apply status_set_report; assumption.
Qed.

(** The configuration is read leniently: a dict without a [dashboards]
    key, or whose [dashboards] is not a list, gives an empty report and no
    work at all. *)
Theorem process_dashboard_updates_no_dashboards process config s d :
  dict_of (heap_of s) config = Some d ->
  (lookup "dashboards" d = None ->
     process_dashboard_updates process config s = (Ok [], s)) /\
  (forall ds, lookup "dashboards" d = Some ds -> is_list (heap_of s) ds = false ->
     process_dashboard_updates process config s = (Ok [], s)).
Proof.
  intros Hd.
  destruct config as [| | | |l]; try discriminate Hd.
  assert (Hl : nth_error (heap_of s) l = Some (ODict d))
    by (simpl in Hd; destruct (nth_error (heap_of s) l) as [[|]|]; congruence).
  unfold process_dashboard_updates.
  rewrite (bind_run _ _ _ _ _ (py_contains_dict_run l "dashboards" s d Hl)).
  split.
  - intros Hn. rewrite Hn. reflexivity.
  - intros ds Hds Hnl. rewrite Hds. cbv beta iota. cbn [negb]. cbv iota.
    rewrite (bind_run _ _ _ _ _ (py_getitem_run (VRef l) "dashboards" s d ds Hd Hds)).
    rewrite (bind_run get_heap _ s _ s eq_refl). rewrite Hnl. reflexivity.
Qed.

Lemma process_dashboard_updates_no_dashboards_witness :
  process_dashboard_updates (fun _ _ => raise (PyError "unused")) (VRef 0)
    (mkState [ODict [("dashboards", VStr "x")]] [] 0 (const_server URLErrorRaised)) =
  (Ok [], mkState [ODict [("dashboards", VStr "x")]] [] 0 (const_server URLErrorRaised)).
Proof.
  destruct (process_dashboard_updates_no_dashboards (fun _ _ => raise (PyError "unused"))
              (VRef 0) (mkState [ODict [("dashboards", VStr "x")]] [] 0
                                (const_server URLErrorRaised))
              [("dashboards", VStr "x")] eq_refl) as [_ H].
  apply (H (VStr "x") eq_refl eq_refl).
Defined.

(** Entries the loop cannot use are skipped without any effect: one that
    is not a dict, or whose [guid] or [refreshRate] is missing or falsy. *)
Theorem process_entries_skip process dc rest results s :
  (dict_of (heap_of s) dc = None \/
   exists d, dict_of (heap_of s) dc = Some d /\
     (truthy (heap_of s) (match lookup "guid" d with Some x => x | None => VNone end) = false \/
      truthy (heap_of s) (match lookup "refreshRate" d with Some x => x | None => VNone end)
        = false)) ->
  process_entries process (dc :: rest) results s = process_entries process rest results s.
Proof. apply entries_skip_run. Qed.

Lemma process_entries_skip_witness :
  process_entries (fun _ _ => raise (PyError "unused"))
    [VRef 0; VInt 7] []
    (mkState [ODict [("guid", VStr ""); ("refreshRate", VInt 60)]] [] 0
             (const_server URLErrorRaised)) =
  process_entries (fun _ _ => raise (PyError "unused")) [VInt 7] []
    (mkState [ODict [("guid", VStr ""); ("refreshRate", VInt 60)]] [] 0
             (const_server URLErrorRaised)).
Proof.
  apply process_entries_skip. right.
  exists [("guid", VStr ""); ("refreshRate", VInt 60)]. split; [reflexivity|left; reflexivity].
Defined.

(** ** What a run sends out *)

#[export] Instance trace_ok_refl region dir : Reflexive (trace_ok region dir).
Proof. intros s. exists []. rewrite app_nil_r. split; reflexivity. Qed.

#[export] Instance trace_ok_trans region dir : Transitive (trace_ok region dir).
Proof.
  intros s1 s2 s3 [T1 [E1 H1]] [T2 [E2 H2]]. exists (T1 ++ T2).
  rewrite E2, E1, app_assoc. split; [reflexivity|].
  rewrite forallb_app, H1, H2. reflexivity.
Qed.

Lemma sat_trace_of_no_io {A} region dir P F (m : M A) :
  sat no_io P F m -> sat (trace_ok region dir) P F m.
Proof.
  intros H s. destruct (H s) as [[Ht _] H2]. split; [|exact H2].
  exists []. rewrite app_nil_r. split; [exact Ht | reflexivity].
Qed.

Ltac tr_leaves := first [ quiet_leaves | apply sat_trace_of_no_io; quiet_leaves ].

Section Trace.
Variable region : string.
Variable dir : option string.
Let Tr := trace_ok region dir.
Let ok {A} (m : M A) := sat Tr (fun _ => True) True m.

Lemma tr_urlopen d : ok (urlopen (graphql_url region) d).
Proof.
  intros s. split; [|exact I]. exists [EPost (graphql_url region) d].
  split; [reflexivity|]. simpl. rewrite String.eqb_refl. reflexivity.
Qed.

Lemma tr_post_graphql p : ok (post_graphql p region).
Proof.
  unfold ok, post_graphql. apply sat_bind; try typeclasses eauto.
  - apply sat_dump_payload; try typeclasses eauto; intros; exact I.
  - intros d. apply sat_bind; try typeclasses eauto; [apply tr_urlopen|].
    intros r. apply sat_handle_response; try typeclasses eauto; try (intros; exact I).
    intros; apply sat_trace_of_no_io, sat_json_loads_no_io.
Qed.

Lemma tr_query_loop fuel q ncp mut results :
  forall nc vs, ok (query_loop fuel q ncp mut region results nc vs).
Proof.
  unfold ok. induction fuel as [|f IH]; intros nc vs; cbn [query_loop].
  - intros s; split; [reflexivity | exact I].
  - cbv zeta. sat_decompose ltac:(exact I); first [apply tr_post_graphql | apply IH | tr_leaves].
Qed.

Lemma tr_query_graphql fuel q vs ncp mut : ok (query_graphql fuel q vs ncp mut region).
Proof.
  unfold ok, query_graphql. sat_decompose ltac:(exact I); first [apply tr_query_loop | tr_leaves].
Qed.

Lemma tr_process_dashboard_update fuel guid rate :
  ok (process_dashboard_update fuel guid rate dir region).
Proof.
  unfold ok, process_dashboard_update.
  apply sat_bind; try typeclasses eauto.
  { unfold get_dashboard. sat_decompose ltac:(exact I); first [apply tr_query_graphql | tr_leaves]. }
  intros dashboard.
  apply sat_bind; try typeclasses eauto.
  { unfold fixup_linked_entities. apply (sat_transform_widgets Tr (fun _ => True) True);
      try typeclasses eauto; try (intros; exact I).
    intros; unfold transform_linked_entities; sat_decompose ltac:(exact I); tr_leaves. }
  intros _. apply sat_bind; try typeclasses eauto.
  - destruct dir as [d|] eqn:Hdir; [destruct (String.eqb d "") eqn:Hd|];
      try (apply sat_ret; typeclasses eauto).
    unfold backup_dashboard. apply sat_bind; try typeclasses eauto; [tr_leaves|].
    intros snap s. split; [|exact I]. exists [EBackup d guid snap]. split; [reflexivity|].
    simpl. rewrite String.eqb_refl, Hd. reflexivity.
  - intros _. apply sat_bind; try typeclasses eauto.
    + unfold update_refresh_rates. apply (sat_transform_widgets Tr (fun _ => True) True);
        try typeclasses eauto; try (intros; exact I).
      intros; unfold update_refresh_rate; sat_decompose ltac:(exact I); tr_leaves.
    + intros _. unfold update_dashboard.
      sat_decompose ltac:(exact I); first [apply tr_query_graphql | tr_leaves].
Qed.

Lemma tr_results_set k st rs : ok (results_set k st rs).
Proof. unfold ok. destruct k; simpl; try apply sat_ret; try apply sat_raise; try typeclasses eauto; exact I. Qed.

Lemma tr_try_except {A} (m : M A) handler :
  ok m -> (forall e k, handler e = Some k -> ok k) -> ok (try_except m handler).
Proof.
  intros Hm Hk s. unfold try_except. destruct (Hm s) as [R1 _].
  destruct (m s) as [[a|e|] s1]; simpl in *; try (split; [exact R1 | exact I]).
  destruct (handler e) as [k|] eqn:He; [|split; [exact R1 | exact I]].
  destruct (Hk e k He s1) as [R2 R3]. split; [etransitivity; eauto | exact R3].
Qed.

Lemma tr_process_entries (process : val -> val -> M unit) :
  (forall g r, ok (process g r)) ->
  forall entries results, ok (process_entries process entries results).
Proof.
  intros Hp entries. induction entries as [|dc rest IH]; intros results; cbn [process_entries].
  - apply sat_ret; typeclasses eauto.
  - unfold ok. apply sat_bind; try typeclasses eauto; [apply sat_get_heap; typeclasses eauto|].
    intros h. destruct (negb (is_dict h dc)); [apply IH|].
    apply sat_bind; try typeclasses eauto; [tr_leaves | intros guid].
    apply sat_bind; try typeclasses eauto; [tr_leaves | intros rr].
    apply sat_bind; try typeclasses eauto; [apply sat_get_heap; typeclasses eauto | intros h'].
    destruct (negb (truthy h' guid) || negb (truthy h' rr)); [apply IH|].
    apply sat_bind; try typeclasses eauto; [|intros; apply IH].
    apply tr_try_except.
    + apply sat_bind; try typeclasses eauto; [apply Hp | intros; apply tr_results_set].
    + intros e k He. destruct (status_of e); [|discriminate He].
      injection He as <-. apply tr_results_set.
Qed.

Lemma tr_process_all fuel config : ok (process_all fuel dir region config).
Proof.
  unfold ok, process_all, process_dashboard_updates.
  apply sat_bind; try typeclasses eauto; [tr_leaves | intros has].
  destruct (negb has); [apply sat_ret; typeclasses eauto|].
  apply sat_bind; try typeclasses eauto; [tr_leaves | intros ds].
  apply sat_bind; try typeclasses eauto; [apply sat_get_heap; typeclasses eauto | intros h].
  destruct (negb (is_list h ds)); [apply sat_ret; typeclasses eauto|].
  apply sat_bind; try typeclasses eauto; [tr_leaves | intros entries].
  apply tr_process_entries. intros g r. apply tr_process_dashboard_update.
Qed.

End Trace.

(** Whatever the configuration, the server and the fuel, a whole run only
    ever POSTs to the GraphQL endpoint of the chosen region, and calls
    [backup_dashboard] only when a non-empty backup directory is given
    (the backup event records that argument, not the file path built from
    it and the guid); with no backup directory, or an empty one, it writes
    no backup at all. *)
Theorem process_all_events fuel dir region config s :
  exists T, trace_of (snd (process_all fuel dir region config s)) = trace_of s ++ T /\
  Forall (fun e => (exists p, e = EPost (graphql_url region) p) \/
                   (exists d g snap, dir = Some d /\ d <> "" /\ e = EBackup d g snap)) T.
Proof.
  destruct (tr_process_all region dir fuel config s) as [[T [ET HT]] _].
  exists T. split; [exact ET|].
  apply Forall_forall. intros e He. rewrite forallb_forall in HT. specialize (HT e He).
  destruct e as [u p|d g snap]; simpl in HT.
  - left. exists p. apply String.eqb_eq in HT. rewrite HT. reflexivity.
  - right. destruct dir as [d'|]; [|discriminate HT].
    apply andb_true_iff in HT as [H1 H2]. apply String.eqb_eq in H1.
    exists d, g, snap. subst d'. split; [reflexivity|]. split; [|reflexivity].
    intros E; rewrite E in H2; discriminate H2.
Qed.

(** ** Fetching a dashboard *)

Lemma bind_ok_inv {A B} (m : M A) (k : A -> M B) s b s' :
  bind m k s = (Ok b, s') -> exists a s1, m s = (Ok a, s1) /\ k a s1 = (Ok b, s').
Proof.
  unfold bind. destruct (m s) as [[a|e|] s1]; intros H; try discriminate H. eauto.
Qed.


(** [get_dashboard] returns only after one request, the query with the
    guid as its only variable, answered with status 200 and a JSON object
    without [errors] whose [data] holds an object at [actor.entity]; the
    dashboard returned is the decoding of that object, in cells allocated
    by the run. *)
Theorem get_dashboard_ok fuel g region s v s' :
  get_dashboard (S fuel) (VStr g) region s = (Ok v, s') ->
  exists reason kvs dj ekvs,
    srv s (ncalls s) (graphql_url region) (get_dashboard_request g) =
      Response 200 reason (BodyText (Some (JObj kvs))) /\
    jlookup "errors" kvs = None /\ jlookup "data" kvs = Some dj /\
    jget dj ["actor"; "entity"] = JFound (JObj ekvs) /\
    repr (S (length (heap_of s))) (heap_of s') v (JObj ekvs) /\
    trace_of s' = trace_of s ++ [EPost (graphql_url region) (get_dashboard_request g)] /\
    ncalls s' = S (ncalls s).
Proof.
  intros H. unfold get_dashboard in H. cbv zeta in H.
  apply bind_ok_inv in H as [res [sq [Eq H]]].
  unfold query_graphql in Eq.
  apply bind_ok_inv in Eq as [l [s1 [Ea Eq]]].
  rewrite alloc_run in Ea. injection Ea as <- <-.
  set (s1 := mkState (heap_of s ++ [OList []]) (trace_of s) (ncalls s) (srv s)) in Eq.
  apply bind_ok_inv in Eq as [u [sl [El Eq]]].
  injection Eq as <- <-.
  cbn [query_loop] in El. cbv zeta in El. cbn [path_truthy] in El. cbv iota in El.
  apply bind_ok_inv in El as [r [s2 [Ep El]]].
  destruct (post_graphql_io (build_graphql_payload get_dashboard_query
              [("guid", ("EntityGuid!", VStr g))] false) region s1) as [Sv [[ext G] _]].
  rewrite Ep in Sv, G. cbn [snd] in Sv, G.
  destruct (post_graphql_ok_inv _ _ _ _ _ Ep)
    as [d [reason [kvs [dj [Ed [Hsrv [He [Hdj [Hrep [T N]]]]]]]]]].
  assert (Hd : d = get_dashboard_request g) by (vm_compute in Ed; injection Ed as <-; reflexivity).
  subst d.
  assert (Hl2 : nth_error (heap_of s2) (length (heap_of s)) = Some (OList [])).
  { rewrite G. simpl. rewrite <- app_assoc. apply nth_error_app_len. }
  apply bind_ok_inv in El as [u2 [s3 [Eap El]]].
  rewrite (py_append_run (VRef (length (heap_of s))) r s2 [] _ eq_refl Hl2) in Eap.
  injection Eap as _ <-. cbv beta in El.
  set (h3 := set_nth (heap_of s2) (length (heap_of s)) (OList [r])) in El.
  set (s3 := mkState h3 (trace_of s2) (ncalls s2) (srv s2)) in El.
  rewrite (bind_run (ret VNone) _ s3 VNone s3 eq_refl) in El.
  rewrite (bind_run get_heap _ s3 _ s3 eq_refl) in El. cbn [truthy] in El.
  injection El as _ <-.
  assert (Hl3 : nth_error h3 (length (heap_of s)) = Some (OList [r])).
  { unfold h3. apply nth_error_set_nth_eq. eapply nth_error_some_lt; eauto. }
  assert (Hlen : py_len_list (VRef (length (heap_of s))) s3 = (Ok 1, s3)).
  { unfold py_len_list, bind, get_heap. cbn [heap_of s3 list_of]. rewrite Hl3. reflexivity. }
  rewrite (bind_run _ _ _ _ _ Hlen) in H. cbn [Nat.eqb negb] in H. cbv iota in H.
  assert (Hix : py_index (VRef (length (heap_of s))) 0 s3 = (Ok r, s3)).
  { unfold py_index, bind, get_heap. cbn [heap_of s3 list_of]. rewrite Hl3. reflexivity. }
  rewrite (bind_run _ _ _ _ _ Hix) in H.
  rewrite (bind_run (get_nested r "actor.entity") _ s3 _ s3 eq_refl) in H.
  rewrite (bind_run get_heap _ s3 _ s3 eq_refl) in H.
  assert (Hrep3 : repr (S (length (heap_of s))) h3 r dj).
  { eapply repr_frame; [exact Hrep| |].
    - unfold s1; simpl. rewrite length_app; simpl; lia.
    - intros i Hi _. unfold h3. rewrite nth_error_set_nth_neq by (unfold s1 in Hi; simpl in Hi;
        rewrite length_app in Hi; simpl in Hi; lia). reflexivity. }
  pose proof (get_nested_helper_repr ["actor"; "entity"] dj _ _ _ Hrep3) as Hg.
  unfold get_nested_pure in H. change (split_on "." "actor.entity") with ["actor"; "entity"] in H.
  cbn [heap_of s3] in H.
  destruct (jget dj ["actor"; "entity"]) as [x| |] eqn:Ej.
  2, 3: rewrite Hg in H; discriminate H.
  destruct (is_dict h3 (get_nested_helper h3 r ["actor"; "entity"])) eqn:Hid;
    [|discriminate H].
  injection H as <- <-.
  destruct x as [| | | | |ekvs];
    try (unfold is_dict in Hid; rewrite (repr_not_dict _ _ _ _ Hg) in Hid by discriminate;
         discriminate Hid).
  exists reason, kvs, dj, ekvs. cbn [heap_of trace_of ncalls s3].
  unfold s1 in Hsrv, T, N; cbn [srv ncalls trace_of] in Hsrv, T, N.
  repeat split; auto.
Qed.


Lemma get_dashboard_ok_witness :
  exists v s',
    get_dashboard 1 (VStr "g1") "US" (empty_state (const_server dashboard_reply)) = (Ok v, s') /\
    exists reason kvs dj ekvs,
      srv (empty_state (const_server dashboard_reply)) 0 (graphql_url "US")
        (get_dashboard_request "g1") = Response 200 reason (BodyText (Some (JObj kvs))) /\
      jlookup "errors" kvs = None /\ jlookup "data" kvs = Some dj /\
      jget dj ["actor"; "entity"] = JFound (JObj ekvs) /\
      repr 1 (heap_of s') v (JObj ekvs) /\
      trace_of s' = [EPost (graphql_url "US") (get_dashboard_request "g1")] /\
      ncalls s' = 1.
Proof.
  eexists; eexists. split; [vm_compute; reflexivity|].
  apply (get_dashboard_ok 0 "g1" "US" (empty_state (const_server dashboard_reply))).
  vm_compute. reflexivity.
Defined.

(** ** Updating a dashboard *)

Lemma bind_quiet_trace {A B} (m : M A) (k : A -> M B) s :
  (forall a, quiet (k a)) -> trace_of (snd (bind m k s)) = trace_of (snd (m s)).
Proof.
  intros Hk. unfold bind. destruct (m s) as [[a|e|] s1]; simpl; auto.
  destruct (Hk a s1) as [[T _] _]. exact T.
Qed.

(** Without a cursor path, [query_graphql] sends exactly the serialised
    payload, once. *)
Lemma query_graphql_sends fuel q vs mut region s d :
  dump_payload (build_graphql_payload q vs mut)
    (mkState (heap_of s ++ [OList []]) (trace_of s) (ncalls s) (srv s)) =
    (Ok d, mkState (heap_of s ++ [OList []]) (trace_of s) (ncalls s) (srv s)) ->
  trace_of (snd (query_graphql (S fuel) q vs None mut region s)) =
  trace_of s ++ [EPost (graphql_url region) d].
Proof.
  intros Hd. unfold query_graphql.
  rewrite (bind_run _ _ _ _ _ (alloc_run (OList []) s)). cbv beta.
  rewrite bind_quiet_trace by (intros a; unfold quiet; apply sat_ret; typeclasses eauto).
  cbn [query_loop]. cbv zeta. cbn [path_truthy]. cbv iota.
  rewrite bind_quiet_trace.
  - rewrite (post_graphql_run _ _ _ _ Hd). cbn [heap_of trace_of ncalls srv].
    destruct (handle_response_facts
                (srv s (ncalls s) (graphql_url region) d)
                (mkState (heap_of s ++ [OList []]) (trace_of s ++ [EPost (graphql_url region) d])
                   (S (ncalls s)) (srv s))) as [[T _] _].
    rewrite T. reflexivity.
  - intros a. unfold quiet. apply sat_bind; try typeclasses eauto; [quiet_leaves | intros _].
    change (bind (ret VNone) ?k) with (k VNone). cbv beta.
    apply sat_bind; try typeclasses eauto; [apply sat_get_heap; typeclasses eauto | intros h].
    cbn [truthy]. apply sat_ret; typeclasses eauto.
Qed.


(** [update_dashboard] sends one request, and only one, whatever the
    reply: the mutation with the guid and the dashboard serialised as it is
    when [update_dashboard] is called. *)
Theorem update_dashboard_sends fuel g dashboard region s dj :
  json_dumps dashboard s = (Ok dj, s) ->
  trace_of (snd (update_dashboard (S fuel) (VStr g) dashboard region s)) =
  trace_of s ++ [EPost (graphql_url region) (update_dashboard_request g dj)].
Proof.
  intros Hj.
  assert (Hdump : dump (heap_of s) (S (length (heap_of s))) dashboard = Some dj).
  { unfold json_dumps, bind, get_heap in Hj. cbv beta iota in Hj.
    destruct (dump (heap_of s) (S (length (heap_of s))) dashboard); [|discriminate Hj].
    injection Hj as ->. reflexivity. }
  unfold update_dashboard. cbv zeta.
  rewrite bind_quiet_trace by (intros a; unfold quiet; sat_decompose ltac:(exact I); quiet_leaves).
  apply query_graphql_sends.
  set (s1 := mkState (heap_of s ++ [OList []]) (trace_of s) (ncalls s) (srv s)).
  assert (H1 : json_dumps dashboard s1 = (Ok dj, s1)).
  { apply json_dumps_run. eapply dump_mono; [exact Hdump|]. simpl. rewrite length_app. simpl. lia. }
  unfold dump_payload. cbn [build_graphql_payload p_variables map fst snd mapM].
  repeat first [ rewrite bind_assoc_run
                | rewrite (bind_run _ _ _ _ _ H1)
                | rewrite (bind_run (json_dumps (VStr g)) _ s1 (JStr g) s1 eq_refl)
                | rewrite (bind_run (ret _) _ s1 _ s1 eq_refl) ]; cbv beta.
  reflexivity.
Qed.

Lemma update_dashboard_sends_witness :
  trace_of (snd (update_dashboard 1 (VStr "g1") (VRef 0) "US"
    (mkState [ODict [("name", VStr "d")]] [] 0 (const_server URLErrorRaised)))) =
  [] ++ [EPost (graphql_url "US")
           (update_dashboard_request "g1" (JObj [("name", JStr "d")]))].
Proof.
  apply (update_dashboard_sends 0 "g1" (VRef 0) "US"
           (mkState [ODict [("name", VStr "d")]] [] 0 (const_server URLErrorRaised))).
  reflexivity.
Defined.

(** ** Visiting the widgets *)

(** [transform_widgets] on a dashboard dict: when [pages] is missing or
    falsy (an empty list among others) it returns at once with nothing
    changed, for any transformer; when [pages] is truthy but not a list it
    raises [DashboardValidationError] with nothing changed. *)
Theorem transform_widgets_pages_edges guid dashboard f s d :
  dict_of (heap_of s) dashboard = Some d ->
  (truthy (heap_of s) (match lookup "pages" d with Some x => x | None => VNone end) = false ->
     transform_widgets guid dashboard f s = (Ok tt, s)) /\
  (forall x, lookup "pages" d = Some x -> truthy (heap_of s) x = true ->
     is_list (heap_of s) x = false ->
     transform_widgets guid dashboard f s =
     (Raise (DashboardValidationError "invalid pages element found for dashboard entity"), s)).
Proof.
  intros Hd. unfold transform_widgets.
  rewrite (bind_run _ _ _ _ _ (py_get_run dashboard "pages" s d Hd)).
  rewrite (bind_run get_heap _ s _ s eq_refl). cbv beta.
  split.
  - intros Hf. rewrite Hf. reflexivity.
  - intros x Hx Ht Hl. rewrite Hx, Ht, Hl. reflexivity.
Qed.

Lemma transform_widgets_pages_edges_witness :
  transform_widgets VNone (VRef 0) (fun _ _ _ _ => raise (PyError "unused"))
    (mkState [ODict [("pages", VRef 1)]; OList []] [] 0 (const_server URLErrorRaised)) =
  (Ok tt, mkState [ODict [("pages", VRef 1)]; OList []] [] 0 (const_server URLErrorRaised)).
Proof.
  destruct (transform_widgets_pages_edges VNone (VRef 0) (fun _ _ _ _ => raise (PyError "unused"))
              (mkState [ODict [("pages", VRef 1)]; OList []] [] 0 (const_server URLErrorRaised))
              [("pages", VRef 1)] eq_refl) as [H _].
  apply H. reflexivity.
Defined.
